(** * icv-toolkit: the SVRF-to-PXL translator and the DRC result comparator

  A shallow embedding of [mini_translator_prototype.py] and of the
  comparator of [compare_drc_results.py], with the properties of the
  design document stated and settled against them; then the report
  parsers and the driver of [compare_drc_results.py] and the comparison
  of [compare_variables.py], with further properties of the code.

  Conventions of the embedding.
  - A Python [str] is a [string]; a character is a code point below 256
    (the character classes follow Python's [re] and [str] methods on
    that range).
  - A Python [int] is a [Z]; a Python [float] is an IEEE 754 binary64
    value, see [Module Float].
  - A [dict] is an association list in insertion order, which is the
    order Python iterates it in.
  - A method that can raise returns a [result]; a method that updates
    [self] takes the object and returns the new one.
  - The generator is embedded a second time over a heap of objects
    ([Module Heap]), where a statement can change any object it has a
    reference to; that it changes none is proved there. *)

From Stdlib Require Import Bool Arith ZArith QArith Lia List.
From Stdlib Require Import Ascii String DecimalString.
From Stdlib Require Import Permutation Sorted.
From Stdlib Require OrderedTypeEx.
Import ListNotations.

Local Open Scope string_scope.
Local Open Scope list_scope.

(* ====================================================================== *)
(** * Python strings *)
(* ====================================================================== *)

Module PyStr.

Definition code (c : ascii) : nat := nat_of_ascii c.

Definition between (lo hi : nat) (c : ascii) : bool :=
  (lo <=? code c)%nat && (code c <=? hi)%nat.

Definition one_of (cs : string) (c : ascii) : bool :=
  existsb (Ascii.eqb c) (list_ascii_of_string cs).

(** [str.isspace] on one character, which is also the class [\s] of a
    [str] pattern: TAB LF VT FF CR, FS GS RS US, space, NEL and NBSP. *)
Definition isspace (c : ascii) : bool :=
  between 9 13 c || between 28 32 c
  || (code c =? 133)%nat || (code c =? 160)%nat.

(** The class [\d]: the decimal digits (no other code point below 256
    has category Nd). *)
Definition isdigit (c : ascii) : bool := between 48 57 c.

(** The class [\w]: alphanumeric code points and the underscore. *)
Definition isword (c : ascii) : bool :=
  isdigit c || between 65 90 c || between 97 122 c || (code c =? 95)%nat
  || (code c =? 170)%nat || (code c =? 181)%nat || (code c =? 186)%nat
  || between 178 179 c || (code c =? 185)%nat || between 188 190 c
  || between 192 214 c || between 216 246 c || between 248 255 c.

(** [sub in s] *)
Fixpoint contains (sub s : string) : bool :=
  prefix sub s ||
  match s with
  | EmptyString => false
  | String _ s' => contains sub s'
  end.

(** [s.startswith(p)] *)
Definition startswith (p s : string) : bool := prefix p s.

(** [s.count(c)] for a one-character [c] *)
Fixpoint count (c : ascii) (s : string) : Z :=
  match s with
  | EmptyString => 0
  | String d s' => (if Ascii.eqb d c then 1 else 0) + count c s'
  end%Z.

(** [s.split(c)] for a one-character separator [c]: never empty. *)
Fixpoint split (c : ascii) (s : string) : list string :=
  match s with
  | EmptyString => [EmptyString]
  | String d s' =>
      if Ascii.eqb d c then EmptyString :: split c s'
      else match split c s' with
           | [] => [String d EmptyString]
           | w :: ws => String d w :: ws
           end
  end.

Fixpoint lstrip (s : string) : string :=
  match s with
  | String c s' => if isspace c then lstrip s' else s
  | EmptyString => EmptyString
  end.

Fixpoint rstrip (s : string) : string :=
  match s with
  | EmptyString => EmptyString
  | String c s' =>
      match rstrip s' with
      | EmptyString => if isspace c then EmptyString else String c EmptyString
      | t => String c t
      end
  end.

(** [s.strip()] *)
Definition strip (s : string) : string := rstrip (lstrip s).

(** [sep.join(ls)] *)
Definition join (sep : string) (ls : list string) : string :=
  String.concat sep ls.

(** [s.upper()] on the letters a-z, the only ones whose upper case can
    be a letter of the keywords it is compared with. *)
Definition upper_char (c : ascii) : ascii :=
  if between 97 122 c then ascii_of_nat (code c - 32) else c.

Fixpoint upper (s : string) : string :=
  match s with
  | EmptyString => EmptyString
  | String c s' => String (upper_char c) (upper s')
  end.

(** The number a string of decimal digits writes.  (The call [int(s)],
    which refuses long strings, is [Py.int] below.) *)
Definition digit_val (c : ascii) : Z := Z.of_nat (code c - 48).

Fixpoint of_digits_acc (acc : Z) (s : string) : Z :=
  match s with
  | EmptyString => acc
  | String c s' => of_digits_acc (10 * acc + digit_val c) s'
  end.

Definition of_digits (s : string) : Z := of_digits_acc 0 s.

(** [str(n)].  The numbers printed are numbers read by [Py.int] and the
    lengths of lists; numbers of more than 4300 digits, which [str]
    refuses, are not modelled. *)
Definition str_of_Z (n : Z) : string :=
  NilZero.string_of_int (Z.to_int n).

Definition nl : string := String (ascii_of_nat 10) EmptyString.
Definition dquote : string := String (ascii_of_nat 34) EmptyString.

End PyStr.

(* ====================================================================== *)
(** * The fragment of Python's [re] the two programs use *)
(* ====================================================================== *)

Module Re.

(** Patterns.  Repetition is only ever applied to a character class in
    the sources, so [Plus] and [Star] carry the class. *)
Inductive regex : Type :=
| Lit (s : string)                (* literal text *)
| Plus (cls : ascii -> bool)      (* [cls]+, greedy *)
| Star (cls : ascii -> bool)      (* [cls]*, greedy *)
| LazyAny                         (* .*? under DOTALL *)
| Alt (r1 r2 : regex)             (* r1|r2 *)
| Seq (r1 r2 : regex)             (* r1 r2 *)
| Opt (r : regex)                 (* (?:r)? , greedy *)
| Group (n : nat) (r : regex).    (* the n-th capture group *)

Definition groups := list (nat * string).

Fixpoint group (g : groups) (n : nat) : option string :=
  match g with
  | [] => None
  | (m, s) :: g' => if (m =? n)%nat then Some s else group g' n
  end.

Fixpoint strip_prefix (p s : string) : option string :=
  match p, s with
  | EmptyString, _ => Some s
  | String a p', String b s' =>
      if Ascii.eqb a b then strip_prefix p' s' else None
  | String _ _, EmptyString => None
  end.

(** The text consumed between the position [s] and the later position
    [s'] (a suffix of [s]). *)
Definition consumed (s s' : string) : string :=
  substring 0 (String.length s - String.length s') s.

Section Backtracking.
Context {A : Type}.

(** A continuation receives the rest of the subject and the groups
    captured so far; [None] makes the matcher backtrack. *)
Definition cont := string -> groups -> option A.

Definition orelse (x : option A) (y : unit -> option A) : option A :=
  match x with Some _ => x | None => y tt end.

(** Greedy repetition of a class: the longest run first, then one
    character less at a time. *)
Fixpoint greedy (cls : ascii -> bool) (s : string) (g : groups)
         (k : cont) : option A :=
  match s with
  | String c s' =>
      if cls c then orelse (greedy cls s' g k) (fun _ => k s g)
      else k s g
  | EmptyString => k s g
  end.

(** Lazy repetition of any character: the shortest run first. *)
Fixpoint lazy_any (s : string) (g : groups) (k : cont) : option A :=
  orelse (k s g)
    (fun _ => match s with
              | String _ s' => lazy_any s' g k
              | EmptyString => None
              end).

Fixpoint bt (r : regex) (s : string) (g : groups) (k : cont)
  : option A :=
  match r with
  | Lit p =>
      match strip_prefix p s with
      | Some s' => k s' g
      | None => None
      end
  | Plus cls =>
      match s with
      | String c s' => if cls c then greedy cls s' g k else None
      | EmptyString => None
      end
  | Star cls => greedy cls s g k
  | LazyAny => lazy_any s g k
  | Alt r1 r2 => orelse (bt r1 s g k) (fun _ => bt r2 s g k)
  | Seq r1 r2 => bt r1 s g (fun s' g' => bt r2 s' g' k)
  | Opt r1 => orelse (bt r1 s g k) (fun _ => k s g)
  | Group n r1 =>
      bt r1 s g (fun s' g' => k s' ((n, consumed s s') :: g'))
  end.
End Backtracking.

(** A match at the start of [s]: the groups and the text after it. *)
Definition match_here (r : regex) (s : string) : option (groups * string) :=
  bt r s [] (fun s' g => Some (g, s')).

(** [re.match(r, s)] *)
Definition re_match (r : regex) (s : string) : option groups :=
  option_map fst (match_here r s).

(** [re.search(r, s)]: the leftmost position with a match. *)
Fixpoint search (r : regex) (s : string) : option groups :=
  match re_match r s with
  | Some g => Some g
  | None =>
      match s with
      | String _ s' => search r s'
      | EmptyString => None
      end
  end.

(** [re.sub(r, '', s)]: every leftmost non-overlapping match removed.
    [skip] counts the characters of the current match still to drop. *)
Fixpoint sub_empty_from (r : regex) (skip : nat) (s : string) : string :=
  match s with
  | EmptyString => EmptyString
  | String c s' =>
      match skip with
      | S n => sub_empty_from r n s'
      | O =>
          match match_here r s with
          | Some (_, rest) =>
              match (String.length s - String.length rest)%nat with
              | O => String c (sub_empty_from r 0 s')
              | S n => sub_empty_from r n s'
              end
          | None => String c (sub_empty_from r 0 s')
          end
      end
  end.

Definition sub_empty (r : regex) (s : string) : string :=
  sub_empty_from r 0 s.

(** Concatenation of several patterns. *)
Fixpoint cat (rs : list regex) : regex :=
  match rs with
  | [] => Lit ""
  | [r] => r
  | r :: rs' => Seq r (cat rs')
  end.

End Re.


(* ====================================================================== *)
(** * Python floats: IEEE 754 binary64 *)
(* ====================================================================== *)

Module Float.

Import PyStr.
Local Open Scope Z_scope.

(** A finite value is [m * 2^e], kept with [m] odd (or [m = 0], [e = 0])
    so that equal values are equal terms.  The sign of a zero is not
    kept: no operation of the two programs tells the two zeros apart. *)
Inductive float : Type :=
| Finite (m e : Z)
| Inf (negative : bool)
| NaN.

Fixpoint odd_part (p : positive) : positive * Z :=
  match p with
  | xO q => let (r, k) := odd_part q in (r, k + 1)
  | _ => (p, 0)
  end.

Definition finite (m e : Z) : float :=
  match m with
  | Z0 => Finite 0 0
  | Zpos p => let (r, k) := odd_part p in Finite (Zpos r) (e + k)
  | Zneg p => let (r, k) := odd_part p in Finite (Zneg r) (e + k)
  end.

(** The exact value of [m * 2^e]. *)
Definition to_Q (m e : Z) : Q :=
  if 0 <=? e then (m * 2 ^ e) # 1 else m # Z.to_pos (2 ^ (- e)).

(** [floor (log_b (n / d))] for [n, d > 0], from an estimate [k] that is
    exact or one too large. *)
Definition floor_log (b n d k : Z) : Z :=
  if d * b ^ Z.max 0 k <=? n * b ^ Z.max 0 (- k) then k else k - 1.

Definition floor_log2 (n d : Z) : Z :=
  floor_log 2 n d (Z.log2 n - Z.log2 d).

(** The integer nearest to [n / d], ties to the even one ([d > 0]). *)
Definition round_half_even (n d : Z) : Z :=
  let q := n / d in
  match 2 * (n mod d) ?= d with
  | Lt => q
  | Gt => q + 1
  | Eq => if Z.even q then q else q + 1
  end.

(** Rounding of an exact rational to the nearest binary64 value, ties to
    even: 53 bits of precision, exponents from -1074, overflow to
    infinity. Every arithmetic operation and every decimal conversion of
    IEEE 754 is the exact result rounded this way. *)
Definition round64 (q : Q) : float :=
  match Qnum q with
  | Z0 => Finite 0 0
  | n =>
      let a := Z.abs n in
      let d := Zpos (Qden q) in
      let p := Z.max (floor_log2 a d - 52) (-1074) in
      let r := round_half_even (a * 2 ^ Z.max 0 (- p)) (d * 2 ^ Z.max 0 p) in
      if (r =? 0) then Finite 0 0
      else if 1024 <=? Z.log2 r + p then Inf (n <? 0)
      else finite (Z.sgn n * r) p
  end.

(** [x - y] *)
Definition sub (x y : float) : float :=
  match x, y with
  | NaN, _ | _, NaN => NaN
  | Inf a, Inf b => if Bool.eqb a b then NaN else Inf a
  | Inf a, Finite _ _ => Inf a
  | Finite _ _, Inf b => Inf (negb b)
  | Finite m1 e1, Finite m2 e2 => round64 (to_Q m1 e1 - to_Q m2 e2)
  end.

(** [abs(x)] *)
Definition abs (x : float) : float :=
  match x with
  | Finite m e => Finite (Z.abs m) e
  | Inf _ => Inf false
  | NaN => NaN
  end.

Definition Qltb (a b : Q) : bool :=
  match Qcompare a b with Lt => true | _ => false end.

(** [x < y] *)
Definition ltb (x y : float) : bool :=
  match x, y with
  | NaN, _ | _, NaN => false
  | Finite m1 e1, Finite m2 e2 => Qltb (to_Q m1 e1) (to_Q m2 e2)
  | Finite _ _, Inf b => negb b
  | Inf a, Finite _ _ => a
  | Inf a, Inf b => a && negb b
  end.

(** [x == y] *)
Definition eqb (x y : float) : bool :=
  match x, y with
  | Finite m1 e1, Finite m2 e2 => (m1 =? m2) && (e1 =? e2)
  | Inf a, Inf b => Bool.eqb a b
  | _, _ => false
  end.

Fixpoint all_digits (s : string) : bool :=
  match s with
  | EmptyString => true
  | String c s' => isdigit c && all_digits s'
  end.

Definition pow10 (n : nat) : positive := Z.to_pos (10 ^ Z.of_nat n).

(** [float(s)] for a token of digits and dots, the only strings the
    patterns of the translator hand to it: digits with at most one dot
    and at least one digit convert, anything else raises [ValueError]
    ([None]). *)
Definition of_string (s : string) : option float :=
  match split "." s with
  | [i] =>
      if all_digits i && negb (String.eqb i "") then Some (round64 (of_digits i # 1))
      else None
  | [i; f] =>
      if all_digits i && all_digits f && negb (String.eqb (i ++ f) "")
      then Some (round64 (of_digits (i ++ f) # pow10 (String.length f)))
      else None
  | _ => None
  end.

(** [round(x, 3)]: the decimal with three places nearest to [x] (ties to
    even), read back as a float. *)
Definition round3 (x : float) : float :=
  match x with
  | Finite m e =>
      let q := to_Q m e in
      round64 (round_half_even (Qnum q * 1000) (Zpos (Qden q)) # 1000)
  | _ => x
  end.

(** ** [repr]: the shortest decimal that reads back as the same float *)

Definition ndigits10 (n : Z) : Z := Z.of_nat (String.length (str_of_Z n)).

Definition floor_log10 (n d : Z) : Z :=
  floor_log 10 n d (ndigits10 n - ndigits10 d).

(** The decimal [c * 10^ex] as a float. *)
Definition of_decimal (c ex : Z) : float :=
  if 0 <=? ex then round64 (c * 10 ^ ex # 1)
  else round64 (c # Z.to_pos (10 ^ (- ex))).

(** With [p] significant digits: the two decimals around the positive
    value [n / d] (whose decimal exponent is [k]); the one that reads
    back as [x], the nearer when both do, the even one on a tie. *)
Definition shortest_at (x : float) (n d k p : Z) : option (Z * Z) :=
  let ex := k - p + 1 in
  let n' := n * 10 ^ Z.max 0 (- ex) in
  let d' := d * 10 ^ Z.max 0 ex in
  let lo := n' / d' in
  let hi := lo + 1 in
  let r := n' mod d' in
  if r =? 0 then Some (lo, ex)
  else
    match eqb (of_decimal lo ex) x, eqb (of_decimal hi ex) x with
    | true, true =>
        match 2 * r ?= d' with
        | Lt => Some (lo, ex)
        | Gt => Some (hi, ex)
        | Eq => Some (if Z.even lo then lo else hi, ex)
        end
    | true, false => Some (lo, ex)
    | false, true => Some (hi, ex)
    | false, false => None
    end.

(** The first precision, from [p] on, at which a decimal reads back;
    seventeen digits always do. *)
Fixpoint shortest (fuel : nat) (x : float) (n d k p : Z) : Z * Z :=
  match fuel with
  | O => (round_half_even (n * 10 ^ Z.max 0 (p - 1 - k))
                          (d * 10 ^ Z.max 0 (k - p + 1)), k - p + 1)
  | S fuel' =>
      match shortest_at x n d k p with
      | Some r => r
      | None => shortest fuel' x n d k (p + 1)
      end
  end.

Fixpoint zeros (n : nat) : string :=
  match n with O => "" | S n' => String "0" (zeros n') end.

Fixpoint strip_zeros (s : string) : string :=
  match s with
  | EmptyString => EmptyString
  | String c s' =>
      match strip_zeros s' with
      | EmptyString => if Ascii.eqb c "0" then EmptyString else String c EmptyString
      | t => String c t
      end
  end.

(** The digits [ds] with the decimal point after the first [decpt] of
    them, in fixed notation, or with an exponent when [decpt] is not in
    (-4, 16]. *)
Definition format_repr (ds : string) (decpt : Z) : string :=
  let len := Z.of_nat (String.length ds) in
  if (decpt <=? -4) || (16 <? decpt) then
    let mant :=
      match ds with
      | String c EmptyString => ds
      | String c rest => String c ("." ++ rest)
      | EmptyString => ds
      end in
    let e := decpt - 1 in
    let es := str_of_Z (Z.abs e) in
    let sign := if e <? 0 then "-" else "+" in
    let pad := if (String.length es <? 2)%nat then "0" else "" in
    (mant ++ "e" ++ sign ++ pad ++ es)%string
  else if decpt <=? 0 then
    ("0." ++ zeros (Z.to_nat (- decpt)) ++ ds)%string
  else if len <=? decpt then
    (ds ++ zeros (Z.to_nat (decpt - len)) ++ ".0")%string
  else
    (substring 0 (Z.to_nat decpt) ds ++ "."
       ++ substring (Z.to_nat decpt) (Z.to_nat (len - decpt)) ds)%string.

Definition repr_pos (x : float) (n d : Z) : string :=
  let k := floor_log10 n d in
  let (c, ex) := shortest 17 x n d k 1 in
  let ds := str_of_Z c in
  format_repr (strip_zeros ds) (Z.of_nat (String.length ds) + ex).

(** [repr(x)], which is also what an f-string prints for [x]. *)
Definition repr (x : float) : string :=
  match x with
  | NaN => "nan"
  | Inf false => "inf"
  | Inf true => "-inf"
  | Finite 0 _ => "0.0"
  | Finite m e =>
      let q := to_Q (Z.abs m) e in
      let sign := if m <? 0 then "-" else "" in
      (sign ++ repr_pos (Finite (Z.abs m) e) (Qnum q) (Zpos (Qden q)))%string
  end.

(** A float literal of the source text. *)
Definition lit (s : string) : float :=
  match of_string s with Some x => x | None => NaN end.

End Float.


(* ====================================================================== *)
(** * Exceptions, dictionaries and files *)
(* ====================================================================== *)

Module Py.

Inductive exn : Type :=
| ValueError
| FileNotFoundError
| OSError.

(** The outcome of a call that can raise. *)
Inductive result (A : Type) : Type :=
| Ok (a : A)
| Raise (e : exn).

Arguments Ok {A} a.
Arguments Raise {A} e.

Definition bind {A B : Type} (x : result A) (f : A -> result B) : result B :=
  match x with
  | Ok a => f a
  | Raise e => Raise e
  end.

(** [float(s)] as a call that can raise. *)
Definition float (s : string) : result Float.float :=
  match Float.of_string s with
  | Some x => Ok x
  | None => Raise ValueError
  end.

(** The longest digit string [int] converts (CPython from 3.11 on, and
    the security releases of 3.7 to 3.10:
    [sys.int_info.default_max_str_digits]). *)
Definition max_str_digits : nat := 4300.

(** [int(s)] for a string of decimal digits, the only strings the
    patterns of the translator hand to it: a string of more than
    [max_str_digits] digits, leading zeros counted, raises
    [ValueError]. *)
Definition int (s : string) : result Z :=
  if (max_str_digits <? String.length s)%nat then Raise ValueError
  else Ok (PyStr.of_digits s).

(** The truth value of an [Optional[str]]: [None] and the empty string
    are false. *)
Definition truthy (o : option string) : bool :=
  match o with
  | Some (String _ _) => true
  | _ => false
  end.

Definition text (o : option string) : string :=
  match o with Some s => s | None => "" end.

(** A [dict] with [str] keys, in insertion order. *)
Definition dict (V : Type) : Type := list (string * V).

Fixpoint dict_get {V : Type} (d : dict V) (k : string) : option V :=
  match d with
  | [] => None
  | (k', v) :: d' => if String.eqb k' k then Some v else dict_get d' k
  end.

Definition dict_mem {V : Type} (d : dict V) (k : string) : bool :=
  match dict_get d k with Some _ => true | None => false end.

(** [d[k] = v]: a new key goes last, an old key keeps its place. *)
Fixpoint dict_set {V : Type} (d : dict V) (k : string) (v : V) : dict V :=
  match d with
  | [] => [(k, v)]
  | (k', v') :: d' =>
      if String.eqb k' k then (k, v) :: d' else (k', v') :: dict_set d' k v
  end.

Definition keys {V : Type} (d : dict V) : list string := map fst d.
Definition values {V : Type} (d : dict V) : list V := map snd d.

(** [sorted(l, key=key)] for an integer key: a stable sort. *)
Fixpoint insert_by {A : Type} (key : A -> Z) (x : A) (l : list A) : list A :=
  match l with
  | [] => [x]
  | y :: l' =>
      if (key x <=? key y)%Z then x :: l else y :: insert_by key x l'
  end.

Definition sorted_by {A : Type} (key : A -> Z) (l : list A) : list A :=
  fold_right (fun x acc => insert_by key x acc) [] l.

(** The files the driver can see: their contents by path, and the paths
    that cannot be opened for writing. *)
Record FileSystem : Type := {
  files : dict string;
  unwritable : list string
}.

(** [open(path, 'r').read()] *)
Definition read_file (fs : FileSystem) (path : string) : result string :=
  match dict_get (files fs) path with
  | Some content => Ok content
  | None => Raise FileNotFoundError
  end.

(** [open(path, 'w').write(content)] *)
Definition write_file (fs : FileSystem) (path content : string)
  : result FileSystem :=
  if existsb (String.eqb path) (unwritable fs) then Raise OSError
  else Ok {| files := dict_set (files fs) path content;
             unwritable := unwritable fs |}.

End Py.

Declare Scope py_scope.
Delimit Scope py_scope with py.
Notation "x <- e ;; k" := (Py.bind e (fun x => k))
  (at level 61, e at next level, right associativity) : py_scope.

(* ====================================================================== *)
(** * mini_translator_prototype.py: the intermediate representation *)
(* ====================================================================== *)

Import PyStr.
Local Open Scope py_scope.

(** Every node class has a [to_pxl] method. *)
Class PXL (A : Type) : Type := to_pxl : A -> string.

Module LayerDef.

Record t : Type := {
  name : string;
  gds_layer : Z;
  gds_datatype : Z
}.

#[global] Instance pxl : PXL t := fun self =>
  (name self ++ " = layer(" ++ str_of_Z (gds_layer self) ++ ", "
     ++ str_of_Z (gds_datatype self) ++ ");")%string.

End LayerDef.

(** The optional [// comment] line every rule starts with. *)
Definition comment_lines (comment : option string) : list string :=
  if Py.truthy comment then [("// " ++ Py.text comment)%string] else [].

(** The registration call that ends every check. *)
Definition drc_deck (violation_var rule_name kind operator : string)
           (value : Float.float) : string :=
  ("drc_deck(" ++ violation_var ++ ", " ++ dquote ++ rule_name ++ dquote
     ++ ", " ++ dquote ++ kind ++ " violation: " ++ operator ++ " "
     ++ Float.repr value ++ "um" ++ dquote ++ ");")%string.

Module WidthCheck.

Record t : Type := {
  rule_name : string;
  layer : string;
  operator : string;
  value : Float.float;
  comment : option string
}.

#[global] Instance pxl : PXL t := fun self =>
  let lines := comment_lines (comment self) in
  let violation_var := (rule_name self ++ "_violations")%string in
  let lines := lines ++
    [(violation_var ++ " = width(" ++ layer self ++ ") " ++ operator self
       ++ " " ++ Float.repr (value self) ++ ";")%string] in
  let lines := lines ++
    [drc_deck violation_var (rule_name self) "Width" (operator self)
       (value self)] in
  join nl lines.

End WidthCheck.

Module SpacingCheck.

Record t : Type := {
  rule_name : string;
  layer : string;
  operator : string;
  value : Float.float;
  comment : option string
}.

#[global] Instance pxl : PXL t := fun self =>
  let lines := comment_lines (comment self) in
  let violation_var := (rule_name self ++ "_violations")%string in
  let lines := lines ++
    [(violation_var ++ " = external_distance(" ++ layer self ++ ", "
       ++ layer self ++ ") " ++ operator self ++ " "
       ++ Float.repr (value self) ++ ";")%string] in
  let lines := lines ++
    [drc_deck violation_var (rule_name self) "Spacing" (operator self)
       (value self)] in
  join nl lines.

End SpacingCheck.

Module EnclosureCheck.

Record t : Type := {
  rule_name : string;
  outer_layer : string;
  inner_layer : string;
  operator : string;
  value : Float.float;
  comment : option string
}.

#[global] Instance pxl : PXL t := fun self =>
  let lines := comment_lines (comment self) in
  let violation_var := (rule_name self ++ "_violations")%string in
  let lines := lines ++
    [(violation_var ++ " = external_enclosure(" ++ outer_layer self ++ ", "
       ++ inner_layer self ++ ") " ++ operator self ++ " "
       ++ Float.repr (value self) ++ ";")%string] in
  let lines := lines ++
    [drc_deck violation_var (rule_name self) "Enclosure" (operator self)
       (value self)] in
  join nl lines.

End EnclosureCheck.

Module BooleanOp.

Record t : Type := {
  result_name : string;
  operation : string;
  layer1 : string;
  layer2 : option string;
  comment : option string
}.

Definition op_map : Py.dict string :=
  [("AND", "and"); ("OR", "or"); ("NOT", "not")].

#[global] Instance pxl : PXL t := fun self =>
  let lines := comment_lines (comment self) in
  let pxl_op :=
    match Py.dict_get op_map (upper (operation self)) with
    | Some op => op
    | None => "and"
    end in
  let lines :=
    if Py.truthy (layer2 self) then
      lines ++ [(result_name self ++ " = " ++ layer1 self ++ " " ++ pxl_op
                  ++ " " ++ Py.text (layer2 self) ++ ";")%string]
    else
      lines ++ [(result_name self ++ " = " ++ pxl_op ++ " " ++ layer1 self
                  ++ ";")%string] in
  join nl lines.

End BooleanOp.

(** What the [rules] list of the parser holds. *)
Inductive Rule : Type :=
| Width (r : WidthCheck.t)
| Spacing (r : SpacingCheck.t)
| Enclosure (r : EnclosureCheck.t)
| Boolean (r : BooleanOp.t).

#[global] Instance Rule_pxl : PXL Rule := fun rule =>
  match rule with
  | Width r => to_pxl r
  | Spacing r => to_pxl r
  | Enclosure r => to_pxl r
  | Boolean r => to_pxl r
  end.

(* ====================================================================== *)
(** * mini_translator_prototype.py: the parser *)
(* ====================================================================== *)

Import Re.

(** The parser object. *)
Record SVRFParser : Type := {
  layers : Py.dict LayerDef.t;
  rules : list Rule;
  current_rule_name : option string
}.

(** [SVRFParser()] *)
Definition SVRFParser_init : SVRFParser :=
  {| layers := []; rules := []; current_rule_name := None |}.

(** [self.rules.append(rule)] *)
Definition rules_append (self : SVRFParser) (rule : Rule) : SVRFParser :=
  {| layers := layers self;
     rules := rules self ++ [rule];
     current_rule_name := current_rule_name self |}.

(** [self.layers[name] = layer] *)
Definition layers_set (self : SVRFParser) (name : string) (layer : LayerDef.t)
  : SVRFParser :=
  {| layers := Py.dict_set (layers self) name layer;
     rules := rules self;
     current_rule_name := current_rule_name self |}.

(** [self.current_rule_name = rule_name] *)
Definition set_current_rule_name (self : SVRFParser) (rule_name : string)
  : SVRFParser :=
  {| layers := layers self;
     rules := rules self;
     current_rule_name := Some rule_name |}.

(** The character classes [[<>=!]] and [[\d.]]. *)
Definition op_char : ascii -> bool := one_of "<>=!".
Definition num_char (c : ascii) : bool := isdigit c || one_of "." c.

(** A group that takes part in every match of its pattern. *)
Definition grp (m : groups) (n : nat) : string := Py.text (group m n).

(** [/\*.*?\*/] with DOTALL *)
Definition comment_re : regex := cat [Lit "/*"; LazyAny; Lit "*/"].

(** [LAYER\s+(\w+)\s+(\d+)(?:\s+(\d+))?] *)
Definition layer_re : regex :=
  cat [Lit "LAYER"; Plus isspace; Group 1 (Plus isword); Plus isspace;
       Group 2 (Plus isdigit);
       Opt (Seq (Plus isspace) (Group 3 (Plus isdigit)))].

(** [KEYWORD\s+(\w+)\s*([<>=!]+)\s*([\d.]+)] *)
Definition check_re (keyword : string) : regex :=
  cat [Lit keyword; Plus isspace; Group 1 (Plus isword); Star isspace;
       Group 2 (Plus op_char); Star isspace; Group 3 (Plus num_char)].

(** [ENC\s+(\w+)\s+(\w+)\s*([<>=!]+)\s*([\d.]+)] *)
Definition enc_re : regex :=
  cat [Lit "ENC"; Plus isspace; Group 1 (Plus isword); Plus isspace;
       Group 2 (Plus isword); Star isspace; Group 3 (Plus op_char);
       Star isspace; Group 4 (Plus num_char)].

(** [(\w+)\s*=\s*(AND|OR|NOT)\s+(\w+)(?:\s+(\w+))?] *)
Definition assignment_re : regex :=
  cat [Group 1 (Plus isword); Star isspace; Lit "="; Star isspace;
       Group 2 (Alt (Lit "AND") (Alt (Lit "OR") (Lit "NOT")));
       Plus isspace; Group 3 (Plus isword);
       Opt (Seq (Plus isspace) (Group 4 (Plus isword)))].

(** [SVRFParser._parse_layer] *)
Definition _parse_layer (self : SVRFParser) (line : string)
  : Py.result SVRFParser :=
  match re_match layer_re line with
  | Some m =>
      let name := grp m 1 in
      gds_layer <- Py.int (grp m 2) ;;
      gds_datatype <-
        (if Py.truthy (group m 3) then Py.int (grp m 3) else Py.Ok 0%Z) ;;
      let layer := {| LayerDef.name := name;
                      LayerDef.gds_layer := gds_layer;
                      LayerDef.gds_datatype := gds_datatype |} in
      Py.Ok (layers_set self name layer)
  | None => Py.Ok self
  end.

(** [SVRFParser._parse_rule_block] *)
Definition _parse_rule_block (self : SVRFParser) (rule_name block : string)
           (comment : option string) : Py.result SVRFParser :=
  if contains "WIDTH" block then
    match search (check_re "WIDTH") block with
    | Some m =>
        let layer := grp m 1 in
        let operator := grp m 2 in
        value <- Py.float (grp m 3) ;;
        Py.Ok (rules_append self (Width
          {| WidthCheck.rule_name := rule_name;
             WidthCheck.layer := layer;
             WidthCheck.operator := operator;
             WidthCheck.value := value;
             WidthCheck.comment := comment |}))
    | None => Py.Ok self
    end
  else if contains "EXTERNAL" block then
    match search (check_re "EXTERNAL") block with
    | Some m =>
        let layer := grp m 1 in
        let operator := grp m 2 in
        value <- Py.float (grp m 3) ;;
        Py.Ok (rules_append self (Spacing
          {| SpacingCheck.rule_name := rule_name;
             SpacingCheck.layer := layer;
             SpacingCheck.operator := operator;
             SpacingCheck.value := value;
             SpacingCheck.comment := comment |}))
    | None => Py.Ok self
    end
  else if contains "INTERNAL" block then
    match search (check_re "INTERNAL") block with
    | Some m =>
        let layer := grp m 1 in
        let operator := grp m 2 in
        value <- Py.float (grp m 3) ;;
        Py.Ok (rules_append self (Spacing
          {| SpacingCheck.rule_name := rule_name;
             SpacingCheck.layer := layer;
             SpacingCheck.operator := operator;
             SpacingCheck.value := value;
             SpacingCheck.comment := comment |}))
    | None => Py.Ok self
    end
  else if contains "ENC" block then
    match search enc_re block with
    | Some m =>
        let outer := grp m 1 in
        let inner := grp m 2 in
        let operator := grp m 3 in
        value <- Py.float (grp m 4) ;;
        Py.Ok (rules_append self (Enclosure
          {| EnclosureCheck.rule_name := rule_name;
             EnclosureCheck.outer_layer := outer;
             EnclosureCheck.inner_layer := inner;
             EnclosureCheck.operator := operator;
             EnclosureCheck.value := value;
             EnclosureCheck.comment := comment |}))
    | None => Py.Ok self
    end
  else Py.Ok self.

(** [SVRFParser._parse_assignment] *)
Definition _parse_assignment (self : SVRFParser) (line : string)
  : SVRFParser :=
  match re_match assignment_re line with
  | Some m =>
      let result := grp m 1 in
      let operation := grp m 2 in
      let layer1 := grp m 3 in
      let layer2 := group m 4 in
      let comment :=
        if contains "@" line then Some (strip (nth 1 (split "@" line) ""))
        else None in
      rules_append self (Boolean
        {| BooleanOp.result_name := result;
           BooleanOp.operation := operation;
           BooleanOp.layer1 := layer1;
           BooleanOp.layer2 := layer2;
           BooleanOp.comment := comment |})
  | None => self
  end.

(** The opening line of a rule block: the rule name, the inline comment
    and the brace count after it. *)
Definition block_name (line : string) : string :=
  strip (nth 0 (split "{" line) "").

Definition block_comment (line : string) : option string :=
  if contains "@" line
  then Some (strip (nth 0 (split "}" (nth 1 (split "@" line) "")) ""))
  else None.

Definition braces (line : string) : Z := (count "{" line - count "}" line)%Z.

(** The loop of [SVRFParser.parse_file] over the lines still to read.
    The inner loop gathers the lines of a rule block while braces are
    open (or the file ends), hands the block to the classifier and the
    outer loop goes on after it. *)
Fixpoint parse_lines (self : SVRFParser) (lines : list string) {struct lines}
  : Py.result SVRFParser :=
  match lines with
  | [] => Py.Ok self
  | l :: rest =>
      let line := strip l in
      if String.eqb line "" || startswith "//" line then
        parse_lines self rest
      else if startswith "LAYER " line then
        self' <- _parse_layer self line ;;
        parse_lines self' rest
      else if contains "{" line then
        let rule_name := block_name line in
        let self := set_current_rule_name self rule_name in
        let comment := block_comment line in
        (fix gather (ls : list string) (brace_count : Z)
             (rule_lines : list string) {struct ls} : Py.result SVRFParser :=
           match ls with
           | [] =>
               _parse_rule_block self rule_name (join nl rule_lines) comment
           | x :: ls' =>
               if (0 <? brace_count)%Z then
                 gather ls' (brace_count + braces x)%Z (rule_lines ++ [x])
               else
                 self' <- _parse_rule_block self rule_name
                            (join nl rule_lines) comment ;;
                 parse_lines self' ls
           end) rest (braces line) [line]
      else if contains "=" line && negb (startswith "LAYER" line) then
        parse_lines (_parse_assignment self line) rest
      else parse_lines self rest
  end.

Definition LF : ascii := ascii_of_nat 10.

(** [SVRFParser.parse_file], after the file is read: the block comments
    go, the text is cut into lines and the loop runs over them. *)
Definition parse_text (self : SVRFParser) (content : string)
  : Py.result SVRFParser :=
  let content := sub_empty comment_re content in
  let lines := split LF content in
  parse_lines self lines.

(** [SVRFParser.parse_file] *)
Definition parse_file (self : SVRFParser) (fs : Py.FileSystem)
           (filename : string) : Py.result SVRFParser :=
  content <- Py.read_file fs filename ;;
  parse_text self content.

(* ====================================================================== *)
(** * mini_translator_prototype.py: the generator and the driver *)
(* ====================================================================== *)

(** The generator object. *)
Record PXLGenerator : Type := {
  output_lines : list string
}.

(** [PXLGenerator()] *)
Definition PXLGenerator_init : PXLGenerator := {| output_lines := [] |}.

Definition bar : string :=
  "// ============================================================================".

(** [PXLGenerator.generate_header] *)
Definition generate_header (self : PXLGenerator) : string :=
  join nl
    [bar;
     "// Automatically Generated by SVRF-to-PXL Translator (Prototype)";
     bar;
     "// This file was automatically translated from Calibre SVRF format";
     "// Manual review and validation recommended";
     bar;
     "";
     "#include <icv.rh>";
     "";
     ""].

(** [PXLGenerator.generate_layers] *)
Definition generate_layers (self : PXLGenerator) (layers : Py.dict LayerDef.t)
  : string :=
  let lines := [bar; "// LAYER DEFINITIONS"; (bar ++ nl)%string] in
  let lines :=
    lines ++ map to_pxl (Py.sorted_by LayerDef.gds_layer (Py.values layers)) in
  let lines := lines ++ [""] in
  join nl lines.

(** [PXLGenerator.generate_rules] *)
Definition generate_rules (self : PXLGenerator) (rules : list Rule) : string :=
  let lines := [bar; "// DRC RULES"; (bar ++ nl)%string] in
  let lines := lines ++ flat_map (fun rule => [to_pxl rule; ""]) rules in
  join nl lines.

(** [PXLGenerator.generate_footer] *)
Definition generate_footer (self : PXLGenerator) : string :=
  join nl [bar; "// END OF DRC DECK"; bar; ""].

(** [PXLGenerator.generate], as a function of the values of the
    generator and the parser, which it returns with the text.  What the
    call does to the objects themselves is the matter of the module
    [Heap] below. *)
Definition generate (self : PXLGenerator) (parser : SVRFParser)
  : string * PXLGenerator * SVRFParser :=
  let output :=
    [generate_header self;
     generate_layers self (layers parser);
     generate_rules self (rules parser);
     generate_footer self] in
  (join nl output, self, parser).

(** The command line of the driver. *)
Record Args : Type := {
  input : string;
  output : string;
  verbose : bool;
  stats : bool
}.

(** The body of the [try] of [main]: parse, generate, write.  The
    messages on the console are left out. *)
Definition translate (args : Args) (fs : Py.FileSystem)
  : Py.result Py.FileSystem :=
  let parser := SVRFParser_init in
  parser <- parse_file parser fs (input args) ;;
  let generator := PXLGenerator_init in
  let '(pxl_code, _, _) := generate generator parser in
  Py.write_file fs (output args) pxl_code.

(** [main]: the exit code and the files it leaves. *)
Definition main (args : Args) (fs : Py.FileSystem) : Z * Py.FileSystem :=
  match translate args fs with
  | Py.Ok fs' => (0%Z, fs')
  | Py.Raise Py.FileNotFoundError => (1%Z, fs)
  | Py.Raise _ => (1%Z, fs)
  end.


(* ====================================================================== *)
(** * The generator once more, over the objects of the interpreter *)
(* ====================================================================== *)

(** A Python method is handed references to objects, and nothing in its
    signature keeps it from assigning to them.  Here the objects live in
    a heap, a reference is an address, and each statement of the source
    is a step that takes the heap and leaves one: [lines = []] makes an
    object, [lines.append(x)] changes one, [parser.layers] reads one.
    Strings, integers and floats cannot be changed in Python; they are
    held in the objects as values. *)
Module Heap.

Definition ref : Type := nat.

(** What a list or a dictionary holds: a string, or a reference to an
    object. *)
Inductive value : Type :=
| Str (s : string)
| Ref (r : ref).

Inductive object : Type :=
| List (items : list value)
| Dict (items : Py.dict value)
| Layer (fields : LayerDef.t)
    (** an instance of [LayerDef] *)
| Node (fields : Rule)
    (** an instance of [WidthCheck], [SpacingCheck], [EnclosureCheck] or
        [BooleanOp] *)
| Parser (layers : ref) (rules : ref) (current_rule_name : option string)
    (** an instance of [SVRFParser] *)
| Generator (output_lines : ref).
    (** an instance of [PXLGenerator] *)

Definition heap : Type := list object.

(** How a call ends: it returns a value and leaves a heap, it raises
    (an object is not of the class the statement needs), or the steps
    it was allowed are used up. *)
Inductive outcome (A : Type) : Type :=
| Returns (a : A) (h : heap)
| Raises
| Unfinished.

Arguments Returns {A} a h.
Arguments Raises {A}.
Arguments Unfinished {A}.

Definition M (A : Type) : Type := heap -> outcome A.

Definition ret {A : Type} (a : A) : M A := fun h => Returns a h.

Definition raise {A : Type} : M A := fun _ => Raises.

Definition unfinished {A : Type} : M A := fun _ => Unfinished.

Definition bind {A B : Type} (x : M A) (f : A -> M B) : M B :=
  fun h =>
    match x h with
    | Returns a h' => f a h'
    | Raises => Raises
    | Unfinished => Unfinished
    end.

Declare Scope heap_scope.
Delimit Scope heap_scope with heap.
Notation "x <- e ;; k" := (bind e (fun x => k))
  (at level 61, e at next level, right associativity) : heap_scope.
Notation "e ;;; k" := (bind e (fun _ => k))
  (at level 61, right associativity) : heap_scope.
Local Open Scope heap_scope.

(** The object at an address. *)
Definition deref (r : ref) : M object :=
  fun h =>
    match nth_error h r with
    | Some o => Returns o h
    | None => Raises
    end.

(** A new object, at an address no object has. *)
Definition alloc (o : object) : M ref :=
  fun h => Returns (List.length h) (h ++ [o])%list.

Fixpoint update (r : ref) (o : object) (h : heap) : heap :=
  match h, r with
  | [], _ => []
  | _ :: h', O => o :: h'
  | o' :: h', S r' => o' :: update r' o h'
  end.

(** The object at an address replaced by another. *)
Definition store (r : ref) (o : object) : M unit :=
  fun h => Returns tt (update r o h).

(** [l = []] *)
Definition new_list : M ref := alloc (List []).

(** [l.append(x)]: the list object itself grows. *)
Definition append (l : ref) (x : value) : M unit :=
  o <- deref l ;;
  match o with
  | List items => store l (List (items ++ [x])%list)
  | _ => raise
  end.

(** The strings of a list, for [join]; another item is a [TypeError]. *)
Fixpoint strings (items : list value) : option (list string) :=
  match items with
  | [] => Some []
  | Str s :: items' =>
      match strings items' with
      | Some l => Some (s :: l)
      | None => None
      end
  | Ref _ :: _ => None
  end.

(** [sep.join(l)] *)
Definition join_list (sep : string) (l : ref) : M string :=
  o <- deref l ;;
  match o with
  | List items =>
      match strings items with
      | Some lines => ret (join sep lines)
      | None => raise
      end
  | _ => raise
  end.

(** [x.to_pxl()]: the method of the class of the object; it reads the
    fields and builds a string. *)
Definition call_to_pxl (x : value) : M string :=
  match x with
  | Ref r =>
      o <- deref r ;;
      match o with
      | Layer fields => ret (to_pxl fields)
      | Node fields => ret (to_pxl fields)
      | _ => raise
      end
  | Str _ => raise
  end.

(** [x.gds_layer] *)
Definition get_gds_layer (x : value) : M Z :=
  match x with
  | Ref r =>
      o <- deref r ;;
      match o with
      | Layer fields => ret (LayerDef.gds_layer fields)
      | _ => raise
      end
  | Str _ => raise
  end.

(** [parser.layers] and [parser.rules] *)
Definition get_layers (parser : ref) : M ref :=
  o <- deref parser ;;
  match o with
  | Parser layers _ _ => ret layers
  | _ => raise
  end.

Definition get_rules (parser : ref) : M ref :=
  o <- deref parser ;;
  match o with
  | Parser _ rules _ => ret rules
  | _ => raise
  end.

(** [d.values()], as the list the call walks at once. *)
Definition dict_values (d : ref) : M (list value) :=
  o <- deref d ;;
  match o with
  | Dict items => ret (Py.values items)
  | _ => raise
  end.

(** One call for each item of a list of values, in order. *)
Fixpoint map_m {A B : Type} (f : A -> M B) (xs : list A) : M (list B) :=
  match xs with
  | [] => ret []
  | x :: xs' =>
      y <- f x ;;
      ys <- map_m f xs' ;;
      ret (y :: ys)
  end.

(** [sorted(xs, key=key)]: the key of every item is taken first, in
    order; the items are then sorted by these keys into a new list,
    which nothing else refers to. *)
Definition sorted (key : value -> M Z) (xs : list value) : M (list value) :=
  keyed <- map_m (fun x => k <- key x ;; ret (x, k)) xs ;;
  ret (map fst (Py.sorted_by snd keyed)).

(** [for x in xs: body] over a list that only the loop refers to. *)
Fixpoint for_each (body : value -> M unit) (xs : list value) : M unit :=
  match xs with
  | [] => ret tt
  | x :: xs' => body x ;;; for_each body xs'
  end.

(** [for x in l: body] over a list object: the iterator holds the
    position [i] and looks the list up again before every round, so a
    body that changed the list would be seen.  [steps] bounds the
    rounds. *)
Fixpoint for_in (steps : nat) (l : ref) (i : nat) (body : value -> M unit)
  : M unit :=
  match steps with
  | O => unfinished
  | S steps' =>
      o <- deref l ;;
      match o with
      | List items =>
          match nth_error items i with
          | Some x => body x ;;; for_in steps' l (S i) body
          | None => ret tt
          end
      | _ => raise
      end
  end.

(** A call of a method of [PXLGenerator] on [self]. *)
Definition method {A : Type} (self : ref) (body : M A) : M A :=
  o <- deref self ;;
  match o with
  | Generator _ => body
  | _ => raise
  end.

(** [PXLGenerator.generate_header] *)
Definition generate_header (self : ref) : M string :=
  method self
    (ret (join nl
            [bar;
             "// Automatically Generated by SVRF-to-PXL Translator (Prototype)";
             bar;
             "// This file was automatically translated from Calibre SVRF format";
             "// Manual review and validation recommended";
             bar;
             "";
             "#include <icv.rh>";
             "";
             ""])).

(** [PXLGenerator.generate_layers] *)
Definition generate_layers (self : ref) (layers : ref) : M string :=
  method self
    (lines <- new_list ;;
     append lines (Str bar) ;;;
     append lines (Str "// LAYER DEFINITIONS") ;;;
     append lines (Str (bar ++ nl)) ;;;
     values <- dict_values layers ;;
     by_number <- sorted get_gds_layer values ;;
     for_each (fun layer =>
                 text <- call_to_pxl layer ;;
                 append lines (Str text))
              by_number ;;;
     append lines (Str "") ;;;
     join_list nl lines).

(** [PXLGenerator.generate_rules] *)
Definition generate_rules (steps : nat) (self : ref) (rules : ref)
  : M string :=
  method self
    (lines <- new_list ;;
     append lines (Str bar) ;;;
     append lines (Str "// DRC RULES") ;;;
     append lines (Str (bar ++ nl)) ;;;
     for_in steps rules 0
            (fun rule =>
               text <- call_to_pxl rule ;;
               append lines (Str text) ;;;
               append lines (Str "")) ;;;
     join_list nl lines).

(** [PXLGenerator.generate_footer] *)
Definition generate_footer (self : ref) : M string :=
  method self (ret (join nl [bar; "// END OF DRC DECK"; bar; ""])).

(** [PXLGenerator.generate] *)
Definition generate (steps : nat) (self : ref) (parser : ref) : M string :=
  method self
    (output <- new_list ;;
     header <- generate_header self ;;
     append output (Str header) ;;;
     layers <- get_layers parser ;;
     layer_text <- generate_layers self layers ;;
     append output (Str layer_text) ;;;
     rules <- get_rules parser ;;
     rule_text <- generate_rules steps self rules ;;
     append output (Str rule_text) ;;;
     footer <- generate_footer self ;;
     append output (Str footer) ;;;
     join_list nl output).

(** ** What a heap holds at an address, read as the values of the
       translator *)

Definition layer_at (h : heap) (x : value) : option LayerDef.t :=
  match x with
  | Ref r =>
      match nth_error h r with
      | Some (Layer fields) => Some fields
      | _ => None
      end
  | Str _ => None
  end.

Definition rule_at (h : heap) (x : value) : option Rule :=
  match x with
  | Ref r =>
      match nth_error h r with
      | Some (Node fields) => Some fields
      | _ => None
      end
  | Str _ => None
  end.

Fixpoint all_some {A : Type} (l : list (option A)) : option (list A) :=
  match l with
  | [] => Some []
  | Some a :: l' =>
      match all_some l' with
      | Some r => Some (a :: r)
      | None => None
      end
  | None :: _ => None
  end.

Definition entry_at (h : heap) (e : string * value)
  : option (string * LayerDef.t) :=
  match layer_at h (snd e) with
  | Some fields => Some (fst e, fields)
  | None => None
  end.

Definition dict_at (h : heap) (r : ref) : option (Py.dict LayerDef.t) :=
  match nth_error h r with
  | Some (Dict items) => all_some (map (entry_at h) items)
  | _ => None
  end.

Definition rules_at (h : heap) (r : ref) : option (list Rule) :=
  match nth_error h r with
  | Some (List items) => all_some (map (rule_at h) items)
  | _ => None
  end.

(** The parser at an address, with its dictionary of layers and its list
    of rules. *)
Definition parser_at (h : heap) (r : ref) : option SVRFParser :=
  match nth_error h r with
  | Some (Parser layers_ref rules_ref name) =>
      match dict_at h layers_ref, rules_at h rules_ref with
      | Some d, Some l =>
          Some {| layers := d; rules := l; current_rule_name := name |}
      | _, _ => None
      end
  | _ => None
  end.

Definition generator_at (h : heap) (r : ref) : bool :=
  match nth_error h r with
  | Some (Generator _) => true
  | _ => false
  end.

End Heap.

(* ====================================================================== *)
(** * compare_drc_results.py: the comparator *)
(* ====================================================================== *)

Module Violation.

Record t : Type := {
  rule : string;
  x : Float.float;
  y : Float.float;
  type : string
}.

(** The tuple [__hash__] hashes. *)
Definition hash_key (self : t) : string * Float.float * Float.float :=
  (rule self, Float.round3 (x self), Float.round3 (y self)).

(** [Violation.__eq__] *)
Definition eq (self other : t) : bool :=
  String.eqb (rule self) (rule other)
  && Float.ltb (Float.abs (Float.sub (x self) (x other))) (Float.lit "0.001")
  && Float.ltb (Float.abs (Float.sub (y self) (y other))) (Float.lit "0.001").

(** Whether a set takes [other] for the element [self] it already holds:
    the hashes agree and [__eq__] says so.  Two hashes are taken to agree
    exactly when the hashed tuples are equal. *)
Definition same_element (self other : t) : bool :=
  let '(r1, x1, y1) := hash_key self in
  let '(r2, x2, y2) := hash_key other in
  String.eqb r1 r2 && Float.eqb x1 x2 && Float.eqb y1 y2 && eq self other.

End Violation.

(** [set(l)]: the elements of [l], each once.  The order of a set is not
    defined; the list is in order of first occurrence. *)
Fixpoint set_add (s : list Violation.t) (v : Violation.t) : list Violation.t :=
  match s with
  | [] => [v]
  | w :: s' =>
      if Violation.same_element w v then s else w :: set_add s' v
  end.

Definition set_of (l : list Violation.t) : list Violation.t :=
  fold_left set_add l [].

(** [sorted(set(a) | set(b))] for two lists of rule names: every name
    once, in increasing order. *)
Fixpoint insert_name (n : string) (l : list string) : list string :=
  match l with
  | [] => [n]
  | m :: l' =>
      match String.compare n m with
      | Lt => n :: l
      | Eq => l
      | Gt => m :: insert_name n l'
      end
  end.

Definition sorted_names (a b : list string) : list string :=
  fold_right insert_name [] (a ++ b).

(** The entries of the result dictionary. *)
Record RuleCount : Type := {
  rc_rule : string;
  rc_count : Z
}.

Record Mismatch : Type := {
  mm_rule : string;
  calibre_count : Z;
  icv_count : Z;
  reason : string
}.

Record Results : Type := {
  matching_rules : list RuleCount;
  mismatched_rules : list Mismatch;
  only_calibre : list RuleCount;
  only_icv : list RuleCount;
  total_calibre : Z;
  total_icv : Z;
  perfect_match : bool
}.

(** The comparator object. *)
Record DRCComparator : Type := {
  tolerance : Float.float
}.

(** [DRCComparator._violations_equal] *)
Definition _violations_equal (self : DRCComparator) (v1 v2 : Violation.t)
  : bool :=
  String.eqb (Violation.rule v1) (Violation.rule v2)
  && Float.ltb (Float.abs (Float.sub (Violation.x v1) (Violation.x v2)))
       (tolerance self)
  && Float.ltb (Float.abs (Float.sub (Violation.y v1) (Violation.y v2)))
       (tolerance self).

(** [DRCComparator._violations_match] *)
Definition _violations_match (self : DRCComparator)
           (cal_viols icv_viols : list Violation.t) : bool :=
  if negb (List.length cal_viols =? List.length icv_viols)%nat then false
  else
    let cal_set := set_of cal_viols in
    let icv_set := set_of icv_viols in
    forallb (fun cal_viol =>
               existsb (fun icv_viol =>
                          _violations_equal self cal_viol icv_viol) icv_set)
            cal_set.

Definition len {A : Type} (l : list A) : Z := Z.of_nat (List.length l).

(** One turn of the loop of [DRCComparator.compare]. *)
Definition compare_rule (self : DRCComparator)
           (cal_violations icv_violations : Py.dict (list Violation.t))
           (results : Results) (rule : string) : Results :=
  let cal_viols :=
    match Py.dict_get cal_violations rule with Some l => l | None => [] end in
  let icv_viols :=
    match Py.dict_get icv_violations rule with Some l => l | None => [] end in
  let cal_count := len cal_viols in
  let icv_count := len icv_viols in
  let total_cal := (total_calibre results + cal_count)%Z in
  let total_icv' := (total_icv results + icv_count)%Z in
  if negb (Py.dict_mem icv_violations rule) then
    {| matching_rules := matching_rules results;
       mismatched_rules := mismatched_rules results;
       only_calibre := only_calibre results
                         ++ [{| rc_rule := rule; rc_count := cal_count |}];
       only_icv := only_icv results;
       total_calibre := total_cal;
       total_icv := total_icv';
       perfect_match := perfect_match results |}
  else if negb (Py.dict_mem cal_violations rule) then
    {| matching_rules := matching_rules results;
       mismatched_rules := mismatched_rules results;
       only_calibre := only_calibre results;
       only_icv := only_icv results
                     ++ [{| rc_rule := rule; rc_count := icv_count |}];
       total_calibre := total_cal;
       total_icv := total_icv';
       perfect_match := perfect_match results |}
  else if (cal_count =? icv_count)%Z then
    if _violations_match self cal_viols icv_viols then
      {| matching_rules := matching_rules results
                             ++ [{| rc_rule := rule; rc_count := cal_count |}];
         mismatched_rules := mismatched_rules results;
         only_calibre := only_calibre results;
         only_icv := only_icv results;
         total_calibre := total_cal;
         total_icv := total_icv';
         perfect_match := perfect_match results |}
    else
      {| matching_rules := matching_rules results;
         mismatched_rules := mismatched_rules results
                               ++ [{| mm_rule := rule;
                                      calibre_count := cal_count;
                                      icv_count := icv_count;
                                      reason := "locations differ" |}];
         only_calibre := only_calibre results;
         only_icv := only_icv results;
         total_calibre := total_cal;
         total_icv := total_icv';
         perfect_match := perfect_match results |}
  else
    {| matching_rules := matching_rules results;
       mismatched_rules := mismatched_rules results
                             ++ [{| mm_rule := rule;
                                    calibre_count := cal_count;
                                    icv_count := icv_count;
                                    reason := "counts differ" |}];
       only_calibre := only_calibre results;
       only_icv := only_icv results;
       total_calibre := total_cal;
       total_icv := total_icv';
       perfect_match := perfect_match results |}.

(** [DRCComparator.compare] *)
Definition compare (self : DRCComparator)
           (cal_violations icv_violations : Py.dict (list Violation.t))
  : Results :=
  let results :=
    {| matching_rules := []; mismatched_rules := []; only_calibre := [];
       only_icv := []; total_calibre := 0; total_icv := 0;
       perfect_match := false |} in
  let all_rules :=
    sorted_names (Py.keys cal_violations) (Py.keys icv_violations) in
  let results :=
    fold_left (compare_rule self cal_violations icv_violations)
              all_rules results in
  {| matching_rules := matching_rules results;
     mismatched_rules := mismatched_rules results;
     only_calibre := only_calibre results;
     only_icv := only_icv results;
     total_calibre := total_calibre results;
     total_icv := total_icv results;
     perfect_match :=
       (List.length (mismatched_rules results) =? 0)%nat
       && (List.length (only_calibre results) =? 0)%nat
       && (List.length (only_icv results) =? 0)%nat |}.


(* ====================================================================== *)
(** * The pipeline of the design document, for comparison with the code *)
(* ====================================================================== *)

(** The logical statements of the design document (section 4.1). *)
Inductive Statement : Type :=
| LayerDecl (line : string)
| RuleBlock (rule_name rule_body : string) (comment : option string)
| Assignment (line : string).

(** The line segmenter as the design document describes it: the lines of
    a deck cut into statements, in source order.  [parse_lines] does not
    build this list; [parse_lines_statements] below shows that it runs
    the statements of this list one after the other. *)
Fixpoint statements (lines : list string) {struct lines} : list Statement :=
  match lines with
  | [] => []
  | l :: rest =>
      let line := strip l in
      if String.eqb line "" || startswith "//" line then statements rest
      else if startswith "LAYER " line then LayerDecl line :: statements rest
      else if contains "{" line then
        (fix gather (ls : list string) (brace_count : Z)
             (rule_lines : list string) {struct ls} : list Statement :=
           match ls with
           | [] =>
               [RuleBlock (block_name line) (join nl rule_lines)
                          (block_comment line)]
           | x :: ls' =>
               if (0 <? brace_count)%Z then
                 gather ls' (brace_count + braces x)%Z (rule_lines ++ [x])
               else
                 RuleBlock (block_name line) (join nl rule_lines)
                           (block_comment line) :: statements ls
           end) rest (braces line) [line]
      else if contains "=" line && negb (startswith "LAYER" line) then
        Assignment line :: statements rest
      else statements rest
  end.

(** The lines of a rule block and the lines after it. *)
Fixpoint take_block (ls : list string) (brace_count : Z)
         (rule_lines : list string) : list string * list string :=
  match ls with
  | [] => (rule_lines, [])
  | x :: ls' =>
      if (0 <? brace_count)%Z then
        take_block ls' (brace_count + braces x)%Z (rule_lines ++ [x])
      else (rule_lines, ls)
  end.

(** What the parser does with one statement. *)
Definition exec (self : SVRFParser) (st : Statement) : Py.result SVRFParser :=
  match st with
  | LayerDecl line => _parse_layer self line
  | RuleBlock rule_name rule_body comment =>
      _parse_rule_block (set_current_rule_name self rule_name)
                        rule_name rule_body comment
  | Assignment line => Py.Ok (_parse_assignment self line)
  end.

Fixpoint run (self : SVRFParser) (sts : list Statement)
  : Py.result SVRFParser :=
  match sts with
  | [] => Py.Ok self
  | st :: sts' => self' <- exec self st ;; run self' sts'
  end.

(** The rule nodes a statement adds to an empty parser. *)
Definition emitted (st : Statement) : list Rule :=
  match exec SVRFParser_init st with
  | Py.Ok self => rules self
  | Py.Raise _ => []
  end.

Definition is_layer_decl (st : Statement) : bool :=
  match st with LayerDecl _ => true | _ => false end.

(** The variants of a check node. *)
Inductive Variant : Type := VWidth | VSpacing | VEnclosure | VBoolean.

Definition variant (rule : Rule) : Variant :=
  match rule with
  | Width _ => VWidth
  | Spacing _ => VSpacing
  | Enclosure _ => VEnclosure
  | Boolean _ => VBoolean
  end.

(** The keyword priority of the design document (section 4.3): the
    first keyword of this list that occurs in the block, with the variant
    and the pattern that go with it. *)
Definition priority : list (string * (Variant * regex)) :=
  [("WIDTH", (VWidth, check_re "WIDTH"));
   ("EXTERNAL", (VSpacing, check_re "EXTERNAL"));
   ("INTERNAL", (VSpacing, check_re "INTERNAL"));
   ("ENC", (VEnclosure, enc_re))].

Definition selected (block : string) : option (string * (Variant * regex)) :=
  find (fun entry => contains (fst entry) block) priority.

(** The node of a variant as the design document gives it (section
    4.3): [WIDTH layer OP value] is a width check, [EXTERNAL layer OP
    value] and [INTERNAL layer OP value] are spacing checks, [ENC outer
    inner OP value] is an enclosure check.  The operands are the groups
    of the pattern in order, and the value is the last of them. *)
Definition value_group (v : Variant) : nat :=
  match v with VEnclosure => 4 | _ => 3 end.

Definition check_node (v : Variant) (rule_name : string) (m : groups)
           (value : Float.float) (comment : option string) : option Rule :=
  match v with
  | VWidth =>
      Some (Width {| WidthCheck.rule_name := rule_name;
                     WidthCheck.layer := grp m 1;
                     WidthCheck.operator := grp m 2;
                     WidthCheck.value := value;
                     WidthCheck.comment := comment |})
  | VSpacing =>
      Some (Spacing {| SpacingCheck.rule_name := rule_name;
                       SpacingCheck.layer := grp m 1;
                       SpacingCheck.operator := grp m 2;
                       SpacingCheck.value := value;
                       SpacingCheck.comment := comment |})
  | VEnclosure =>
      Some (Enclosure {| EnclosureCheck.rule_name := rule_name;
                         EnclosureCheck.outer_layer := grp m 1;
                         EnclosureCheck.inner_layer := grp m 2;
                         EnclosureCheck.operator := grp m 3;
                         EnclosureCheck.value := value;
                         EnclosureCheck.comment := comment |})
  | VBoolean => None
  end.

(** The classifier as the design document describes it: the entry
    selected by priority decides alone.  Its pattern, searched in the
    block, gives the operands, or no node when it matches nowhere; the
    value is converted, which can raise.  [classifier_priority] below
    shows that [_parse_rule_block] does this. *)
Definition classified (rule_name block : string) (comment : option string)
  : Py.result (option Rule) :=
  match selected block with
  | None => Py.Ok None
  | Some (_, (v, re)) =>
      match search re block with
      | None => Py.Ok None
      | Some m =>
          value <- Py.float (grp m (value_group v)) ;;
          Py.Ok (check_node v rule_name m value comment)
      end
  end.

(** ** What a pattern matches *)

Fixpoint all_in (cls : ascii -> bool) (w : string) : bool :=
  match w with
  | EmptyString => true
  | String c w' => cls c && all_in cls w'
  end.

(** [span r s g s' g']: the pattern [r] can match the text between the
    position [s] and the later position [s'], turning the groups [g]
    into [g']. *)
Fixpoint span (r : regex) (s : string) (g : groups) (s' : string)
         (g' : groups) : Prop :=
  match r with
  | Lit p => s = (p ++ s')%string /\ g' = g
  | Plus cls =>
      exists w, s = (w ++ s')%string /\ w <> EmptyString
                /\ all_in cls w = true /\ g' = g
  | Star cls =>
      exists w, s = (w ++ s')%string /\ all_in cls w = true /\ g' = g
  | LazyAny => exists w, s = (w ++ s')%string /\ g' = g
  | Alt r1 r2 => span r1 s g s' g' \/ span r2 s g s' g'
  | Seq r1 r2 => exists s1 g1, span r1 s g s1 g1 /\ span r2 s1 g1 s' g'
  | Opt r1 => span r1 s g s' g' \/ (s' = s /\ g' = g)
  | Group n r1 => exists g1, span r1 s g s' g1 /\ g' = (n, consumed s s') :: g1
  end.

(** ** Layer tables *)

(** A layer table as the parser builds it: one entry per name, and each
    entry filed under its own name. *)
Definition layers_wf (layers : Py.dict LayerDef.t) : Prop :=
  NoDup (Py.keys layers)
  /\ Forall (fun entry => LayerDef.name (snd entry) = fst entry) layers.

(** The lines of the layer section, between its banner and the blank
    line that ends it. *)
Definition layer_lines (layers : Py.dict LayerDef.t) : list LayerDef.t :=
  Py.sorted_by LayerDef.gds_layer (Py.values layers).

(** The order [sorted_by] sorts into. *)
Definition key_le {A : Type} (key : A -> Z) (a b : A) : Prop :=
  (key a <= key b)%Z.

(* ====================================================================== *)
(** * Further code of the translator, and notions to speak of it *)
(* ====================================================================== *)

(** Whether a run of [cls] ends at this position: the text is over, or
    goes on with a character outside the class. *)
Definition stops (cls : ascii -> bool) (s : string) : bool :=
  match s with
  | EmptyString => true
  | String c _ => negb (cls c)
  end.

(** Whether the braces counted so far stay open over all of [ls], as the
    inner loop of [parse_file] counts them. *)
Fixpoint open_through (brace_count : Z) (ls : list string) : bool :=
  match ls with
  | [] => true
  | x :: ls' =>
      (0 <? brace_count)%Z && open_through (brace_count + braces x)%Z ls'
  end.

(** The comment of a node, and the node with another comment. *)
Definition rule_comment (rule : Rule) : option string :=
  match rule with
  | Width r => WidthCheck.comment r
  | Spacing r => SpacingCheck.comment r
  | Enclosure r => EnclosureCheck.comment r
  | Boolean r => BooleanOp.comment r
  end.

Definition with_comment (rule : Rule) (comment : option string) : Rule :=
  match rule with
  | Width r =>
      Width {| WidthCheck.rule_name := WidthCheck.rule_name r;
               WidthCheck.layer := WidthCheck.layer r;
               WidthCheck.operator := WidthCheck.operator r;
               WidthCheck.value := WidthCheck.value r;
               WidthCheck.comment := comment |}
  | Spacing r =>
      Spacing {| SpacingCheck.rule_name := SpacingCheck.rule_name r;
                 SpacingCheck.layer := SpacingCheck.layer r;
                 SpacingCheck.operator := SpacingCheck.operator r;
                 SpacingCheck.value := SpacingCheck.value r;
                 SpacingCheck.comment := comment |}
  | Enclosure r =>
      Enclosure {| EnclosureCheck.rule_name := EnclosureCheck.rule_name r;
                   EnclosureCheck.outer_layer := EnclosureCheck.outer_layer r;
                   EnclosureCheck.inner_layer := EnclosureCheck.inner_layer r;
                   EnclosureCheck.operator := EnclosureCheck.operator r;
                   EnclosureCheck.value := EnclosureCheck.value r;
                   EnclosureCheck.comment := comment |}
  | Boolean r =>
      Boolean {| BooleanOp.result_name := BooleanOp.result_name r;
                 BooleanOp.operation := BooleanOp.operation r;
                 BooleanOp.layer1 := BooleanOp.layer1 r;
                 BooleanOp.layer2 := BooleanOp.layer2 r;
                 BooleanOp.comment := comment |}
  end.

(** A non-empty text made of characters of one class. *)
Definition made_of (cls : ascii -> bool) (w : string) : bool :=
  all_in cls w && negb (String.eqb w "").

(** Whether the loop of [parse_file] takes the (stripped) line for the
    opening line of a rule block. *)
Definition opens_block (line : string) : bool :=
  negb (String.eqb line "" || startswith "//" line)
  && negb (startswith "LAYER " line)
  && contains "{" line.

(** The braces opened less the braces closed over some lines. *)
Definition brace_total (ls : list string) : Z :=
  fold_right (fun x n => (braces x + n)%Z) 0%Z ls.

(* ====================================================================== *)
(** * Notions to speak of the comparator *)
(* ====================================================================== *)

(** The rule names a result reports, list after list. *)
Definition reported_names (results : Results) : list string :=
  map rc_rule (matching_rules results)
  ++ map mm_rule (mismatched_rules results)
  ++ map rc_rule (only_calibre results)
  ++ map rc_rule (only_icv results).

(** The violations of a report, rule after rule. *)
Definition all_violations (report : Py.dict (list Violation.t))
  : list Violation.t :=
  List.concat (Py.values report).

(** A violation whose two coordinates are finite numbers. *)
Definition located (v : Violation.t) : bool :=
  match Violation.x v, Violation.y v with
  | Float.Finite _ _, Float.Finite _ _ => true
  | _, _ => false
  end.

(** The order of rule names: code point by code point. *)
Definition name_lt (a b : string) : Prop := String.compare a b = Lt.

(** [report.get(rule, [])], and the violations counted over some rule
    names, as the loop of [compare] adds them up. *)
Definition violations_of (report : Py.dict (list Violation.t))
           (rule : string) : list Violation.t :=
  match Py.dict_get report rule with Some l => l | None => [] end.

Definition count_over (report : Py.dict (list Violation.t))
           (rules : list string) : Z :=
  fold_right (fun rule n => (len (violations_of report rule) + n)%Z) 0%Z rules.

(* ====================================================================== *)
(** * compare_drc_results.py: the report parsers and the driver *)
(* ====================================================================== *)

(** [s.lower()] on the letters A-Z, the only ones whose lower case can
    be a letter of the word it is compared with. *)
Definition lower_char (c : ascii) : ascii :=
  if between 65 90 c then ascii_of_nat (code c + 32) else c.

Fixpoint lower (s : string) : string :=
  match s with
  | EmptyString => EmptyString
  | String c s' => String (lower_char c) (lower s')
  end.

(** [for line in f]: the lines of a text, each with its line end. *)
Fixpoint file_lines (s : string) : list string :=
  match s with
  | EmptyString => []
  | String c s' =>
      if Ascii.eqb c LF then String c EmptyString :: file_lines s'
      else match file_lines s' with
           | [] => [String c EmptyString]
           | l :: ls => String c l :: ls
           end
  end.

(** [-x] *)
Definition neg (x : Float.float) : Float.float :=
  match x with
  | Float.Finite m e => Float.Finite (- m) e
  | Float.Inf negative => Float.Inf (negb negative)
  | Float.NaN => Float.NaN
  end.

(** The class [[-\d.]]. *)
Definition coord_char (c : ascii) : bool :=
  (code c =? 45)%nat || isdigit c || (code c =? 46)%nat.

(** [float(s)] for a token of the class [[-\d.]], the only strings the
    patterns of the report parsers hand to it: one minus sign at most,
    in front of digits with at most one dot. *)
Definition float_of_token (s : string) : Py.result Float.float :=
  match s with
  | String c s' =>
      if (code c =? 45)%nat then
        match Float.of_string s' with
        | Some x => Py.Ok (neg x)
        | None => Py.Raise Py.ValueError
        end
      else Py.float s
  | EmptyString => Py.float s
  end.

(** [violations[rule].append(v)] on a [defaultdict(list)]: a new rule
    goes last, with the one violation. *)
Definition dict_append {V : Type} (d : Py.dict (list V)) (k : string) (v : V)
  : Py.dict (list V) :=
  Py.dict_set d k
    (match Py.dict_get d k with Some l => l | None => [] end ++ [v]).

(** A loop over lines whose body can raise. *)
Fixpoint for_each {S : Type} (body : S -> string -> Py.result S)
         (lines : list string) (st : S) : Py.result S :=
  match lines with
  | [] => Py.Ok st
  | line :: rest => st' <- body st line ;; for_each body rest st'
  end.

(** How a call ends that can also end the program: it returns, it
    raises, or it leaves through [sys.exit]. *)
Inductive outcome (A : Type) : Type :=
| Returns (a : A)
| Raises (e : Py.exn)
| Exits (status : Z).

Arguments Returns {A} a.
Arguments Raises {A} e.
Arguments Exits {A} status.

(** The [try] of the two parsers: a file that is not found ends the
    program with status 1, any other exception goes on to the caller. *)
Definition exit_if_not_found {A : Type} (r : Py.result A) : outcome A :=
  match r with
  | Py.Ok a => Returns a
  | Py.Raise Py.FileNotFoundError => Exits 1
  | Py.Raise e => Raises e
  end.

(** [\S] *)
Definition nonspace (c : ascii) : bool := negb (isspace c).

(** [RULECHECK\s+(\S+)] *)
Definition rulecheck_re : regex :=
  cat [Lit "RULECHECK"; Plus isspace; Group 1 (Plus nonspace)].

(** [\(\s*([-\d.]+)\s+([-\d.]+)\s*\)] *)
Definition coords_re : regex :=
  cat [Lit "("; Star isspace; Group 1 (Plus coord_char); Plus isspace;
       Group 2 (Plus coord_char); Star isspace; Lit ")"].

Module CalibreParser.

(** [CalibreParser._extract_coords].  [matches[0]], the first of the
    matches [findall] returns, is the match [search] finds. *)
Definition _extract_coords (line : string)
  : Py.result (option (Float.float * Float.float)) :=
  match search coords_re line with
  | Some m =>
      x <- float_of_token (grp m 1) ;;
      y <- float_of_token (grp m 2) ;;
      Py.Ok (Some (x, y))
  | None => Py.Ok None
  end.

(** The variables of the loop of [parse_file]. *)
Record state : Type := {
  violations : Py.dict (list Violation.t);
  current_rule : option string
}.

(** The violation of a line with coordinates, filed under the current
    rule. *)
Definition add_violation (st : state) (line type : string)
  : Py.result state :=
  coords <- _extract_coords line ;;
  match coords with
  | Some (x, y) =>
      let rule := Py.text (current_rule st) in
      Py.Ok {| violations :=
                 dict_append (violations st) rule
                   {| Violation.rule := rule; Violation.x := x;
                      Violation.y := y; Violation.type := type |};
               current_rule := current_rule st |}
  | None => Py.Ok st
  end.

(** One turn of the loop of [CalibreParser.parse_file]. *)
Definition parse_line (st : state) (line : string) : Py.result state :=
  if contains "RULECHECK" line then
    match search rulecheck_re line with
    | Some m => Py.Ok {| violations := violations st;
                         current_rule := group m 1 |}
    | None => Py.Ok st
    end
  else if contains "POLYGON" line && Py.truthy (current_rule st) then
    add_violation st line "polygon"
  else if contains "EDGE" line && Py.truthy (current_rule st) then
    add_violation st line "edge"
  else Py.Ok st.

Definition parse_lines (lines : list string) (st : state) : Py.result state :=
  for_each parse_line lines st.

(** [CalibreParser.parse_file] *)
Definition parse_file (fs : Py.FileSystem) (filename : string)
  : outcome (Py.dict (list Violation.t)) :=
  exit_if_not_found
    (content <- Py.read_file fs filename ;;
     st <- parse_lines (file_lines content)
                       {| violations := []; current_rule := None |} ;;
     Py.Ok (violations st)).

End CalibreParser.

(** The class [[,\s]]. *)
Definition sep_char (c : ascii) : bool := (code c =? 44)%nat || isspace c.

Module ICVParser.

Section Matching.
Context {A : Type}.

(** [.*?] as it is without DOTALL: the shortest run first, and never
    over a line end. *)
Fixpoint lazy_in_line (s : string) (g : groups) (k : @cont A) : option A :=
  orelse (k s g)
    (fun _ => match s with
              | String c s' =>
                  if Ascii.eqb c LF then None else lazy_in_line s' g k
              | EmptyString => None
              end).

(** [(\w+).*?([-\d.]+)[,\s]+([-\d.]+)] from the position [s] *)
Definition violation_bt (s : string) (g : groups) (k : @cont A) : option A :=
  bt (Group 1 (Plus isword)) s g
     (fun s1 g1 =>
        lazy_in_line s1 g1
          (fun s2 g2 =>
             bt (cat [Group 2 (Plus coord_char); Plus sep_char;
                      Group 3 (Plus coord_char)]) s2 g2 k)).

End Matching.

(** [re.search] for this pattern: the leftmost position with a match. *)
Fixpoint violation_search (s : string) : option groups :=
  match violation_bt s [] (fun _ g => Some g) with
  | Some g => Some g
  | None =>
      match s with
      | String _ s' => violation_search s'
      | EmptyString => None
      end
  end.

(** One turn of the loop of [ICVParser.parse_file]. *)
Definition parse_line (violations : Py.dict (list Violation.t))
           (line : string) : Py.result (Py.dict (list Violation.t)) :=
  if contains "violation" (lower line) then
    match violation_search line with
    | Some m =>
        let rule := grp m 1 in
        x <- float_of_token (grp m 2) ;;
        y <- float_of_token (grp m 3) ;;
        Py.Ok (dict_append violations rule
                 {| Violation.rule := rule; Violation.x := x;
                    Violation.y := y; Violation.type := "unknown" |})
    | None => Py.Ok violations
    end
  else Py.Ok violations.

Definition parse_lines (lines : list string)
           (violations : Py.dict (list Violation.t))
  : Py.result (Py.dict (list Violation.t)) :=
  for_each parse_line lines violations.

(** [ICVParser.parse_file] *)
Definition parse_file (fs : Py.FileSystem) (filename : string)
  : outcome (Py.dict (list Violation.t)) :=
  exit_if_not_found
    (content <- Py.read_file fs filename ;;
     parse_lines (file_lines content) []).

End ICVParser.

(** [DRCComparator.__init__] *)
Definition DRCComparator_init (tolerance : Float.float) : DRCComparator :=
  {| tolerance := tolerance |}.

Module CompareDrc.

(** The command line of [compare_drc_results.py], as [argparse] hands
    it over. *)
Record Args : Type := {
  calibre : string;
  icv : string;
  tolerance : Float.float;
  verbose : bool
}.

(** [print_report]: the value it returns; the text on the console is
    left out. *)
Definition print_report (results : Results) : bool := perfect_match results.

(** [main]: the status the program ends with.  An exception nobody
    catches ends it with status 1. *)
Definition main (args : Args) (fs : Py.FileSystem) : Z :=
  match CalibreParser.parse_file fs (calibre args) with
  | Exits status => status
  | Raises _ => 1
  | Returns cal_violations =>
      match ICVParser.parse_file fs (icv args) with
      | Exits status => status
      | Raises _ => 1
      | Returns icv_violations =>
          let comparator := DRCComparator_init (tolerance args) in
          let results := compare comparator cal_violations icv_violations in
          let match_ := print_report results in
          if match_ then 0 else 1
      end
  end%Z.

End CompareDrc.

(** A report as the two parsers build it: every rule once, with at
    least one violation, and every violation filed under its own rule. *)
Definition report_wf (report : Py.dict (list Violation.t)) : Prop :=
  NoDup (Py.keys report)
  /\ Forall (fun entry =>
               snd entry <> []
               /\ Forall (fun v => Violation.rule v = fst entry) (snd entry))
            report.

(** A character that is no part of a number and no line end. *)
Definition plain_char (c : ascii) : bool :=
  negb (coord_char c) && negb (Ascii.eqb c LF).

(** [\W] *)
Definition nonword (c : ascii) : bool := negb (isword c).

(* ====================================================================== *)
(** * compare_variables.py: the comparison and the end of the driver *)
(* ====================================================================== *)

(** [a / b] for two [int]s, [b] above zero: the quotient, rounded once. *)
Definition true_div (a b : Z) : Float.float :=
  Float.round64 (a # Z.to_pos b).

(** [LAYER\s+(\w+)\s+(\d+)\s+DATATYPE\s+(\d+)] *)
Definition sync_layer_re : regex :=
  cat [Lit "LAYER"; Plus isspace; Group 1 (Plus isword); Plus isspace;
       Group 2 (Plus isdigit); Plus isspace; Lit "DATATYPE"; Plus isspace;
       Group 3 (Plus isdigit)].

Module VariableComparator.

(** What is kept of a variable. *)
Record info : Type := {
  type : string;
  definition : string;
  line : Z
}.

(** The comparator object, as the two parsers leave it.  The parsers
    themselves work with line anchors and a look-ahead, which the
    patterns above do not have; they are not modelled. *)
Record t : Type := {
  cal_variables : Py.dict info;
  icv_variables : Py.dict info
}.

(** Sets of names: lists without repetition. *)
Definition name_set (names : list string) : list string :=
  nodup string_dec names.

Definition mem (name : string) (names : list string) : bool :=
  existsb (String.eqb name) names.

(** [a & b] and [a - b] *)
Definition inter (a b : list string) : list string :=
  filter (fun name => mem name b) a.

Definition diff (a b : list string) : list string :=
  filter (fun name => negb (mem name b)) a.

(** The dictionary [compare] returns. *)
Record Stats : Type := {
  matching : Z;
  cal_only : Z;
  icv_only : Z;
  total_cal : Z;
  total_icv : Z
}.

(** [VariableComparator.compare]: the statistics it returns; the report
    on the console is left out. *)
Definition compare (self : t) : Stats :=
  let cal_names := name_set (Py.keys (cal_variables self)) in
  let icv_names := name_set (Py.keys (icv_variables self)) in
  {| matching := len (inter cal_names icv_names);
     cal_only := len (diff cal_names icv_names);
     icv_only := len (diff icv_names cal_names);
     total_cal := len cal_names;
     total_icv := len icv_names |}.

(** [self.cal_variables[name]] for a name of the dictionary. *)
Definition cal_info (self : t) (name : string) : info :=
  match Py.dict_get (cal_variables self) name with
  | Some i => i
  | None => {| type := ""; definition := ""; line := 0 |}
  end.

(** [by_type[var_type]]: the missing names of one type, in sorted
    order. *)
Definition of_type (self : t) (var_type : string) (names : list string)
  : list string :=
  filter (fun name => String.eqb (type (cal_info self name)) var_type) names.

(** What the script says of one missing layer, derived layer, check. *)
Definition layer_entry (self : t) (name : string) : string :=
  let cal_def := definition (cal_info self name) in
  (match re_match sync_layer_re cal_def with
   | Some m =>
       grp m 1 ++ " = layer(" ++ grp m 2 ++ ", " ++ grp m 3 ++ ");" ++ nl
   | None => ""
   end)
    ++ "// Original Calibre: " ++ cal_def ++ nl ++ nl.

Definition derived_entry (self : t) (name : string) : string :=
  let cal_def := definition (cal_info self name) in
  "// TODO: Translate this to ICV syntax:" ++ nl
    ++ "// " ++ cal_def ++ nl
    ++ "// " ++ name ++ " = ...;" ++ nl ++ nl.

Definition check_entry (self : t) (name : string) : string :=
  let cal_def := definition (cal_info self name) in
  "// TODO: Translate this to ICV syntax:" ++ nl
    ++ "// " ++ cal_def ++ nl
    ++ "// " ++ name ++ " = ...;" ++ nl
    ++ "// drc_deck(" ++ name ++ ", " ++ dquote ++ "RULE_NAME" ++ dquote
    ++ ", " ++ dquote ++ "Description" ++ dquote ++ ");" ++ nl ++ nl.

(** One section of the script: nothing when no name is of the type. *)
Definition section (title : string) (entry : string -> string)
           (names : list string) : string :=
  match names with
  | [] => ""
  | _ => title ++ String.concat "" (map entry names)
  end.

(** The text [generate_sync_script] writes for the missing names. *)
Definition sync_text (self : t) (missing_in_icv : list string) : string :=
  let names := sorted_names missing_in_icv [] in
  "// AUTO-GENERATED: Missing variables to add to ICV file" ++ nl
    ++ "// Generated from Calibre->ICV comparison" ++ nl
    ++ "// Total missing: " ++ str_of_Z (len missing_in_icv) ++ nl ++ nl
    ++ section ("// ===== MISSING LAYER DEFINITIONS =====" ++ nl)
               (layer_entry self) (of_type self "layer" names)
    ++ section (nl ++ "// ===== MISSING DERIVED LAYERS =====" ++ nl)
               (derived_entry self) (of_type self "derived" names)
    ++ section (nl ++ "// ===== MISSING DRC CHECKS =====" ++ nl)
               (check_entry self) (of_type self "check" names).

(** [VariableComparator.generate_sync_script] *)
Definition generate_sync_script (self : t) (output_file : string)
           (fs : Py.FileSystem) : Py.result Py.FileSystem :=
  let cal_names := name_set (Py.keys (cal_variables self)) in
  let icv_names := name_set (Py.keys (icv_variables self)) in
  let missing_in_icv := diff cal_names icv_names in
  match missing_in_icv with
  | [] => Py.Ok fs
  | _ => Py.write_file fs output_file (sync_text self missing_in_icv)
  end.

(** The end of [main]: the status the program ends with, from the
    statistics of the comparison. *)
Definition exit_status (stats : Stats) : Z :=
  if (0 <? total_cal stats)%Z then
    let match_rate := true_div (matching stats) (total_cal stats) in
    if Float.ltb match_rate (Float.lit "0.8") then 1%Z
    else if (0 <? cal_only stats)%Z || (0 <? icv_only stats)%Z then 1%Z
         else 0%Z
  else 1%Z.

(** [main], from the point where the two files are parsed: the
    comparison, the script when one is asked for, and the status.  An
    exception nobody catches ends the program with status 1. *)
Definition main_after_parsing (comp : t) (sync_script : option string)
           (fs : Py.FileSystem) : Z * Py.FileSystem :=
  let stats := compare comp in
  match (if Py.truthy sync_script
         then generate_sync_script comp (Py.text sync_script) fs
         else Py.Ok fs) with
  | Py.Raise _ => (1%Z, fs)
  | Py.Ok fs' => (exit_status stats, fs')
  end.

End VariableComparator.

(* ====================================================================== *)
(** * Strings and patterns: basic facts *)
(* ====================================================================== *)

Section StringFacts.

Local Open Scope string_scope.

Lemma append_assoc (a b c : string) : (a ++ b) ++ c = a ++ (b ++ c).
Proof. induction a as [|x a IH]; simpl; [reflexivity | now rewrite IH]. Qed.

Lemma append_nil_r (a : string) : a ++ "" = a.
Proof. induction a as [|x a IH]; simpl; [reflexivity | now rewrite IH]. Qed.

Lemma length_append (a b : string) :
  String.length (a ++ b) = (String.length a + String.length b)%nat.
Proof. induction a as [|x a IH]; simpl; [reflexivity | now rewrite IH]. Qed.

Lemma strip_prefix_sound (p s s' : string) :
  strip_prefix p s = Some s' -> s = p ++ s'.
Proof.
  revert s; induction p as [|a p IH]; intros s H; simpl in *.
  - now inversion H.
  - destruct s as [|b s]; [discriminate|].
    destruct (Ascii.eqb_spec a b) as [->|]; [|discriminate].
    now rewrite (IH _ H).
Qed.

Lemma prefix_append (p s : string) : prefix p (p ++ s) = true.
Proof.
  induction p as [|a p IH]; simpl.
  - now destruct s.
  - destruct (ascii_dec a a); [assumption | congruence].
Qed.

Lemma prefix_append_l (p a b : string) :
  prefix p a = true -> prefix p (a ++ b) = true.
Proof.
  revert a; induction p as [|x p IH]; intros a H.
  - now destruct (a ++ b).
  - destruct a as [|y a]; simpl in *; [discriminate|].
    destruct (ascii_dec x y); [now apply IH | discriminate].
Qed.

Lemma contains_prefix (sub s : string) :
  prefix sub s = true -> contains sub s = true.
Proof. intros H. destruct s; cbn [contains]; rewrite H; reflexivity. Qed.

Lemma contains_append_r (sub a b : string) :
  contains sub b = true -> contains sub (a ++ b) = true.
Proof.
  intros H. induction a as [|x a IH]; simpl; [assumption|].
  rewrite IH. apply orb_true_r.
Qed.

Lemma contains_append_l (sub a b : string) :
  contains sub a = true -> contains sub (a ++ b) = true.
Proof.
  induction a as [|x a IH]; intros H.
  - simpl in H. rewrite orb_false_r in H.
    apply contains_prefix. now apply (prefix_append_l sub "" b).
  - cbn [contains] in H. apply orb_true_iff in H as [H|H].
    + apply contains_prefix. now apply prefix_append_l.
    + simpl. rewrite (IH H). apply orb_true_r.
Qed.

(** A text occurs in whatever is written around it. *)
Lemma contains_middle (sub a b : string) : contains sub (a ++ sub ++ b) = true.
Proof. apply contains_append_r, contains_prefix, prefix_append. Qed.

Lemma substring_append (w s : string) :
  substring 0 (String.length w) (w ++ s) = w.
Proof.
  induction w as [|x w IH]; simpl.
  - now destruct s.
  - now rewrite IH.
Qed.

Lemma consumed_append (w s : string) : consumed (w ++ s) s = w.
Proof.
  unfold consumed. rewrite length_append.
  replace (String.length w + String.length s - String.length s)%nat
    with (String.length w) by lia.
  apply substring_append.
Qed.

End StringFacts.

Section PatternFacts.

Local Open Scope string_scope.

Lemma greedy_sound {A : Type} (cls : ascii -> bool) (s : string) (g : groups)
      (k : cont) (a : A) :
  greedy cls s g k = Some a ->
  exists w s', s = w ++ s' /\ all_in cls w = true /\ k s' g = Some a.
Proof.
  induction s as [|c s IH]; simpl; intros H.
  - exists "", "". auto.
  - destruct (cls c) eqn:Hc.
    + unfold orelse in H. destruct (greedy cls s g k) eqn:Hg.
      * destruct (IH H) as (w & s' & -> & Hw & Hk).
        exists (String c w), s'. simpl. rewrite Hc, Hw. auto.
      * exists "", (String c s). auto.
    + exists "", (String c s). auto.
Qed.

Lemma lazy_any_sound {A : Type} (s : string) (g : groups) (k : cont) (a : A) :
  lazy_any s g k = Some a -> exists w s', s = w ++ s' /\ k s' g = Some a.
Proof.
  induction s as [|c s IH]; simpl; unfold orelse; intros H.
  - destruct (k "" g) eqn:Hk; [|discriminate]. exists "", "". split; [reflexivity | congruence].
  - destruct (k (String c s) g) eqn:Hk.
    + exists "", (String c s). split; [reflexivity | congruence].
    + destruct (IH H) as (w & s' & -> & Hk'). exists (String c w), s'. auto.
Qed.

(** The matcher only ever answers through its continuation, at a
    position and with groups the pattern accounts for. *)
Lemma bt_sound {A : Type} (r : regex) :
  forall (s : string) (g : groups) (k : cont) (a : A),
    bt r s g k = Some a ->
    exists s' g', span r s g s' g' /\ k s' g' = Some a.
Proof.
  induction r as [p|cls|cls| |r1 IH1 r2 IH2|r1 IH1 r2 IH2|r1 IH1|n r1 IH1];
    intros s g k a H; simpl in H.
  - destruct (strip_prefix p s) as [s'|] eqn:Hp; [|discriminate].
    exists s', g. simpl. auto using strip_prefix_sound.
  - destruct s as [|c s]; [discriminate|].
    destruct (cls c) eqn:Hc; [|discriminate].
    destruct (greedy_sound _ _ _ _ _ H) as (w & s' & -> & Hw & Hk).
    exists s', g. split; [|assumption].
    exists (String c w). simpl. rewrite Hc, Hw. repeat split. discriminate.
  - destruct (greedy_sound _ _ _ _ _ H) as (w & s' & -> & Hw & Hk).
    exists s', g. split; [|assumption]. exists w. auto.
  - destruct (lazy_any_sound _ _ _ _ H) as (w & s' & -> & Hk).
    exists s', g. split; [|assumption]. exists w. auto.
  - unfold orelse in H. destruct (bt r1 s g k) eqn:H1.
    + destruct (IH1 _ _ _ _ H1) as (s' & g' & Hs & Hk).
      exists s', g'. simpl. split; [auto | congruence].
    + destruct (IH2 _ _ _ _ H) as (s' & g' & Hs & Hk).
      exists s', g'. simpl. auto.
  - destruct (IH1 _ _ _ _ H) as (s1 & g1 & Hs1 & H2).
    destruct (IH2 _ _ _ _ H2) as (s' & g' & Hs2 & Hk).
    exists s', g'. split; [|assumption]. exists s1, g1. auto.
  - unfold orelse in H. destruct (bt r1 s g k) eqn:H1.
    + destruct (IH1 _ _ _ _ H1) as (s' & g' & Hs & Hk).
      exists s', g'. simpl. split; [auto | congruence].
    + exists s, g. simpl. auto.
  - destruct (IH1 _ _ _ _ H) as (s' & g1 & Hs & Hk).
    exists s', ((n, consumed s s') :: g1). split; [|assumption].
    exists g1. auto.
Qed.

Lemma re_match_sound (r : regex) (s : string) (g : groups) :
  re_match r s = Some g -> exists s', span r s [] s' g.
Proof.
  unfold re_match, match_here. intros H.
  destruct (bt r s [] (fun s' g0 => Some (g0, s'))) as [[g0 s0]|] eqn:Hb;
    [|discriminate].
  simpl in H. injection H as <-.
  destruct (bt_sound _ _ _ _ _ Hb) as (s' & g' & Hs & Hk).
  injection Hk as -> ->. now exists s0.
Qed.

Lemma search_sound (r : regex) (s : string) (g : groups) :
  search r s = Some g ->
  exists pre s1 s', s = pre ++ s1 /\ span r s1 [] s' g.
Proof.
  induction s as [|c s IH]; simpl; intros H.
  - destruct (re_match r "") eqn:Hm; [|discriminate]. injection H as ->.
    destruct (re_match_sound _ _ _ Hm) as (s' & Hs). now exists "", "", s'.
  - destruct (re_match r (String c s)) eqn:Hm.
    + injection H as ->.
      destruct (re_match_sound _ _ _ Hm) as (s' & Hs).
      now exists "", (String c s), s'.
    + destruct (IH H) as (pre & s1 & s' & -> & Hs).
      now exists (String c pre), s1, s'.
Qed.

End PatternFacts.

(* ====================================================================== *)
(** * The rule block classifier *)
(* ====================================================================== *)

Section Classifier.

Variables (self : SVRFParser) (rule_name block : string)
          (comment : option string).

(** [_parse_rule_block] is the classifier of the design document: what
    it returns is the parser with the classified node appended, the
    parser itself when there is no node, or the exception of the
    conversion. *)
Lemma parse_rule_block_classified :
  _parse_rule_block self rule_name block comment
  = (node <- classified rule_name block comment ;;
     Py.Ok (match node with
            | Some n => rules_append self n
            | None => self
            end)).
Proof.
  unfold _parse_rule_block, classified, selected, priority.
  cbn [find fst].
  destruct (contains "WIDTH" block);
    [|destruct (contains "EXTERNAL" block);
      [|destruct (contains "INTERNAL" block);
        [|destruct (contains "ENC" block)]]];
    try reflexivity.
  all: match goal with |- context [search ?r block] =>
         destruct (search r block) as [m|] end; try reflexivity.
  all: cbn [value_group]; unfold Py.float;
    match goal with |- context [Float.of_string ?t] =>
      destruct (Float.of_string t) as [value|] end; reflexivity.
Qed.

(** The node of a priority entry is of the entry's variant. *)
Lemma check_node_variant (keyword : string) (v : Variant) (re : regex)
      (m : groups) (value : Float.float) :
  In (keyword, (v, re)) priority ->
  exists node, check_node v rule_name m value comment = Some node
               /\ variant node = v.
Proof.
  intros [H|[H|[H|[H|[]]]]]; injection H as _ <- _; cbn [check_node];
    eexists; split; reflexivity.
Qed.

Lemma selected_in_priority (keyword : string) (v : Variant) (re : regex) :
  selected block = Some (keyword, (v, re)) ->
  In (keyword, (v, re)) priority /\ contains keyword block = true.
Proof.
  unfold selected. intros H. apply find_some in H. exact H.
Qed.

(** C3.  The classifier is decided by the first keyword of the priority
    list WIDTH, EXTERNAL, INTERNAL, ENC found in the block, wherever the
    keywords stand in the text.  A block with none of the keywords adds
    nothing.  Otherwise the pattern of that keyword alone is searched:
    where it matches, the node of the keyword's variant is appended -
    WidthCheck for WIDTH, SpacingCheck for EXTERNAL and INTERNAL,
    EnclosureCheck for ENC - with the rule name, the comment, the
    operands matched and the value converted, or the conversion raises
    [ValueError] and nothing is added; where it does not match, nothing
    is added.  So at most one node is added, the layers stay, and the
    patterns of the other keywords play no part. *)
Theorem classifier_priority :
  _parse_rule_block self rule_name block comment
  = (node <- classified rule_name block comment ;;
     Py.Ok (match node with
            | Some n => rules_append self n
            | None => self
            end))
  /\ match selected block with
     | None => _parse_rule_block self rule_name block comment = Py.Ok self
     | Some (keyword, (v, re)) =>
         contains keyword block = true
         /\ match search re block with
            | None =>
                _parse_rule_block self rule_name block comment = Py.Ok self
            | Some m =>
                match Float.of_string (grp m (value_group v)) with
                | Some value =>
                    exists node,
                      check_node v rule_name m value comment = Some node
                      /\ variant node = v
                      /\ _parse_rule_block self rule_name block comment
                         = Py.Ok (rules_append self node)
                | None =>
                    _parse_rule_block self rule_name block comment
                    = Py.Raise Py.ValueError
                end
            end
     end
  /\ match _parse_rule_block self rule_name block comment with
     | Py.Ok self' =>
         layers self' = layers self
         /\ (rules self' = rules self
             \/ exists node keyword re,
                  selected block = Some (keyword, (variant node, re))
                  /\ rules self' = rules self ++ [node])
     | Py.Raise e => e = Py.ValueError /\ selected block <> None
     end.
Proof.
  assert (Hcases :
            match selected block with
            | None =>
                _parse_rule_block self rule_name block comment = Py.Ok self
            | Some (keyword, (v, re)) =>
                contains keyword block = true
                /\ match search re block with
                   | None =>
                       _parse_rule_block self rule_name block comment
                       = Py.Ok self
                   | Some m =>
                       match Float.of_string (grp m (value_group v)) with
                       | Some value =>
                           exists node,
                             check_node v rule_name m value comment
                             = Some node
                             /\ variant node = v
                             /\ _parse_rule_block self rule_name block
                                                  comment
                                = Py.Ok (rules_append self node)
                       | None =>
                           _parse_rule_block self rule_name block comment
                           = Py.Raise Py.ValueError
                       end
                   end
            end).
  { rewrite parse_rule_block_classified. unfold classified.
    destruct (selected block) as [[keyword [v re]]|] eqn:Hsel;
      [|reflexivity].
    destruct (selected_in_priority _ _ _ Hsel) as [Hin Hkw].
    split; [exact Hkw|].
    destruct (search re block) as [m|]; [|reflexivity].
    unfold Py.float.
    destruct (Float.of_string (grp m (value_group v))) as [value|];
      [|reflexivity].
    destruct (check_node_variant keyword v re m value Hin)
      as (node & Hnode & Hv).
    exists node. split; [exact Hnode|]. split; [exact Hv|].
    cbn [Py.bind]. now rewrite Hnode. }
  split; [exact parse_rule_block_classified|]. split; [exact Hcases|].
  destruct (selected block) as [[keyword [v re]]|] eqn:Hsel.
  - destruct Hcases as [_ Hcases].
    destruct (search re block) as [m|].
    + destruct (Float.of_string (grp m (value_group v))) as [value|].
      * destruct Hcases as (node & _ & Hv & ->).
        split; [reflexivity|]. right. exists node, keyword, re.
        rewrite Hv. split; reflexivity.
      * rewrite Hcases. split; [reflexivity | discriminate].
    + rewrite Hcases. split; [reflexivity | now left].
  - rewrite Hcases. split; [reflexivity | now left].
Qed.

(** C10.  When the keyword selected by priority stands in the block but
    its pattern matches nowhere, the block adds no node at all, whatever
    the patterns of the keywords after it would have matched: WIDTH
    shadows EXTERNAL, INTERNAL and ENC, EXTERNAL shadows INTERNAL and
    ENC, INTERNAL shadows ENC. *)
Theorem keyword_shadowing :
  forall (keyword : string) (v : Variant) (re : regex),
    selected block = Some (keyword, (v, re)) ->
    search re block = None ->
    _parse_rule_block self rule_name block comment = Py.Ok self.
Proof.
  unfold _parse_rule_block, selected, priority. cbn [find fst].
  intros keyword v re Hsel Hre.
  destruct (contains "WIDTH" block);
    [|destruct (contains "EXTERNAL" block);
      [|destruct (contains "INTERNAL" block);
        [|destruct (contains "ENC" block)]]];
    try discriminate; injection Hsel as <- <- <-; now rewrite Hre.
Qed.

(** A number the selected pattern matched but [float] refuses makes the
    classifier raise. *)
Lemma malformed_number_raises :
  forall (m : groups),
    contains "WIDTH" block = true ->
    search (check_re "WIDTH") block = Some m ->
    Float.of_string (grp m 3) = None ->
    _parse_rule_block self rule_name block comment = Py.Raise Py.ValueError.
Proof.
  intros m Hc Hs Hf. unfold _parse_rule_block, Py.float.
  now rewrite Hc, Hs, Hf.
Qed.

End Classifier.

Lemma classifier_priority_witness :
  let block := "R1 { ENC VIA M1 > 0.1 INTERNAL M1 < 0.2 }" in
  _parse_rule_block SVRFParser_init "R1" block (Some "spacing")
  = Py.Ok (rules_append SVRFParser_init
             (Spacing {| SpacingCheck.rule_name := "R1";
                         SpacingCheck.layer := "M1";
                         SpacingCheck.operator := "<";
                         SpacingCheck.value := Float.lit "0.2";
                         SpacingCheck.comment := Some "spacing" |}))
  /\ _parse_rule_block SVRFParser_init "R2" "R2 { ENC VIA M1 > 0.1 }" None
     = Py.Ok (rules_append SVRFParser_init
                (Enclosure {| EnclosureCheck.rule_name := "R2";
                              EnclosureCheck.outer_layer := "VIA";
                              EnclosureCheck.inner_layer := "M1";
                              EnclosureCheck.operator := ">";
                              EnclosureCheck.value := Float.lit "0.1";
                              EnclosureCheck.comment := None |}))
  /\ _parse_rule_block SVRFParser_init "R0" "// nothing to check" None
     = Py.Ok SVRFParser_init.
Proof.
  intros block. split; [|split].
  - etransitivity;
      [exact (proj1 (classifier_priority SVRFParser_init "R1" block
                       (Some "spacing")))
      | vm_compute; reflexivity].
  - etransitivity;
      [exact (proj1 (classifier_priority SVRFParser_init "R2"
                       "R2 { ENC VIA M1 > 0.1 }" None))
      | vm_compute; reflexivity].
  - exact (proj1 (proj2 (classifier_priority SVRFParser_init "R0"
                           "// nothing to check" None))).
Defined.

Lemma keyword_shadowing_witness :
  let block := "MIN_WIDTH_SP { EXTERNAL M1 < 0.3 }" in
  search (check_re "EXTERNAL") block
    = Some [(3%nat, "0.3"); (2%nat, "<"); (1%nat, "M1")]
  /\ _parse_rule_block SVRFParser_init "MIN_WIDTH_SP" block None
     = Py.Ok SVRFParser_init.
Proof.
  split; [vm_compute; reflexivity|].
  apply (keyword_shadowing SVRFParser_init "MIN_WIDTH_SP"
           "MIN_WIDTH_SP { EXTERNAL M1 < 0.3 }" None
           "WIDTH" VWidth (check_re "WIDTH")); vm_compute; reflexivity.
Defined.

(** The shadowed block, read from a deck: the keyword is in the rule
    name, the body is a spacing check, and no rule comes out. *)
Example shadowed_by_rule_name :
  parse_text SVRFParser_init "MIN_WIDTH_SP { EXTERNAL M1 < 0.3 }"
  = Py.Ok {| layers := []; rules := [];
             current_rule_name := Some "MIN_WIDTH_SP" |}.
Proof. vm_compute. reflexivity. Qed.

(** A keyword in the inline comment shadows the body as well. *)
Example shadowed_by_comment :
  parse_text SVRFParser_init "SP1 @ not a WIDTH rule { EXTERNAL M1 < 0.3 }"
  = Py.Ok {| layers := []; rules := [];
             current_rule_name := Some "SP1 @ not a WIDTH rule" |}.
Proof. vm_compute. reflexivity. Qed.

(* ====================================================================== *)
(** * The generator and the driver *)
(* ====================================================================== *)

(** ** The generator on the heap *)

Section HeapGenerator.

Import Heap.

Lemma bind_returns {A B : Type} (x : M A) (f : A -> M B) (h h' : heap)
      (a : A) :
  x h = Returns a h' -> bind x f h = f a h'.
Proof. intros E. unfold bind. now rewrite E. Qed.

Lemma nth_error_ext (h ext : heap) (r : ref) (o : object) :
  nth_error h r = Some o -> nth_error (h ++ ext) r = Some o.
Proof.
  intros H. rewrite nth_error_app1; [exact H|].
  apply nth_error_Some. congruence.
Qed.

Lemma nth_error_fresh (h ext : heap) (o : object) :
  nth_error (h ++ o :: ext) (List.length h) = Some o.
Proof. induction h as [|o' h IH]; [reflexivity | exact IH]. Qed.

Lemma update_fresh (h ext : heap) (o o' : object) :
  update (List.length h) o' (h ++ o :: ext) = h ++ o' :: ext.
Proof.
  induction h as [|o'' h IH]; [reflexivity|].
  cbn [List.length app update]. now rewrite IH.
Qed.

Lemma append_fresh (h ext : heap) (items : list value) (x : value) :
  append (List.length h) x (h ++ List items :: ext)
  = Returns tt (h ++ List (items ++ [x]) :: ext).
Proof.
  unfold append, bind, deref. rewrite nth_error_fresh.
  unfold store. now rewrite update_fresh.
Qed.

Lemma strings_Str (l : list string) : strings (map Str l) = Some l.
Proof.
  induction l as [|s l IH]; [reflexivity|].
  cbn [map strings]. now rewrite IH.
Qed.

Lemma join_list_fresh (sep : string) (h ext : heap) (lines : list string) :
  join_list sep (List.length h) (h ++ List (map Str lines) :: ext)
  = Returns (join sep lines) (h ++ List (map Str lines) :: ext).
Proof.
  unfold join_list, bind, deref. rewrite nth_error_fresh, strings_Str.
  reflexivity.
Qed.

(** Reading a heap that has grown. *)
Lemma layer_at_ext (h ext : heap) (x : value) (l : LayerDef.t) :
  layer_at h x = Some l -> layer_at (h ++ ext) x = Some l.
Proof.
  destruct x as [s|r]; cbn [layer_at]; [discriminate|].
  destruct (nth_error h r) as [o|] eqn:E; [|discriminate].
  now rewrite (nth_error_ext _ ext _ _ E).
Qed.

Lemma rule_at_ext (h ext : heap) (x : value) (n : Rule) :
  rule_at h x = Some n -> rule_at (h ++ ext) x = Some n.
Proof.
  destruct x as [s|r]; cbn [rule_at]; [discriminate|].
  destruct (nth_error h r) as [o|] eqn:E; [|discriminate].
  now rewrite (nth_error_ext _ ext _ _ E).
Qed.

Lemma all_some_Forall2 {A B : Type} (f : A -> option B) (xs : list A)
      (ys : list B) :
  all_some (map f xs) = Some ys <-> Forall2 (fun x y => f x = Some y) xs ys.
Proof.
  revert ys. induction xs as [|x xs IH]; intros ys; cbn [map all_some].
  - split.
    + intros [= <-]. constructor.
    + intros H. inversion H. reflexivity.
  - split.
    + destruct (f x) as [y|] eqn:E; [|discriminate].
      destruct (all_some (map f xs)) as [ys'|] eqn:E'; [|discriminate].
      intros [= <-]. constructor; [exact E | now apply IH].
    + intros H. inversion H as [|x' y xs' ys' Hx Hxs]; subst.
      rewrite Hx. apply IH in Hxs. now rewrite Hxs.
Qed.

Lemma Forall2_weaken {A B : Type} (P Q : A -> B -> Prop) (xs : list A)
      (ys : list B) :
  (forall x y, P x y -> Q x y) -> Forall2 P xs ys -> Forall2 Q xs ys.
Proof. intros H F. induction F; constructor; auto. Qed.

Lemma dict_at_ext (h ext : heap) (r : ref) (d : Py.dict LayerDef.t) :
  dict_at h r = Some d -> dict_at (h ++ ext) r = Some d.
Proof.
  unfold dict_at. destruct (nth_error h r) as [o|] eqn:E; [|discriminate].
  rewrite (nth_error_ext _ ext _ _ E).
  destruct o as [|items| | | |]; try discriminate.
  intros H. apply all_some_Forall2. apply all_some_Forall2 in H.
  revert H. apply Forall2_weaken.
  intros e e'. unfold entry_at.
  destruct (layer_at h (snd e)) as [l|] eqn:El; [|discriminate].
  now rewrite (layer_at_ext _ ext _ _ El).
Qed.

Lemma rules_at_ext (h ext : heap) (r : ref) (l : list Rule) :
  rules_at h r = Some l -> rules_at (h ++ ext) r = Some l.
Proof.
  unfold rules_at. destruct (nth_error h r) as [o|] eqn:E; [|discriminate].
  rewrite (nth_error_ext _ ext _ _ E).
  destruct o as [items| | | | |]; try discriminate.
  intros H. apply all_some_Forall2. apply all_some_Forall2 in H.
  revert H. apply Forall2_weaken.
  intros x n. apply rule_at_ext.
Qed.

Lemma parser_at_ext (h ext : heap) (r : ref) (deck : SVRFParser) :
  parser_at h r = Some deck -> parser_at (h ++ ext) r = Some deck.
Proof.
  unfold parser_at. destruct (nth_error h r) as [o|] eqn:E; [|discriminate].
  rewrite (nth_error_ext _ ext _ _ E).
  destruct o as [| | | |layers_ref rules_ref name|]; try discriminate.
  destruct (dict_at h layers_ref) as [d|] eqn:Ed; [|discriminate].
  destruct (rules_at h rules_ref) as [l|] eqn:El; [|discriminate].
  now rewrite (dict_at_ext _ ext _ _ Ed), (rules_at_ext _ ext _ _ El).
Qed.

Lemma generator_at_ext (h ext : heap) (r : ref) :
  generator_at h r = true -> generator_at (h ++ ext) r = true.
Proof.
  unfold generator_at. destruct (nth_error h r) as [o|] eqn:E; [|discriminate].
  now rewrite (nth_error_ext _ ext _ _ E).
Qed.

Lemma method_at {A : Type} (h : heap) (self : ref) (body : M A) :
  generator_at h self = true -> method self body h = body h.
Proof.
  unfold generator_at, method, bind, deref.
  destruct (nth_error h self) as [[]|]; try discriminate. reflexivity.
Qed.

(** The calls on the nodes read them and leave the heap as it is. *)
Lemma call_to_pxl_layer (h : heap) (x : value) (l : LayerDef.t) :
  layer_at h x = Some l -> call_to_pxl x h = Returns (to_pxl l) h.
Proof.
  destruct x as [s|r]; cbn [layer_at call_to_pxl]; [discriminate|].
  unfold bind, deref.
  destruct (nth_error h r) as [[]|]; try discriminate.
  now intros [= ->].
Qed.

Lemma call_to_pxl_rule (h : heap) (x : value) (n : Rule) :
  rule_at h x = Some n -> call_to_pxl x h = Returns (to_pxl n) h.
Proof.
  destruct x as [s|r]; cbn [rule_at call_to_pxl]; [discriminate|].
  unfold bind, deref.
  destruct (nth_error h r) as [[]|]; try discriminate.
  now intros [= ->].
Qed.

Lemma get_gds_layer_at (h : heap) (x : value) (l : LayerDef.t) :
  layer_at h x = Some l ->
  get_gds_layer x h = Returns (LayerDef.gds_layer l) h.
Proof.
  destruct x as [s|r]; cbn [layer_at get_gds_layer]; [discriminate|].
  unfold bind, deref.
  destruct (nth_error h r) as [[]|]; try discriminate.
  now intros [= ->].
Qed.

Lemma dict_values_at (h : heap) (r : ref) (d : Py.dict LayerDef.t) :
  dict_at h r = Some d ->
  exists xs,
    (forall ext, dict_values r (h ++ ext) = Returns xs (h ++ ext))
    /\ Forall2 (fun x l => layer_at h x = Some l) xs (Py.values d).
Proof.
  unfold dict_at, dict_values, bind, deref.
  destruct (nth_error h r) as [o|] eqn:E; [|discriminate].
  destruct o as [|items| | | |]; try discriminate.
  intros Hd. exists (Py.values items). split.
  { intros ext. now rewrite (nth_error_ext _ ext _ _ E). }
  apply all_some_Forall2 in Hd. unfold Py.values.
  clear E. induction Hd as [|e e' items d He Hd IH]; cbn [map];
    [constructor|].
  constructor; [|exact IH].
  unfold entry_at in He.
  destruct (layer_at h (snd e)) as [l|]; [|discriminate].
  now injection He as <-.
Qed.

Lemma rules_at_items (h : heap) (r : ref) (ns : list Rule) :
  rules_at h r = Some ns ->
  exists items,
    nth_error h r = Some (List items)
    /\ Forall2 (fun x n => rule_at h x = Some n) items ns.
Proof.
  unfold rules_at.
  destruct (nth_error h r) as [o|]; [|discriminate].
  destruct o as [items| | | | |]; try discriminate.
  intros H. exists items. split; [reflexivity|].
  now apply all_some_Forall2.
Qed.

Lemma Forall2_ext_layers (h ext : heap) (xs : list value)
      (ls : list LayerDef.t) :
  Forall2 (fun x l => layer_at h x = Some l) xs ls ->
  Forall2 (fun x l => layer_at (h ++ ext) x = Some l) xs ls.
Proof. apply Forall2_weaken. intros x l. apply layer_at_ext. Qed.

(** The keys [sorted] takes from the layer objects. *)
Lemma keys_taken (h : heap) (xs : list value) (ls : list LayerDef.t) :
  Forall2 (fun x l => layer_at h x = Some l) xs ls ->
  map_m (fun x => bind (get_gds_layer x) (fun k => ret (x, k))) xs h
  = Returns (combine xs (map LayerDef.gds_layer ls)) h.
Proof.
  intros F. induction F as [|x l xs ls Hx F IH]; [reflexivity|].
  cbn [map_m map combine].
  rewrite (bind_returns _ _ h h (x, LayerDef.gds_layer l)).
  - now rewrite (bind_returns _ _ _ _ _ IH).
  - now rewrite (bind_returns _ _ _ _ _ (get_gds_layer_at _ _ _ Hx)).
Qed.

Lemma keyed_layers (h : heap) (xs : list value) (ls : list LayerDef.t) :
  Forall2 (fun x l => layer_at h x = Some l) xs ls ->
  Forall2 (fun p l => layer_at h (fst p) = Some l
                      /\ snd p = LayerDef.gds_layer l)
          (combine xs (map LayerDef.gds_layer ls)) ls.
Proof.
  intros F. induction F as [|x l xs ls Hx F IH]; cbn [map combine];
    constructor; [split; [exact Hx | reflexivity] | exact IH].
Qed.

Lemma insert_by_keyed (h : heap) (p : value * Z) (l : LayerDef.t)
      (ps : list (value * Z)) (ls : list LayerDef.t) :
  layer_at h (fst p) = Some l /\ snd p = LayerDef.gds_layer l ->
  Forall2 (fun p l => layer_at h (fst p) = Some l
                      /\ snd p = LayerDef.gds_layer l) ps ls ->
  Forall2 (fun p l => layer_at h (fst p) = Some l
                      /\ snd p = LayerDef.gds_layer l)
          (Py.insert_by snd p ps) (Py.insert_by LayerDef.gds_layer l ls).
Proof.
  intros Hp F. induction F as [|q m ps ls Hq F IH]; cbn [Py.insert_by].
  - constructor; [exact Hp | constructor].
  - rewrite (proj2 Hp), (proj2 Hq).
    destruct (LayerDef.gds_layer l <=? LayerDef.gds_layer m)%Z.
    + constructor; [exact Hp|]. constructor; [exact Hq | exact F].
    + constructor; [exact Hq | exact IH].
Qed.

(** [sorted] over the values of a dictionary of layers returns the
    references in the order of the layers sorted by number. *)
Lemma sorted_layers_run (h : heap) (xs : list value) (ls : list LayerDef.t) :
  Forall2 (fun x l => layer_at h x = Some l) xs ls ->
  sorted get_gds_layer xs h
  = Returns (map fst (Py.sorted_by snd
                        (combine xs (map LayerDef.gds_layer ls)))) h.
Proof.
  intros F. unfold sorted.
  now rewrite (bind_returns _ _ _ _ _ (keys_taken _ _ _ F)).
Qed.

Lemma sorted_layers_at (h : heap) (xs : list value) (ls : list LayerDef.t) :
  Forall2 (fun x l => layer_at h x = Some l) xs ls ->
  Forall2 (fun x l => layer_at h x = Some l)
          (map fst (Py.sorted_by snd
                      (combine xs (map LayerDef.gds_layer ls))))
          (Py.sorted_by LayerDef.gds_layer ls).
Proof.
  intros F. apply keyed_layers in F.
  assert (S : Forall2 (fun p l => layer_at h (fst p) = Some l
                                  /\ snd p = LayerDef.gds_layer l)
                      (Py.sorted_by snd
                         (combine xs (map LayerDef.gds_layer ls)))
                      (Py.sorted_by LayerDef.gds_layer ls)).
  { induction F as [|p l ps ls' Hp F IH]; [constructor|].
    cbn [Py.sorted_by fold_right]. apply insert_by_keyed; assumption. }
  induction S as [|p l ps ls' [Hp _] _ IH]; cbn [map]; constructor;
    assumption.
Qed.

(** The loop of [generate_layers], appending to a list made after every
    layer object. *)
Lemma layer_loop (h ext : heap) (ys : list value) (ls : list LayerDef.t) :
  Forall2 (fun x l => layer_at h x = Some l) ys ls ->
  forall lines : list string,
    for_each (fun layer =>
                bind (call_to_pxl layer)
                     (fun text => append (List.length h) (Str text)))
             ys (h ++ List (map Str lines) :: ext)%list
    = Returns tt (h ++ List (map Str (lines ++ map to_pxl ls)) :: ext)%list.
Proof.
  intros F. induction F as [|x l ys ls Hx F IH]; intros lines.
  - cbn [for_each map]. now rewrite app_nil_r.
  - cbn [for_each]. unfold bind at 1 2.
    rewrite (call_to_pxl_layer _ _ _ (layer_at_ext _ _ _ _ Hx)).
    rewrite append_fresh.
    replace (map Str lines ++ [Str (to_pxl l)])%list
      with (map Str (lines ++ [to_pxl l])%list)
      by (now rewrite map_app).
    rewrite IH. cbn [map]. now rewrite <- app_assoc.
Qed.

(** The loop of [generate_rules] over the list object of the parser:
    with a step for every rule and one to see the end, it ends. *)
Lemma rule_loop (h ext : heap) (rules_ref : ref) (post : list value)
      (ns : list Rule) :
  Forall2 (fun x n => rule_at h x = Some n) post ns ->
  forall (pre : list value) (lines : list string) (steps : nat),
    nth_error h rules_ref = Some (List (pre ++ post)%list) ->
    (List.length post < steps)%nat ->
    for_in steps rules_ref (List.length pre)
           (fun rule =>
              bind (call_to_pxl rule)
                   (fun text =>
                      bind (append (List.length h) (Str text))
                           (fun _ => append (List.length h) (Str ""))))
           (h ++ List (map Str lines) :: ext)%list
    = Returns tt
        (h ++ List (map Str (lines
                             ++ flat_map (fun rule => [to_pxl rule; ""]) ns))
           :: ext)%list.
Proof.
  intros F. induction F as [|x n post ns Hx F IH];
    intros pre lines steps Hl Hs.
  - destruct steps as [|steps]; [inversion Hs|]. cbn [for_in].
    unfold bind, deref. rewrite (nth_error_ext _ _ _ _ Hl).
    rewrite app_nil_r.
    replace (nth_error pre (List.length pre)) with (@None value)
      by (symmetry; apply nth_error_None; apply Nat.le_refl).
    cbn [flat_map]. now rewrite app_nil_r.
  - destruct steps as [|steps]; [inversion Hs|]. cbn [for_in].
    unfold bind at 1, deref. rewrite (nth_error_ext _ _ _ _ Hl).
    rewrite nth_error_app2 by apply Nat.le_refl.
    rewrite Nat.sub_diag. cbn [nth_error].
    unfold bind at 1 2.
    rewrite (call_to_pxl_rule _ _ _ (rule_at_ext _ _ _ _ Hx)).
    unfold bind at 1. rewrite append_fresh, append_fresh.
    replace ((map Str lines ++ [Str (to_pxl n)]) ++ [Str ""])%list
      with (map Str (lines ++ [to_pxl n; ""])%list)
      by (rewrite map_app, <- app_assoc; reflexivity).
    replace (S (List.length pre)) with (List.length (pre ++ [x])%list)
      by (rewrite length_app; cbn [List.length]; apply Nat.add_1_r).
    rewrite (IH (pre ++ [x])%list).
    + cbn [flat_map]. now rewrite <- app_assoc.
    + now rewrite <- app_assoc.
    + cbn [List.length] in Hs. apply Nat.succ_lt_mono. exact Hs.
Qed.

End HeapGenerator.

Section GenerateOnHeap.

Variables (h : Heap.heap) (self : Heap.ref).
Hypothesis Hself : Heap.generator_at h self = true.

Lemma generate_header_returns (g : PXLGenerator) :
  Heap.generate_header self h = Heap.Returns (generate_header g) h.
Proof. unfold Heap.generate_header. now rewrite method_at. Qed.

Lemma generate_footer_returns (g : PXLGenerator) :
  Heap.generate_footer self h = Heap.Returns (generate_footer g) h.
Proof. unfold Heap.generate_footer. now rewrite method_at. Qed.

Lemma generate_layers_returns (g : PXLGenerator) (layers_ref : Heap.ref)
      (d : Py.dict LayerDef.t) :
  Heap.dict_at h layers_ref = Some d ->
  exists lines,
    Heap.generate_layers self layers_ref h
    = Heap.Returns (generate_layers g d) (h ++ [Heap.List lines])%list.
Proof.
  intros Hd. unfold Heap.generate_layers. rewrite method_at by exact Hself.
  unfold Heap.new_list.
  rewrite (bind_returns _ _ h (h ++ [Heap.List []])%list (List.length h)
                        eq_refl).
  rewrite (bind_returns _ _ _ _ _ (append_fresh h [] [] _)).
  rewrite (bind_returns _ _ _ _ _ (append_fresh h [] _ _)).
  rewrite (bind_returns _ _ _ _ _ (append_fresh h [] _ _)).
  cbn [app].
  destruct (dict_values_at _ _ _ Hd) as (xs & Ex & Hxs).
  rewrite (bind_returns _ _ _ _ _ (Ex _)).
  rewrite (bind_returns _ _ _ _ _
             (sorted_layers_run _ _ _ (Forall2_ext_layers _ _ _ _ Hxs))).
  rewrite (bind_returns _ _ _ _ _
             (layer_loop h [] _ _ (sorted_layers_at _ _ _ Hxs)
                         [bar; "// LAYER DEFINITIONS"; (bar ++ nl)%string])).
  rewrite (bind_returns _ _ _ _ _ (append_fresh h [] _ _)).
  eexists.
  replace (map Heap.Str
             ([bar; "// LAYER DEFINITIONS"; (bar ++ nl)%string]
              ++ map to_pxl (Py.sorted_by LayerDef.gds_layer (Py.values d)))
           ++ [Heap.Str ""])%list
    with (map Heap.Str
            (([bar; "// LAYER DEFINITIONS"; (bar ++ nl)%string]
              ++ map to_pxl (Py.sorted_by LayerDef.gds_layer (Py.values d)))
             ++ [""])%list)
    by (now rewrite (map_app Heap.Str _ [""])).
  rewrite join_list_fresh. reflexivity.
Qed.


Lemma generate_rules_returns (g : PXLGenerator) (rules_ref : Heap.ref)
      (ns : list Rule) (steps : nat) :
  Heap.rules_at h rules_ref = Some ns ->
  (List.length ns < steps)%nat ->
  exists lines,
    Heap.generate_rules steps self rules_ref h
    = Heap.Returns (generate_rules g ns) (h ++ [Heap.List lines])%list.
Proof.
  intros Hr Hs. unfold Heap.generate_rules.
  rewrite method_at by exact Hself.
  unfold Heap.new_list.
  rewrite (bind_returns _ _ h (h ++ [Heap.List []])%list (List.length h)
                        eq_refl).
  rewrite (bind_returns _ _ _ _ _ (append_fresh h [] [] _)).
  rewrite (bind_returns _ _ _ _ _ (append_fresh h [] _ _)).
  rewrite (bind_returns _ _ _ _ _ (append_fresh h [] _ _)).
  cbn [app].
  destruct (rules_at_items _ _ _ Hr) as (items & Ei & Hi).
  rewrite <- (Forall2_length Hi) in Hs.
  rewrite (bind_returns _ _ _ _ _
             (rule_loop h [] rules_ref items ns Hi []
                        [bar; "// DRC RULES"; (bar ++ nl)%string]
                        steps Ei Hs)).
  eexists. rewrite join_list_fresh. reflexivity.
Qed.

End GenerateOnHeap.

(** The parser object leads to its dictionary and its list. *)
Lemma parser_at_fields (h : Heap.heap) (parser : Heap.ref)
      (deck : SVRFParser) :
  Heap.parser_at h parser = Some deck ->
  exists layers_ref rules_ref,
    (forall ext, Heap.get_layers parser (h ++ ext)
                 = Heap.Returns layers_ref (h ++ ext))
    /\ (forall ext, Heap.get_rules parser (h ++ ext)
                    = Heap.Returns rules_ref (h ++ ext))
    /\ Heap.dict_at h layers_ref = Some (layers deck)
    /\ Heap.rules_at h rules_ref = Some (rules deck).
Proof.
  unfold Heap.parser_at.
  destruct (nth_error h parser) as [o|] eqn:E; [|discriminate].
  destruct o as [| | | |layers_ref rules_ref name|]; try discriminate.
  destruct (Heap.dict_at h layers_ref) as [d|] eqn:Ed; [|discriminate].
  destruct (Heap.rules_at h rules_ref) as [l|] eqn:El; [|discriminate].
  intros [= <-]. exists layers_ref, rules_ref.
  unfold Heap.get_layers, Heap.get_rules, Heap.bind, Heap.deref.
  split; [|split; [|split]].
  - intros ext. now rewrite (nth_error_ext _ ext _ _ E).
  - intros ext. now rewrite (nth_error_ext _ ext _ _ E).
  - exact Ed.
  - exact El.
Qed.

(** A call of [generate] with a generator and a parser that are on the
    heap: it returns the text of the rule deck, and the heap it leaves
    is the one it found followed by the lists the call made. *)
Lemma generate_returns (h : Heap.heap) (self parser : Heap.ref)
      (deck : SVRFParser) (steps : nat) (g : PXLGenerator) :
  Heap.generator_at h self = true ->
  Heap.parser_at h parser = Some deck ->
  (List.length (rules deck) < steps)%nat ->
  exists made,
    Heap.generate steps self parser h
    = Heap.Returns (fst (fst (generate g deck))) (h ++ made)%list.
Proof.
  intros Hself Hparser Hsteps.
  destruct (parser_at_fields _ _ _ Hparser) as (lr & rr & Hl & Hr & Hd & Hn).
  unfold Heap.generate. rewrite method_at by exact Hself.
  unfold Heap.new_list.
  rewrite (bind_returns _ _ h (h ++ [Heap.List []])%list (List.length h)
                        eq_refl).
  rewrite (bind_returns _ _ _ _ _
             (generate_header_returns _ _ (generator_at_ext _ _ _ Hself) g)).
  rewrite (bind_returns _ _ _ _ _ (append_fresh h [] [] _)).
  cbn [app].
  rewrite (bind_returns _ _ _ _ _ (Hl _)).
  destruct (generate_layers_returns
              _ _ (generator_at_ext _ [Heap.List [Heap.Str (generate_header g)]]
                                    _ Hself)
              g lr _ (dict_at_ext _ _ _ _ Hd)) as (lines1 & E1).
  rewrite (bind_returns _ _ _ _ _ E1). clear E1.
  rewrite <- app_assoc. cbn [app].
  rewrite (bind_returns _ _ _ _ _ (append_fresh h _ _ _)).
  cbn [app].
  rewrite (bind_returns _ _ _ _ _ (Hr _)).
  destruct (generate_rules_returns
              _ _ (generator_at_ext
                     _ [Heap.List [Heap.Str (generate_header g);
                                   Heap.Str (generate_layers g (layers deck))];
                        Heap.List lines1]
                     _ Hself)
              g rr _ steps (rules_at_ext _ _ _ _ Hn) Hsteps)
    as (lines2 & E2).
  rewrite (bind_returns _ _ _ _ _ E2). clear E2.
  rewrite <- app_assoc. cbn [app].
  rewrite (bind_returns _ _ _ _ _ (append_fresh h _ _ _)).
  cbn [app].
  rewrite (bind_returns _ _ _ _ _
             (generate_footer_returns _ _ (generator_at_ext _ _ _ Hself) g)).
  rewrite (bind_returns _ _ _ _ _ (append_fresh h _ _ _)).
  cbn [app].
  eexists.
  exact (join_list_fresh nl h _
           [generate_header g; generate_layers g (layers deck);
            generate_rules g (rules deck); generate_footer g]).
Qed.


(** C7.  [generate], run on a heap that holds a generator and a parser
    with its dictionary of layers, its list of rules and their nodes,
    returns once the loop over the rules has a step for every rule and
    one to see the end.  The heap it leaves is the heap it found,
    followed by the lists the call made: no object that was there is
    changed, so the parser still holds the same rule deck.  A second
    call returns the same text, and so does a call with any generator
    and any parser object, on any heap, that holds the same rule deck:
    the text is the one the function [generate] gives for the deck. *)
Theorem generate_idempotent :
  forall (h : Heap.heap) (self parser : Heap.ref) (deck : SVRFParser)
         (steps : nat),
    Heap.generator_at h self = true ->
    Heap.parser_at h parser = Some deck ->
    (List.length (rules deck) < steps)%nat ->
    let text := fst (fst (generate PXLGenerator_init deck)) in
    exists made1 made2 : Heap.heap,
      Heap.generate steps self parser h = Heap.Returns text (h ++ made1)%list
      /\ Heap.generate steps self parser (h ++ made1)%list
         = Heap.Returns text ((h ++ made1) ++ made2)%list
      /\ Heap.parser_at (h ++ made1)%list parser = Some deck
      /\ Heap.parser_at ((h ++ made1) ++ made2)%list parser = Some deck
      /\ forall (h' : Heap.heap) (self' parser' : Heap.ref) (steps' : nat),
           Heap.generator_at h' self' = true ->
           Heap.parser_at h' parser' = Some deck ->
           (List.length (rules deck) < steps')%nat ->
           exists made : Heap.heap,
             Heap.generate steps' self' parser' h'
             = Heap.Returns text (h' ++ made)%list.
Proof.
  intros h self parser deck steps Hself Hparser Hsteps text.
  destruct (generate_returns h self parser deck steps PXLGenerator_init
                             Hself Hparser Hsteps) as (made1 & E1).
  pose proof (generator_at_ext _ made1 _ Hself) as Hself1.
  pose proof (parser_at_ext _ made1 _ _ Hparser) as Hparser1.
  destruct (generate_returns _ self parser deck steps PXLGenerator_init
                             Hself1 Hparser1 Hsteps) as (made2 & E2).
  exists made1, made2.
  split; [exact E1|]. split; [exact E2|]. split; [exact Hparser1|].
  split; [now apply parser_at_ext|].
  intros h' self' parser' steps' Hself' Hparser' Hsteps'.
  exact (generate_returns h' self' parser' deck steps' PXLGenerator_init
                          Hself' Hparser' Hsteps').
Qed.

Lemma generate_idempotent_witness :
  let union :=
    Boolean {| BooleanOp.result_name := "BOTH"; BooleanOp.operation := "OR";
               BooleanOp.layer1 := "M1"; BooleanOp.layer2 := Some "VIA";
               BooleanOp.comment := None |} in
  let m1 := {| LayerDef.name := "M1"; LayerDef.gds_layer := 10%Z;
               LayerDef.gds_datatype := 0%Z |} in
  let via := {| LayerDef.name := "VIA"; LayerDef.gds_layer := 5%Z;
                LayerDef.gds_datatype := 0%Z |} in
  let h := [Heap.Generator 1%nat; Heap.List [];
            Heap.Layer m1; Heap.Layer via;
            Heap.Dict [("M1", Heap.Ref 2%nat); ("VIA", Heap.Ref 3%nat)];
            Heap.Node union;
            Heap.List [Heap.Ref 5%nat; Heap.Ref 5%nat];
            Heap.Parser 4%nat 6%nat None] in
  let deck := {| layers := [("M1", m1); ("VIA", via)];
                 rules := [union; union];
                 current_rule_name := None |} in
  let text := fst (fst (generate PXLGenerator_init deck)) in
  exists made1 made2 : Heap.heap,
    Heap.generate 3%nat 0%nat 7%nat h = Heap.Returns text (h ++ made1)%list
    /\ Heap.generate 3%nat 0%nat 7%nat (h ++ made1)%list
       = Heap.Returns text ((h ++ made1) ++ made2)%list
    /\ Heap.parser_at (h ++ made1)%list 7%nat = Some deck
    /\ Heap.parser_at ((h ++ made1) ++ made2)%list 7%nat = Some deck
    /\ forall (h' : Heap.heap) (self' parser' : Heap.ref) (steps' : nat),
         Heap.generator_at h' self' = true ->
         Heap.parser_at h' parser' = Some deck ->
         (List.length (rules deck) < steps')%nat ->
         exists made : Heap.heap,
           Heap.generate steps' self' parser' h'
           = Heap.Returns text (h' ++ made)%list.
Proof.
  intros union m1 via h deck text.
  apply (generate_idempotent h 0%nat 7%nat deck 3%nat).
  - reflexivity.
  - reflexivity.
  - cbn [rules deck List.length]. lia.
Defined.

(* ====================================================================== *)
(** * The assignment parser *)
(* ====================================================================== *)

Ltac span_cases :=
  repeat match goal with
         | H : exists _, _ |- _ => destruct H
         | H : _ /\ _ |- _ => destruct H
         | H : _ \/ _ |- _ => destruct H
         end;
  subst; rewrite ?consumed_append.

(** What a line the assignment pattern matches looks like, and what the
    groups hold. *)
Lemma assignment_shape (line : string) (m : groups) :
  re_match assignment_re line = Some m ->
  exists result ws1 ws2 op ws3 l1 rest,
    line = (result ++ ws1 ++ "=" ++ ws2 ++ op ++ ws3 ++ l1 ++ rest)%string
    /\ all_in isword result = true /\ result <> EmptyString
    /\ all_in isspace ws1 = true /\ all_in isspace ws2 = true
    /\ (op = "AND" \/ op = "OR" \/ op = "NOT")
    /\ all_in isspace ws3 = true /\ ws3 <> EmptyString
    /\ all_in isword l1 = true /\ l1 <> EmptyString
    /\ grp m 1 = result /\ grp m 2 = op /\ grp m 3 = l1
    /\ (group m 4 = None
        \/ exists ws4 l2 tail,
             rest = (ws4 ++ l2 ++ tail)%string
             /\ all_in isspace ws4 = true /\ ws4 <> EmptyString
             /\ all_in isword l2 = true /\ l2 <> EmptyString
             /\ group m 4 = Some l2).
Proof.
  intros H. destruct (re_match_sound _ _ _ H) as (s' & Hs). clear H.
  unfold assignment_re in Hs. cbn [cat span] in Hs.
  span_cases.
  all: eexists _, _, _, _, _, _, _; split; [reflexivity|].
  all: repeat (split; [first [assumption | reflexivity | tauto]|]).
  all: first [ left; reflexivity
             | right; eexists _, _, _;
               repeat (split; [first [reflexivity | assumption]|]);
               reflexivity ].
Qed.

Lemma app_one_neq {A : Type} (l : list A) (x : A) : l <> l ++ [x].
Proof.
  intros H. apply (f_equal (@List.length A)) in H.
  rewrite length_app in H. simpl in H. lia.
Qed.

(** The node an assignment adds, from the groups of the match. *)
Lemma parse_assignment_node (self : SVRFParser) (line : string)
      (b : BooleanOp.t) :
  rules (_parse_assignment self line) = rules self ++ [Boolean b] ->
  exists m,
    re_match assignment_re line = Some m
    /\ BooleanOp.result_name b = grp m 1
    /\ BooleanOp.operation b = grp m 2
    /\ BooleanOp.layer1 b = grp m 3
    /\ BooleanOp.layer2 b = group m 4.
Proof.
  unfold _parse_assignment. destruct (re_match assignment_re line) as [m|].
  - cbn [rules rules_append]. intros H. apply app_inv_head in H.
    injection H as <-. exists m. repeat split.
  - intros H. now apply app_one_neq in H.
Qed.

Section Assignments.

Variables (self : SVRFParser) (line : string) (b : BooleanOp.t).
Hypothesis parsed :
  rules (_parse_assignment self line) = rules self ++ [Boolean b].

(** C4, amended.  A NOT assignment is taken with one operand or with
    two, as AND and OR are.  With one operand the node renders as
    [result = not a;], with two as [result = a not b;]. *)
Theorem not_renders_by_operands :
  BooleanOp.operation b = "NOT" ->
  (BooleanOp.layer2 b = None
   /\ to_pxl b
      = join nl (comment_lines (BooleanOp.comment b)
                   ++ [(BooleanOp.result_name b ++ " = not "
                          ++ BooleanOp.layer1 b ++ ";")%string]))
  \/ (exists operand2,
         BooleanOp.layer2 b = Some operand2 /\ operand2 <> EmptyString
         /\ to_pxl b
            = join nl (comment_lines (BooleanOp.comment b)
                         ++ [(BooleanOp.result_name b ++ " = "
                                ++ BooleanOp.layer1 b ++ " not "
                                ++ operand2 ++ ";")%string])).
Proof.
  intros Hop.
  destruct (parse_assignment_node _ _ _ parsed) as (m & Hm & _ & _ & _ & H4).
  destruct (assignment_shape _ _ Hm)
    as (? & ? & ? & ? & ? & ? & ? & _ & _ & _ & _ & _ & _ & _ & _ & _ & _ & _
        & _ & _ & [Hnone | (ws4 & l2 & tail & _ & _ & _ & _ & Hl2 & Hsome)]).
  - left. split; [congruence|].
    unfold to_pxl, BooleanOp.pxl. rewrite Hop, H4, Hnone. reflexivity.
  - right. exists l2. split; [congruence|]. split; [assumption|].
    unfold to_pxl, BooleanOp.pxl. rewrite Hop, H4, Hsome.
    destruct l2; [congruence | reflexivity].
Qed.

(** C5, amended.  The operation keyword is recognised in upper case
    only: a line that gives a node has AND, OR or NOT, so written, after
    its equals sign, and the node stores the keyword as written. *)
Theorem operation_keyword_upper_case :
  exists ws1 ws2 rest,
    line = (BooleanOp.result_name b ++ ws1 ++ "=" ++ ws2
              ++ BooleanOp.operation b ++ rest)%string
    /\ all_in isspace ws1 = true /\ all_in isspace ws2 = true
    /\ (BooleanOp.operation b = "AND" \/ BooleanOp.operation b = "OR"
        \/ BooleanOp.operation b = "NOT")
    /\ upper (BooleanOp.operation b) = BooleanOp.operation b.
Proof.
  destruct (parse_assignment_node _ _ _ parsed) as (m & Hm & H1 & H2 & _ & _).
  destruct (assignment_shape _ _ Hm)
    as (result & ws1 & ws2 & op & ws3 & l1 & rest & Hline & _ & _ & Hws1
        & Hws2 & Hop & _ & _ & _ & _ & G1 & G2 & _ & _).
  exists ws1, ws2, (ws3 ++ l1 ++ rest)%string.
  rewrite H1, H2, G1, G2.
  repeat split; try assumption.
  destruct Hop as [->|[->| ->]]; reflexivity.
Qed.

End Assignments.

Lemma not_renders_by_operands_witness :
  let b := {| BooleanOp.result_name := "OUT"; BooleanOp.operation := "NOT";
              BooleanOp.layer1 := "M1"; BooleanOp.layer2 := None;
              BooleanOp.comment := Some "outside metal" |} in
  rules (_parse_assignment SVRFParser_init "OUT = NOT M1 @ outside metal")
    = [Boolean b]
  /\ to_pxl b = ("// outside metal" ++ nl ++ "OUT = not M1;")%string.
Proof.
  intros b. split; [vm_compute; reflexivity|].
  destruct (not_renders_by_operands SVRFParser_init
              "OUT = NOT M1 @ outside metal" b) as [[_ H]|(l2 & H & _)].
  - vm_compute; reflexivity.
  - reflexivity.
  - rewrite H. reflexivity.
  - discriminate H.
Defined.

(** C4 as stated fails: a NOT with two operands is taken, and renders in
    the two-operand form. *)
Lemma not_with_two_operands :
  let b := {| BooleanOp.result_name := "X"; BooleanOp.operation := "NOT";
              BooleanOp.layer1 := "A"; BooleanOp.layer2 := Some "B";
              BooleanOp.comment := None |} in
  rules (_parse_assignment SVRFParser_init "X = NOT A B") = [Boolean b]
  /\ to_pxl b = "X = A not B;"
  /\ to_pxl b <> "X = not A;".
Proof. intros b. repeat split; vm_compute; [reflexivity.. | discriminate]. Qed.

Lemma operation_keyword_upper_case_witness :
  exists ws1 ws2 rest,
    "RESULT = AND METAL1 METAL2"
    = ("RESULT" ++ ws1 ++ "=" ++ ws2 ++ "AND" ++ rest)%string
    /\ all_in isspace ws1 = true /\ all_in isspace ws2 = true
    /\ ("AND" = "AND" \/ "AND" = "OR" \/ "AND" = "NOT")
    /\ upper "AND" = "AND".
Proof.
  apply (operation_keyword_upper_case SVRFParser_init
           "RESULT = AND METAL1 METAL2"
           {| BooleanOp.result_name := "RESULT"; BooleanOp.operation := "AND";
              BooleanOp.layer1 := "METAL1"; BooleanOp.layer2 := Some "METAL2";
              BooleanOp.comment := None |}).
  vm_compute. reflexivity.
Defined.

(** C5 as stated fails: a keyword in lower or mixed case gives no node. *)
Lemma lower_case_keyword_dropped :
  _parse_assignment SVRFParser_init "RESULT = and METAL1 METAL2"
    = SVRFParser_init
  /\ _parse_assignment SVRFParser_init "RESULT = And METAL1 METAL2"
     = SVRFParser_init
  /\ rules (_parse_assignment SVRFParser_init "RESULT = AND METAL1 METAL2")
     <> [].
Proof. repeat split; vm_compute; [reflexivity.. | discriminate]. Qed.

(* ====================================================================== *)
(** * Rendering of the checks *)
(* ====================================================================== *)

Section Occurrences.

Local Open Scope string_scope.

Lemma prefix_split (p s : string) :
  prefix p s = true -> exists b, s = p ++ b.
Proof.
  revert s; induction p as [|x p IH]; intros s H.
  - now exists s.
  - destruct s as [|y s]; simpl in H; [discriminate|].
    destruct (ascii_dec x y) as [->|]; [|discriminate].
    destruct (IH _ H) as (b & ->). now exists b.
Qed.

Lemma contains_split (sub s : string) :
  contains sub s = true <-> exists a b, s = a ++ sub ++ b.
Proof.
  split.
  - induction s as [|c s IH]; cbn [contains]; intros H.
    + rewrite orb_false_r in H. destruct (prefix_split _ _ H) as (b & ->).
      now exists "", b.
    + apply orb_true_iff in H as [H|H].
      * destruct (prefix_split _ _ H) as (b & ->). now exists "", b.
      * destruct (IH H) as (a & b & ->). now exists (String c a), b.
  - intros (a & b & ->). apply contains_middle.
Qed.

Lemma contains_trans (a b c : string) :
  contains a b = true -> contains b c = true -> contains a c = true.
Proof.
  intros Hab Hbc.
  apply contains_split in Hab as (a1 & a2 & ->).
  apply contains_split in Hbc as (b1 & b2 & ->).
  apply contains_split. exists (b1 ++ a1), (a2 ++ b2).
  now rewrite !append_assoc.
Qed.

(** An element of a list occurs in the list joined. *)
Lemma contains_join (sep x : string) (l : list string) :
  In x l -> contains x (join sep l) = true.
Proof.
  unfold join. induction l as [|y l IH]; [contradiction|].
  intros [->|Hin].
  - destruct l as [|z l]; cbn [concat].
    + apply contains_prefix. rewrite <- (append_nil_r x) at 2.
      apply prefix_append.
    + apply contains_prefix, prefix_append.
  - destruct l as [|z l]; [contradiction|]. cbn [concat].
    apply contains_append_r, contains_append_r, IH, Hin.
Qed.

End Occurrences.

(** What a block a check pattern matches looks like, and what the groups
    hold. *)
Lemma check_shape (keyword block : string) (m : groups) :
  search (check_re keyword) block = Some m ->
  exists pre ws1 ws2 ws3 rest,
    block = (pre ++ keyword ++ ws1 ++ grp m 1 ++ ws2 ++ grp m 2 ++ ws3
                 ++ grp m 3 ++ rest)%string
    /\ all_in isspace ws1 = true /\ ws1 <> EmptyString
    /\ all_in isword (grp m 1) = true /\ grp m 1 <> EmptyString
    /\ all_in isspace ws2 = true
    /\ all_in op_char (grp m 2) = true /\ grp m 2 <> EmptyString
    /\ all_in isspace ws3 = true
    /\ all_in num_char (grp m 3) = true /\ grp m 3 <> EmptyString.
Proof.
  intros H. destruct (search_sound _ _ _ H) as (pre & s1 & s' & -> & Hs).
  clear H. unfold check_re in Hs. cbn [cat span] in Hs.
  span_cases.
  eexists pre, _, _, _, _. cbn [grp group Nat.eqb Py.text].
  split; [reflexivity|]. repeat split; assumption.
Qed.

(** The node a block adds when it adds a width check. *)
Lemma parse_rule_block_width (self self' : SVRFParser)
      (rule_name block : string) (comment : option string)
      (w : WidthCheck.t) :
  _parse_rule_block self rule_name block comment = Py.Ok self' ->
  rules self' = rules self ++ [Width w] ->
  exists m,
    search (check_re "WIDTH") block = Some m
    /\ Float.of_string (grp m 3) = Some (WidthCheck.value w)
    /\ w = {| WidthCheck.rule_name := rule_name;
              WidthCheck.layer := grp m 1;
              WidthCheck.operator := grp m 2;
              WidthCheck.value := WidthCheck.value w;
              WidthCheck.comment := comment |}.
Proof.
  unfold _parse_rule_block, Py.float. intros H Hr.
  destruct (contains "WIDTH" block);
    [|destruct (contains "EXTERNAL" block);
      [|destruct (contains "INTERNAL" block);
        [|destruct (contains "ENC" block)]]].
  all: try match type of H with context [search ?r ?b] =>
         destruct (search r b) as [m|] eqn:Hs end.
  all: try match type of H with context [Float.of_string ?t] =>
         destruct (Float.of_string t) as [value|] eqn:Hf end.
  all: cbn [Py.bind] in H; try discriminate H; injection H as <-.
  all: try (now apply app_one_neq in Hr).
  all: cbn [rules rules_append] in Hr; apply app_inv_head in Hr;
    try discriminate Hr.
  injection Hr as <-. exists m. cbn. auto.
Qed.

Section WidthRendering.

Variables (self self' : SVRFParser) (rule_name block : string)
          (comment : option string) (w : WidthCheck.t).
Hypothesis parsed :
  _parse_rule_block self rule_name block comment = Py.Ok self'.
Hypothesis added : rules self' = rules self ++ [Width w].

(** C6, amended.  For a width check parsed from a block, the output has
    the registration call with the rule name of the block and, in its
    description, the operator as it stands in the block and the value as
    Python prints the float read from the number of the block: the
    shortest decimal that reads back as that float, which need not be
    the number as written. *)
Theorem width_registration_rendered :
  WidthCheck.rule_name w = rule_name
  /\ (exists pre ws1 ws2 ws3 number rest,
         block = (pre ++ "WIDTH" ++ ws1 ++ WidthCheck.layer w ++ ws2
                      ++ WidthCheck.operator w ++ ws3 ++ number ++ rest)%string
         /\ Float.of_string number = Some (WidthCheck.value w))
  /\ forall generator : PXLGenerator,
       contains
         ("drc_deck(" ++ rule_name ++ "_violations, " ++ dquote ++ rule_name
            ++ dquote ++ ", " ++ dquote ++ "Width violation: "
            ++ WidthCheck.operator w ++ " "
            ++ Float.repr (WidthCheck.value w) ++ "um" ++ dquote ++ ");")
         (fst (fst (generate generator self'))) = true.
Proof.
  destruct (parse_rule_block_width _ _ _ _ _ _ parsed added)
    as (m & Hs & Hf & Hw).
  destruct (check_shape _ _ _ Hs)
    as (pre & ws1 & ws2 & ws3 & rest & Hblock & _).
  split; [now rewrite Hw|]. split.
  - exists pre, ws1, ws2, ws3, (grp m 3), rest. split; [|assumption].
    now rewrite Hw.
  - intros generator. cbn [generate fst].
    eapply contains_trans; [|apply contains_join; right; right; left;
                             reflexivity].
    unfold generate_rules. rewrite added, flat_map_app.
    eapply contains_trans; [|apply contains_join; rewrite !in_app_iff; right;
                             right; left; reflexivity].
    assert (Hname : WidthCheck.rule_name w = rule_name) by now rewrite Hw.
    match goal with |- contains ?needle _ = true =>
      replace needle
        with (drc_deck (WidthCheck.rule_name w ++ "_violations")
                (WidthCheck.rule_name w) "Width" (WidthCheck.operator w)
                (WidthCheck.value w))
        by (rewrite Hname; unfold drc_deck; rewrite !append_assoc;
            reflexivity)
    end.
    apply contains_join. rewrite !in_app_iff. right. left. reflexivity.
Qed.

End WidthRendering.

Lemma width_registration_rendered_witness :
  let block := "W1 { WIDTH METAL1 < 0.50 }" in
  let w := {| WidthCheck.rule_name := "W1"; WidthCheck.layer := "METAL1";
              WidthCheck.operator := "<"; WidthCheck.value := Float.lit "0.50";
              WidthCheck.comment := None |} in
  let self' := rules_append SVRFParser_init (Width w) in
  WidthCheck.rule_name w = "W1"
  /\ (exists pre ws1 ws2 ws3 number rest,
         block = (pre ++ "WIDTH" ++ ws1 ++ WidthCheck.layer w ++ ws2
                      ++ WidthCheck.operator w ++ ws3 ++ number ++ rest)%string
         /\ Float.of_string number = Some (WidthCheck.value w))
  /\ forall generator : PXLGenerator,
       contains
         ("drc_deck(" ++ "W1" ++ "_violations, " ++ dquote ++ "W1"
            ++ dquote ++ ", " ++ dquote ++ "Width violation: "
            ++ WidthCheck.operator w ++ " "
            ++ Float.repr (WidthCheck.value w) ++ "um" ++ dquote ++ ");")
         (fst (fst (generate generator self'))) = true.
Proof.
  intros block w self'.
  apply (width_registration_rendered SVRFParser_init self' "W1" block None w);
    vm_compute; reflexivity.
Defined.

(** C6 as stated fails: the number [0.50] of the deck is printed as
    [0.5], and the text [0.50] is nowhere in the output. *)
Lemma width_value_not_verbatim :
  match parse_text SVRFParser_init "W1 { WIDTH METAL1 < 0.50 }" with
  | Py.Ok parser =>
      let text := fst (fst (generate PXLGenerator_init parser)) in
      contains "0.50" text = false
      /\ contains ("drc_deck(W1_violations, " ++ dquote ++ "W1" ++ dquote
                     ++ ", " ++ dquote ++ "Width violation: < 0.5um"
                     ++ dquote ++ ");") text = true
  | Py.Raise _ => False
  end.
Proof. vm_compute. split; reflexivity. Qed.

(* ====================================================================== *)
(** * The layer section *)
(* ====================================================================== *)

Section StableSort.

Context {A : Type} (key : A -> Z).

Lemma insert_by_perm (x : A) (l : list A) :
  Permutation (Py.insert_by key x l) (x :: l).
Proof.
  induction l as [|y l IH]; simpl; [reflexivity|].
  destruct (key x <=? key y)%Z; [reflexivity|].
  rewrite IH. apply perm_swap.
Qed.

Lemma sorted_by_perm (l : list A) : Permutation (Py.sorted_by key l) l.
Proof.
  induction l as [|x l IH]; simpl; [reflexivity|].
  rewrite insert_by_perm. now constructor.
Qed.

Lemma insert_by_sorted (x : A) (l : list A) :
  StronglySorted (key_le key) l ->
  StronglySorted (key_le key) (Py.insert_by key x l).
Proof.
  induction 1 as [|y l Hs IH Hy]; simpl.
  - repeat constructor.
  - destruct (key x <=? key y)%Z eqn:Hxy.
    + apply Z.leb_le in Hxy. constructor; [now constructor|].
      constructor; [assumption|].
      eapply Forall_impl; [|exact Hy]. unfold key_le. intros; lia.
    + apply Z.leb_gt in Hxy. constructor; [assumption|].
      apply (Permutation_Forall (Permutation_sym (insert_by_perm x l))).
      constructor; [unfold key_le; lia | assumption].
Qed.

Lemma sorted_by_sorted (l : list A) :
  StronglySorted (key_le key) (Py.sorted_by key l).
Proof.
  induction l as [|x l IH]; simpl; [constructor|].
  now apply insert_by_sorted.
Qed.

(** The sort is stable: the elements of one key keep their order. *)
Lemma insert_by_filter (n : Z) (x : A) (l : list A) :
  filter (fun a => key a =? n)%Z (Py.insert_by key x l)
  = filter (fun a => key a =? n)%Z (x :: l).
Proof.
  induction l as [|y l IH]; [reflexivity|].
  cbn [Py.insert_by]. destruct (key x <=? key y)%Z eqn:Hxy; [reflexivity|].
  apply Z.leb_gt in Hxy. cbn [filter] in *. rewrite IH.
  destruct (key x =? n)%Z eqn:Hx, (key y =? n)%Z eqn:Hy; try reflexivity.
  apply Z.eqb_eq in Hx, Hy. lia.
Qed.

Lemma sorted_by_stable (n : Z) (l : list A) :
  filter (fun a => key a =? n)%Z (Py.sorted_by key l)
  = filter (fun a => key a =? n)%Z l.
Proof.
  induction l as [|x l IH]; [reflexivity|].
  cbn [Py.sorted_by fold_right]. rewrite insert_by_filter.
  cbn [filter]. fold (Py.sorted_by key l). now rewrite IH.
Qed.

End StableSort.

Section LayerTable.

Lemma keys_dict_set {V : Type} (d : Py.dict V) (k : string) (v : V) :
  Py.keys (Py.dict_set d k v)
  = if Py.dict_mem d k then Py.keys d else Py.keys d ++ [k].
Proof.
  unfold Py.dict_mem, Py.keys.
  induction d as [|[k' v'] d IH]; [reflexivity|].
  cbn [Py.dict_set Py.dict_get].
  destruct (String.eqb_spec k' k) as [->|Hne]; [reflexivity|].
  cbn [map fst]. rewrite IH.
  now destruct (Py.dict_get d k).
Qed.

Lemma dict_mem_keys {V : Type} (d : Py.dict V) (k : string) :
  Py.dict_mem d k = false -> ~ In k (Py.keys d).
Proof.
  unfold Py.dict_mem. induction d as [|[k' v'] d IH]; [auto|].
  cbn [Py.dict_get Py.keys map fst].
  destruct (String.eqb_spec k' k) as [->|Hne]; [discriminate|].
  intros H [Heq|Hin]; [congruence | now apply IH].
Qed.

Lemma dict_set_Forall {V : Type} (P : string * V -> Prop) (d : Py.dict V)
      (k : string) (v : V) :
  Forall P d -> P (k, v) -> Forall P (Py.dict_set d k v).
Proof.
  intros Hd Hk. induction Hd as [|[k' v'] d Hx Hd IH]; simpl.
  - now constructor.
  - destruct (String.eqb k' k); now constructor.
Qed.

(** The parser keeps its layer table well formed. *)
Lemma parse_layer_wf (self self' : SVRFParser) (line : string) :
  _parse_layer self line = Py.Ok self' ->
  layers_wf (layers self) -> layers_wf (layers self').
Proof.
  unfold _parse_layer. intros H [Hnd Hall].
  destruct (re_match layer_re line) as [m|];
    [|injection H as <-; now split].
  destruct (Py.int (grp m 2)) as [gds_layer|]; cbn [Py.bind] in H;
    [|discriminate].
  destruct (if Py.truthy (group m 3) then Py.int (grp m 3) else Py.Ok 0%Z)
    as [gds_datatype|]; cbn [Py.bind] in H; [|discriminate].
  injection H as <-.
  cbn [layers layers_set]. split.
  - rewrite keys_dict_set.
    destruct (Py.dict_mem (layers self) (grp m 1)) eqn:Hmem; [assumption|].
    apply NoDup_app; [assumption | repeat constructor; auto |].
    intros k Hk [<-|[]]. now apply dict_mem_keys in Hmem.
  - now apply dict_set_Forall.
Qed.

Lemma values_names (layers : Py.dict LayerDef.t) :
  layers_wf layers -> map LayerDef.name (Py.values layers) = Py.keys layers.
Proof.
  intros [_ Hall]. unfold Py.values, Py.keys. rewrite map_map.
  apply map_ext_in. intros e He.
  now apply (proj1 (Forall_forall _ _) Hall).
Qed.

Variables (generator : PXLGenerator) (layers : Py.dict LayerDef.t).

(** C2, amended.  The layer section is its banner, one declaration line
    [name = layer(gds_layer, gds_datatype);] for each entry of the layer
    table, and a blank line.  The lines are in ascending order of
    [gds_layer]; layers of equal [gds_layer] stay in the order in which
    the table holds them, the order of first declaration of their names
    (the names do not break ties).  In a well-formed table the lines
    name each layer name once. *)
Theorem layer_section_sorted_stable :
  generate_layers generator layers
  = join nl ([bar; "// LAYER DEFINITIONS"; (bar ++ nl)%string]
               ++ map to_pxl (layer_lines layers) ++ [""])
  /\ (forall layer : LayerDef.t,
         to_pxl layer
         = (LayerDef.name layer ++ " = layer("
              ++ str_of_Z (LayerDef.gds_layer layer) ++ ", "
              ++ str_of_Z (LayerDef.gds_datatype layer) ++ ");")%string)
  /\ Permutation (layer_lines layers) (Py.values layers)
  /\ StronglySorted (key_le LayerDef.gds_layer) (layer_lines layers)
  /\ (forall n : Z,
         filter (fun l => LayerDef.gds_layer l =? n)%Z (layer_lines layers)
         = filter (fun l => LayerDef.gds_layer l =? n)%Z (Py.values layers))
  /\ (layers_wf layers ->
      Permutation (map LayerDef.name (layer_lines layers)) (Py.keys layers)
      /\ NoDup (map LayerDef.name (layer_lines layers))).
Proof.
  unfold layer_lines. repeat apply conj.
  - unfold generate_layers. now rewrite <- app_assoc.
  - reflexivity.
  - apply sorted_by_perm.
  - apply sorted_by_sorted.
  - intros n. apply sorted_by_stable.
  - intros Hwf.
    assert (Hp : Permutation
                   (map LayerDef.name
                        (Py.sorted_by LayerDef.gds_layer (Py.values layers)))
                   (Py.keys layers)).
    { rewrite <- (values_names _ Hwf).
      apply Permutation_map, sorted_by_perm. }
    split; [assumption|].
    apply (Permutation_NoDup (Permutation_sym Hp)), Hwf.
Qed.

End LayerTable.

Lemma layer_section_sorted_stable_witness :
  let layers :=
    [("A", {| LayerDef.name := "A"; LayerDef.gds_layer := 20;
              LayerDef.gds_datatype := 0 |});
     ("B", {| LayerDef.name := "B"; LayerDef.gds_layer := 10;
              LayerDef.gds_datatype := 0 |})] in
  layers_wf layers
  /\ Permutation (map LayerDef.name (layer_lines layers)) ["A"; "B"]
  /\ map LayerDef.name (layer_lines layers) = ["B"; "A"].
Proof.
  intros layers.
  assert (Hwf : layers_wf layers).
  { split.
    - repeat constructor; simpl; intuition discriminate.
    - repeat constructor. }
  split; [exact Hwf|]. split; [|reflexivity].
  apply (layer_section_sorted_stable PXLGenerator_init layers), Hwf.
Defined.

(** C2 as stated fails: two layers of one [gds_layer] come out in the
    order of their declarations, here [B] before [A], not by name. *)
Lemma layer_ties_not_by_name :
  match parse_text SVRFParser_init ("LAYER B 10" ++ nl ++ "LAYER A 10") with
  | Py.Ok parser =>
      map to_pxl (layer_lines (layers parser))
      = ["B = layer(10, 0);"; "A = layer(10, 0);"]
      /\ String.ltb "A" "B" = true
  | Py.Raise _ => False
  end.
Proof. vm_compute. split; reflexivity. Qed.

(* ====================================================================== *)
(** * The order of the rules *)
(* ====================================================================== *)

Section Segmentation.

Lemma bind_ok {A : Type} (x : Py.result A) : Py.bind x (fun a => Py.Ok a) = x.
Proof. now destruct x. Qed.

(** The inner loop of [parse_lines], seen from outside: it takes the
    lines of the block, classifies the block and the outer loop goes on
    with the lines after it. *)
Lemma parse_lines_cons (self : SVRFParser) (l : string) (rest : list string) :
  parse_lines self (l :: rest)
  = let line := strip l in
    if String.eqb line "" || startswith "//" line then parse_lines self rest
    else if startswith "LAYER " line then
      self' <- _parse_layer self line ;; parse_lines self' rest
    else if contains "{" line then
      let (rule_lines, after) := take_block rest (braces line) [line] in
      self' <- _parse_rule_block
                 (set_current_rule_name self (block_name line))
                 (block_name line) (join nl rule_lines) (block_comment line) ;;
      parse_lines self' after
    else if contains "=" line && negb (startswith "LAYER" line) then
      parse_lines (_parse_assignment self line) rest
    else parse_lines self rest.
Proof.
  cbn [parse_lines]. cbv zeta.
  destruct (String.eqb (strip l) "" || startswith "//" (strip l));
    [reflexivity|].
  destruct (startswith "LAYER " (strip l)); [reflexivity|].
  destruct (contains "{" (strip l)); [|reflexivity].
  generalize (braces (strip l)) ([strip l]).
  induction rest as [|x rest IH]; intros brace_count rule_lines.
  - cbn [take_block parse_lines]. now rewrite bind_ok.
  - cbn [take_block]. destruct (0 <? brace_count)%Z; [apply IH | reflexivity].
Qed.

Lemma statements_cons (l : string) (rest : list string) :
  statements (l :: rest)
  = let line := strip l in
    if String.eqb line "" || startswith "//" line then statements rest
    else if startswith "LAYER " line then LayerDecl line :: statements rest
    else if contains "{" line then
      let (rule_lines, after) := take_block rest (braces line) [line] in
      RuleBlock (block_name line) (join nl rule_lines) (block_comment line)
        :: statements after
    else if contains "=" line && negb (startswith "LAYER" line) then
      Assignment line :: statements rest
    else statements rest.
Proof.
  cbn [statements]. cbv zeta.
  destruct (String.eqb (strip l) "" || startswith "//" (strip l));
    [reflexivity|].
  destruct (startswith "LAYER " (strip l)); [reflexivity|].
  destruct (contains "{" (strip l)); [|reflexivity].
  generalize (braces (strip l)) ([strip l]).
  induction rest as [|x rest IH]; intros brace_count rule_lines.
  - reflexivity.
  - cbn [take_block]. destruct (0 <? brace_count)%Z; [apply IH | reflexivity].
Qed.

Lemma take_block_length (ls : list string) (brace_count : Z)
      (rule_lines : list string) :
  (List.length (snd (take_block ls brace_count rule_lines))
   <= List.length ls)%nat.
Proof.
  revert brace_count rule_lines.
  induction ls as [|x ls IH]; intros brace_count rule_lines; simpl; [lia|].
  destruct (0 <? brace_count)%Z; simpl; [|lia].
  specialize (IH (brace_count + braces x)%Z (rule_lines ++ [x])). lia.
Qed.

(** The loop of the parser runs the statements of the deck in order. *)
Lemma parse_lines_statements (lines : list string) :
  forall self, parse_lines self lines = run self (statements lines).
Proof.
  remember (List.length lines) as n eqn:Hn.
  revert lines Hn. induction n as [n IH] using lt_wf_ind.
  intros [|l rest] Hn self; [reflexivity|].
  rewrite parse_lines_cons, statements_cons. cbv zeta.
  simpl in Hn.
  assert (Hrest : forall self0,
             parse_lines self0 rest = run self0 (statements rest)).
  { apply (IH (List.length rest)); [lia | reflexivity]. }
  destruct (String.eqb (strip l) "" || startswith "//" (strip l));
    [apply Hrest|].
  destruct (startswith "LAYER " (strip l)).
  { cbn [run exec]. destruct (_parse_layer self (strip l)); cbn [Py.bind];
      [apply Hrest | reflexivity]. }
  destruct (contains "{" (strip l)).
  - pose proof (take_block_length rest (braces (strip l)) [strip l]) as Hlen.
    destruct (take_block rest (braces (strip l)) [strip l])
      as [rule_lines after].
    simpl in Hlen. cbn [run exec].
    destruct (_parse_rule_block _ _ _ _) as [self'|e]; [|reflexivity].
    cbn [Py.bind]. apply (IH (List.length after)); [lia | reflexivity].
  - destruct (contains "=" (strip l) && negb (startswith "LAYER" (strip l)));
      apply Hrest.
Qed.

End Segmentation.

Section AppendOnly.

Lemma parse_layer_rules (self self' : SVRFParser) (line : string) :
  _parse_layer self line = Py.Ok self' -> rules self' = rules self.
Proof.
  unfold _parse_layer.
  destruct (re_match layer_re line) as [m|]; [|now intros [= <-]].
  destruct (Py.int (grp m 2)) as [gds_layer|]; cbn [Py.bind];
    [|discriminate].
  destruct (if Py.truthy (group m 3) then Py.int (grp m 3) else Py.Ok 0%Z)
    as [gds_datatype|]; cbn [Py.bind]; [|discriminate].
  now intros [= <-].
Qed.

(** A layer declaration read by an empty parser leaves no rule. *)
Lemma emitted_layer_decl (line : string) : emitted (LayerDecl line) = [].
Proof.
  unfold emitted. cbn [exec].
  destruct (_parse_layer SVRFParser_init line) as [self'|] eqn:E;
    [|reflexivity].
  now rewrite (parse_layer_rules _ _ _ E).
Qed.

(** A statement adds its nodes after the rules already there, and the
    nodes it adds do not depend on what is there. *)
Lemma exec_rules (self self' : SVRFParser) (st : Statement) :
  exec self st = Py.Ok self' -> rules self' = rules self ++ emitted st.
Proof.
  destruct st as [line|rule_name rule_body comment|line];
    [rewrite emitted_layer_decl | unfold emitted..]; cbn [exec].
  - intros H. rewrite (parse_layer_rules _ _ _ H).
    now rewrite app_nil_r.
  - unfold _parse_rule_block, Py.float.
    destruct (contains "WIDTH" rule_body);
      [|destruct (contains "EXTERNAL" rule_body);
        [|destruct (contains "INTERNAL" rule_body);
          [|destruct (contains "ENC" rule_body)]]].
    all: try match goal with |- context [search ?r ?b] =>
           destruct (search r b) as [m|] end.
    all: try match goal with |- context [Float.of_string ?t] =>
           destruct (Float.of_string t) as [value|] end.
    all: cbn [Py.bind]; intros H; try discriminate H; injection H as <-.
    all: cbn [rules rules_append set_current_rule_name SVRFParser_init];
      now rewrite ?app_nil_r.
  - intros H. injection H as <-. unfold _parse_assignment.
    destruct (re_match assignment_re line);
      cbn [rules rules_append SVRFParser_init]; now rewrite ?app_nil_r.
Qed.

Lemma run_rules (sts : list Statement) :
  forall self self',
    run self sts = Py.Ok self' ->
    rules self' = rules self ++ flat_map emitted sts.
Proof.
  induction sts as [|st sts IH]; intros self self' H; cbn [run] in H.
  - injection H as <-. now rewrite app_nil_r.
  - destruct (exec self st) as [self1|e] eqn:He; [|discriminate].
    cbn [Py.bind] in H. rewrite (IH _ _ H), (exec_rules _ _ _ He).
    now rewrite <- app_assoc.
Qed.

(** Layer declarations add no rule: the rules of a deck are those of the
    deck without them. *)
Lemma emitted_without_layers (sts : list Statement) :
  flat_map emitted sts
  = flat_map emitted (filter (fun st => negb (is_layer_decl st)) sts).
Proof.
  induction sts as [|st sts IH]; [reflexivity|].
  destruct st as [line| |]; cbn [flat_map filter is_layer_decl negb];
    try now rewrite IH.
  now rewrite emitted_layer_decl.
Qed.

Lemma parse_rule_block_layers (self self' : SVRFParser)
      (rule_name block : string) (comment : option string) :
  _parse_rule_block self rule_name block comment = Py.Ok self' ->
  layers self' = layers self.
Proof.
  unfold _parse_rule_block, Py.float.
  destruct (contains "WIDTH" block);
    [|destruct (contains "EXTERNAL" block);
      [|destruct (contains "INTERNAL" block);
        [|destruct (contains "ENC" block)]]].
  all: try match goal with |- context [search ?r ?b] =>
         destruct (search r b) as [m|] end.
  all: try match goal with |- context [Float.of_string ?t] =>
         destruct (Float.of_string t) as [value|] end.
  all: cbn [Py.bind]; intros H; try discriminate H; now injection H as <-.
Qed.

Lemma exec_layers_wf (self self' : SVRFParser) (st : Statement) :
  exec self st = Py.Ok self' ->
  layers_wf (layers self) -> layers_wf (layers self').
Proof.
  destruct st as [line|rule_name rule_body comment|line]; cbn [exec].
  - apply parse_layer_wf.
  - intros H. now rewrite (parse_rule_block_layers _ _ _ _ _ H).
  - intros H. injection H as <-. unfold _parse_assignment.
    now destruct (re_match assignment_re line).
Qed.

(** The layer table of a parsed deck is well formed. *)
Lemma parsed_layers_wf (content : string) (parser : SVRFParser) :
  parse_text SVRFParser_init content = Py.Ok parser ->
  layers_wf (layers parser).
Proof.
  unfold parse_text. rewrite parse_lines_statements.
  assert (Hinit : layers_wf (layers SVRFParser_init))
    by (split; constructor).
  revert Hinit. generalize SVRFParser_init.
  induction (statements (split LF (sub_empty comment_re content)))
    as [|st sts IH]; intros self Hwf H; cbn [run] in H.
  - now injection H as <-.
  - destruct (exec self st) as [self1|e] eqn:He; [|discriminate].
    cbn [Py.bind] in H. apply (IH self1); [|exact H].
    now apply (exec_layers_wf self self1 st).
Qed.

End AppendOnly.

Section RunningStatements.

Lemma run_app (self : SVRFParser) (a b : list Statement) :
  run self (a ++ b) = (self' <- run self a ;; run self' b).
Proof.
  revert self. induction a as [|st a IH]; intros self; [reflexivity|].
  cbn [app run]. destruct (exec self st); cbn [Py.bind]; [apply IH|].
  reflexivity.
Qed.

End RunningStatements.

Section Driver.

Variables (args : Args) (fs : Py.FileSystem).

(** C8.  The driver returns 0 when the run succeeds and 1 otherwise: when
    the input file does not exist, and when parsing raises.  A number
    that the pattern of the selected check matches but that does not
    convert (as [1.2.3]) makes the classifier raise [ValueError],
    whichever of WIDTH, EXTERNAL, INTERNAL and ENC selects the check and
    however many lines the block has; the loop of the parser does not
    catch it, whatever it has read before and whatever follows, and the
    run ends with exit code 1, no file written. *)
Theorem main_exit_code :
  (forall fs', translate args fs = Py.Ok fs' -> main args fs = (0%Z, fs'))
  /\ (forall e, translate args fs = Py.Raise e -> main args fs = (1%Z, fs))
  /\ (Py.dict_get (Py.files fs) (input args) = None ->
      main args fs = (1%Z, fs))
  /\ (forall content e,
         Py.dict_get (Py.files fs) (input args) = Some content ->
         parse_text SVRFParser_init content = Py.Raise e ->
         main args fs = (1%Z, fs))
  /\ (forall self l rest m,
         String.eqb (strip l) "" || startswith "//" (strip l) = false ->
         startswith "LAYER " (strip l) = false ->
         contains "{" (strip l) = true ->
         (braces (strip l) <= 0)%Z ->
         contains "WIDTH" (strip l) = true ->
         search (check_re "WIDTH") (strip l) = Some m ->
         Float.of_string (grp m 3) = None ->
         parse_lines self (l :: rest) = Py.Raise Py.ValueError)
  /\ (forall content before rule_name body comment after self1 keyword v re m,
         Py.dict_get (Py.files fs) (input args) = Some content ->
         statements (split LF (sub_empty comment_re content))
         = before ++ RuleBlock rule_name body comment :: after ->
         run SVRFParser_init before = Py.Ok self1 ->
         selected body = Some (keyword, (v, re)) ->
         search re body = Some m ->
         Float.of_string (grp m (value_group v)) = None ->
         parse_text SVRFParser_init content = Py.Raise Py.ValueError
         /\ main args fs = (1%Z, fs)).
Proof.
  assert (Hraise : forall e, translate args fs = Py.Raise e ->
                             main args fs = (1%Z, fs)).
  { intros e H. unfold main. rewrite H. now destruct e. }
  repeat apply conj.
  - intros fs' H. unfold main. now rewrite H.
  - exact Hraise.
  - intros Hin. apply (Hraise Py.FileNotFoundError).
    unfold translate, parse_file, Py.read_file. now rewrite Hin.
  - intros content e Hin Hp. apply (Hraise e).
    unfold translate, parse_file, Py.read_file. rewrite Hin. cbn [Py.bind].
    now rewrite Hp.
  - intros self l rest m Hskip Hlayer Hbrace Hcount Hw Hs Hf.
    cbn [parse_lines]. cbv zeta. rewrite Hskip, Hlayer, Hbrace.
    assert (Hblock : _parse_rule_block
                       (set_current_rule_name self (block_name (strip l)))
                       (block_name (strip l)) (join nl [strip l])
                       (block_comment (strip l)) = Py.Raise Py.ValueError).
    { apply malformed_number_raises with (m := m); assumption. }
    destruct rest as [|x rest].
    + exact Hblock.
    + replace (0 <? braces (strip l))%Z with false
        by (symmetry; apply Z.ltb_ge; assumption).
      now rewrite Hblock.
  - intros content before rule_name body comment after self1 keyword v re m
           Hin Hsts Hbefore Hsel Hs Hf.
    assert (Hp : parse_text SVRFParser_init content
                 = Py.Raise Py.ValueError).
    { unfold parse_text. rewrite parse_lines_statements, Hsts, run_app.
      rewrite Hbefore. cbn [Py.bind run exec].
      rewrite parse_rule_block_classified. unfold classified, Py.float.
      now rewrite Hsel, Hs, Hf. }
    split; [exact Hp|]. apply (Hraise Py.ValueError).
    unfold translate, parse_file, Py.read_file. rewrite Hin. cbn [Py.bind].
    now rewrite Hp.
Qed.

End Driver.

Lemma main_exit_code_witness :
  let deck := "LAYER M1 10
W1 { WIDTH M1 < 1.2.3 }
W2 { WIDTH M1 < 0.5 }" in
  let deck2 := "LAYER M1 10
E1 {
  ENC VIA M1 < 1.2.3
}
W2 { WIDTH M1 < 0.5 }" in
  let args := {| input := "deck.svrf"; output := "deck.rs";
                 verbose := false; stats := false |} in
  let fs := {| Py.files := [("deck.svrf", deck)]; Py.unwritable := [] |} in
  let fs2 := {| Py.files := [("deck.svrf", deck2)]; Py.unwritable := [] |} in
  main args fs = (1%Z, fs)
  /\ main {| input := "absent.svrf"; output := "deck.rs";
             verbose := false; stats := false |} fs = (1%Z, fs)
  /\ parse_lines SVRFParser_init
       ["W1 { WIDTH M1 < 1.2.3 }"; "W2 { WIDTH M1 < 0.5 }"]
     = Py.Raise Py.ValueError
  /\ fst (main {| input := "deck.rs"; output := "out.rs";
                  verbose := false; stats := false |}
               {| Py.files := [("deck.rs", "LAYER M1 10")];
                  Py.unwritable := [] |}) = 0%Z
  /\ main args fs2 = (1%Z, fs2).
Proof.
  intros deck deck2 args fs fs2. split; [|split; [|split; [|split]]].
  - apply (main_exit_code args fs) with (content := deck) (e := Py.ValueError);
      vm_compute; reflexivity.
  - apply (main_exit_code _ fs); reflexivity.
  - apply (main_exit_code args fs) with
      (m := [(3%nat, "1.2.3"); (2%nat, "<"); (1%nat, "M1")]);
      vm_compute; try reflexivity; discriminate.
  - match goal with |- fst (main ?a ?f) = _ =>
      destruct (translate a f) as [fs'|e] eqn:H;
        [|vm_compute in H; discriminate];
      rewrite (proj1 (main_exit_code a f) fs' H)
    end.
    reflexivity.
  - destruct (main_exit_code args fs2) as (_ & _ & _ & _ & _ & H).
    apply (H deck2 [LayerDecl "LAYER M1 10"] "E1"
             (join nl ["E1 {"; "  ENC VIA M1 < 1.2.3"; "}"]) None
             [RuleBlock "W2" "W2 { WIDTH M1 < 0.5 }" None]
             {| layers := [("M1", {| LayerDef.name := "M1";
                                     LayerDef.gds_layer := 10;
                                     LayerDef.gds_datatype := 0 |})];
                rules := []; current_rule_name := None |}
             "ENC" VEnclosure enc_re
             [(4%nat, "1.2.3"); (3%nat, "<"); (2%nat, "M1"); (1%nat, "VIA")]);
      vm_compute; reflexivity.
Defined.

Section RuleOrder.

Variables (self self' : SVRFParser) (lines : list string)
          (generator : PXLGenerator).
Hypothesis parsed : parse_lines self lines = Py.Ok self'.

(** C1.  The parser only appends to [rules]: after the deck the list is
    what it was, followed by the nodes of the statements of the deck in
    source order.  Layer declarations add nothing, so the list is the
    same with them taken out of the deck.  The rule section renders the
    list from first to last. *)
Theorem rule_order_preserved :
  rules self' = rules self ++ flat_map emitted (statements lines)
  /\ flat_map emitted (statements lines)
     = flat_map emitted
         (filter (fun st => negb (is_layer_decl st)) (statements lines))
  /\ generate_rules generator (rules self')
     = join nl ([bar; "// DRC RULES"; (bar ++ nl)%string]
                  ++ flat_map (fun rule => [to_pxl rule; ""])
                       (rules self ++ flat_map emitted (statements lines))).
Proof.
  assert (Hrules : rules self'
                   = rules self ++ flat_map emitted (statements lines)).
  { apply run_rules. now rewrite <- parse_lines_statements. }
  split; [exact Hrules|]. split; [apply emitted_without_layers|].
  unfold generate_rules. now rewrite Hrules.
Qed.

End RuleOrder.

Lemma rule_order_preserved_witness :
  let lines :=
    ["LAYER M1 10"; "W1 { WIDTH M1 < 0.5 }"; "LAYER M2 20"; "R = AND M1 M2";
     "LAYER V1 30"; "E1 {"; "  ENC V1 M1 > 0.1"; "}"] in
  let without_layers :=
    ["W1 { WIDTH M1 < 0.5 }"; "R = AND M1 M2";
     "E1 {"; "  ENC V1 M1 > 0.1"; "}"] in
  let self' :=
    match parse_lines SVRFParser_init lines with
    | Py.Ok parser => parser
    | Py.Raise _ => SVRFParser_init
    end in
  parse_lines SVRFParser_init lines = Py.Ok self'
  /\ map variant (rules self') = [VWidth; VBoolean; VEnclosure]
  /\ rules self' = flat_map emitted (statements without_layers)
  /\ rules self' = flat_map emitted (statements lines).
Proof.
  intros lines without_layers self'.
  assert (H : parse_lines SVRFParser_init lines = Py.Ok self')
    by (vm_compute; reflexivity).
  split; [exact H|]. split; [vm_compute; reflexivity|].
  split; [vm_compute; reflexivity|].
  apply (rule_order_preserved SVRFParser_init self' lines PXLGenerator_init H).
Defined.

(* ====================================================================== *)
(** * The comparator *)
(* ====================================================================== *)

Section Comparator.

Variables (self : DRCComparator)
          (cal_violations icv_violations : Py.dict (list Violation.t)).


(** A turn of the loop keeps the matching rules found so far. *)
Lemma compare_rule_keeps (results : Results) (rule : string)
      (entry : RuleCount) :
  In entry (matching_rules results) ->
  In entry (matching_rules (compare_rule self cal_violations icv_violations results rule)).
Proof.
  intros H. unfold compare_rule.
  repeat match goal with
         | |- context [if ?c then _ else _] => destruct c
         end;
    cbn [matching_rules]; rewrite ?in_app_iff; auto.
Qed.

Lemma compare_fold_keeps (rules : list string) :
  forall (results : Results) (entry : RuleCount),
    In entry (matching_rules results) ->
    In entry (matching_rules (fold_left (compare_rule self cal_violations icv_violations)
                                  rules results)).
Proof.
  induction rules as [|rule rules IH]; intros results entry H; [exact H|].
  cbn [fold_left]. now apply IH, compare_rule_keeps.
Qed.

(** A rule both reports have, with as many violations in each and every
    violation of the one near one of the other, is filed as matching. *)
Lemma compare_rule_matching (results : Results) (rule : string)
      (cal_viols icv_viols : list Violation.t) :
  Py.dict_get cal_violations rule = Some cal_viols ->
  Py.dict_get icv_violations rule = Some icv_viols ->
  List.length cal_viols = List.length icv_viols ->
  _violations_match self cal_viols icv_viols = true ->
  In {| rc_rule := rule; rc_count := len cal_viols |}
     (matching_rules (compare_rule self cal_violations icv_violations results rule)).
Proof.
  intros Hc Hi Hlen Hm. unfold compare_rule, Py.dict_mem.
  rewrite Hc, Hi. cbn [negb]. unfold len. rewrite Hlen, Z.eqb_refl, Hm.
  cbn [matching_rules]. rewrite in_app_iff. right. left.
  now rewrite <- Hlen.
Qed.

Lemma compare_fold_matching (rules : list string) (rule : string)
      (cal_viols icv_viols : list Violation.t) :
  In rule rules ->
  Py.dict_get cal_violations rule = Some cal_viols ->
  Py.dict_get icv_violations rule = Some icv_viols ->
  List.length cal_viols = List.length icv_viols ->
  _violations_match self cal_viols icv_viols = true ->
  forall results,
    In {| rc_rule := rule; rc_count := len cal_viols |}
       (matching_rules (fold_left (compare_rule self cal_violations icv_violations)
                                  rules results)).
Proof.
  intros Hin Hc Hi Hlen Hm.
  induction rules as [|r rules IH]; [contradiction|].
  intros results. cbn [fold_left]. destruct Hin as [->|Hin].
  - apply compare_fold_keeps. now apply compare_rule_matching with icv_viols.
  - now apply IH.
Qed.

End Comparator.

Section RuleNames.

Lemma insert_name_in (n k : string) (l : list string) :
  In k (n :: l) -> In k (insert_name n l).
Proof.
  induction l as [|m l IH]; [auto|]. cbn [insert_name].
  destruct (String.compare n m) eqn:Hc; [|auto|].
  - apply String.compare_eq_iff in Hc as ->. intros [->|H]; [now left | exact H].
  - intros [->|[->|H]]; [right; apply IH; now left | now left
                         | right; apply IH; now right].
Qed.

Lemma sorted_names_in (a b : list string) (k : string) :
  In k (a ++ b) -> In k (sorted_names a b).
Proof.
  unfold sorted_names. induction (a ++ b) as [|n l IH]; [auto|].
  intros H. cbn [fold_right]. apply insert_name_in.
  destruct H as [->|H]; [now left | right; now apply IH].
Qed.

Lemma dict_get_keys {V : Type} (d : Py.dict V) (k : string) (v : V) :
  Py.dict_get d k = Some v -> In k (Py.keys d).
Proof.
  induction d as [|[k' v'] d IH]; [discriminate|]. cbn [Py.dict_get].
  destruct (String.eqb_spec k' k) as [->|_]; [now left | right; now apply IH].
Qed.

End RuleNames.

(** C9.  With the tolerance 0.001, a Calibre rule [M1.W.1] with the one
    violation (10.5, 20.3) and an ICV rule [M1.W.1] with the one
    violation (10.5003, 20.2997) are reported as matching, whatever
    other rules the two reports hold. *)
Theorem scenario_reported_matching :
  forall (cal_violations icv_violations : Py.dict (list Violation.t))
         (cal_type icv_type : string),
    let cal_viol := {| Violation.rule := "M1.W.1";
                       Violation.x := Float.lit "10.5";
                       Violation.y := Float.lit "20.3";
                       Violation.type := cal_type |} in
    let icv_viol := {| Violation.rule := "M1.W.1";
                       Violation.x := Float.lit "10.5003";
                       Violation.y := Float.lit "20.2997";
                       Violation.type := icv_type |} in
    Py.dict_get cal_violations "M1.W.1" = Some [cal_viol] ->
    Py.dict_get icv_violations "M1.W.1" = Some [icv_viol] ->
    In {| rc_rule := "M1.W.1"; rc_count := 1 |}
       (matching_rules
          (compare {| tolerance := Float.lit "0.001" |}
                   cal_violations icv_violations)).
Proof.
  intros cal icv cal_type icv_type cal_viol icv_viol Hc Hi.
  unfold compare. cbn [matching_rules].
  apply (compare_fold_matching _ cal icv _ "M1.W.1" [cal_viol] [icv_viol]);
    try assumption.
  - apply sorted_names_in, in_or_app. left. exact (dict_get_keys _ _ _ Hc).
  - reflexivity.
  - vm_compute. reflexivity.
Qed.

Lemma scenario_reported_matching_witness :
  let cal := [("M1.W.1", [{| Violation.rule := "M1.W.1";
                             Violation.x := Float.lit "10.5";
                             Violation.y := Float.lit "20.3";
                             Violation.type := "polygon" |}])] in
  let icv := [("M1.W.1", [{| Violation.rule := "M1.W.1";
                             Violation.x := Float.lit "10.5003";
                             Violation.y := Float.lit "20.2997";
                             Violation.type := "unknown" |}])] in
  let results := compare {| tolerance := Float.lit "0.001" |} cal icv in
  In {| rc_rule := "M1.W.1"; rc_count := 1 |} (matching_rules results)
  /\ mismatched_rules results = []
  /\ perfect_match results = true.
Proof.
  intros cal icv results. split; [|split; vm_compute; reflexivity].
  apply (scenario_reported_matching cal icv "polygon" "unknown"); reflexivity.
Defined.

(* ====================================================================== *)
(** * Patterns on well-formed text *)
(* ====================================================================== *)

Section Completeness.

Local Open Scope string_scope.

Lemma strip_prefix_append (p s : string) : strip_prefix p (p ++ s) = Some s.
Proof.
  induction p as [|a p IH]; simpl; [reflexivity|].
  now rewrite Ascii.eqb_refl.
Qed.

(** A greedy run takes all of [w] when the text stops the class after it
    and the rest of the pattern goes through there. *)
Lemma greedy_complete {A : Type} (cls : ascii -> bool) (w s : string)
      (g : groups) (k : cont) (a : A) :
  all_in cls w = true -> stops cls s = true -> k s g = Some a ->
  greedy cls (w ++ s) g k = Some a.
Proof.
  intros Hw Hs Hk. induction w as [|c w IH]; simpl in *.
  - destruct s as [|c s]; [exact Hk|]. simpl in Hs |- *.
    apply negb_true_iff in Hs. now rewrite Hs.
  - apply andb_true_iff in Hw as [Hc Hw]. rewrite Hc.
    now rewrite (IH Hw).
Qed.

Lemma bt_Seq {A : Type} (r1 r2 : regex) (s : string) (g : groups)
      (k : @cont A) :
  bt (Seq r1 r2) s g k = bt r1 s g (fun s' g' => bt r2 s' g' k).
Proof. reflexivity. Qed.

Lemma bt_Group {A : Type} (n : nat) (r : regex) (s : string) (g : groups)
      (k : @cont A) :
  bt (Group n r) s g k
  = bt r s g (fun s' g' => k s' ((n, consumed s s') :: g')).
Proof. reflexivity. Qed.

Lemma bt_Lit_complete {A : Type} (p s : string) (g : groups) (k : cont)
      (a : A) :
  k s g = Some a -> bt (Lit p) (p ++ s) g k = Some a.
Proof. intros H. simpl. now rewrite strip_prefix_append. Qed.

Lemma bt_Plus_complete {A : Type} (cls : ascii -> bool) (w s : string)
      (g : groups) (k : cont) (a : A) :
  w <> "" -> all_in cls w = true -> stops cls s = true -> k s g = Some a ->
  bt (Plus cls) (w ++ s) g k = Some a.
Proof.
  intros Hne Hw Hs Hk. destruct w as [|c w]; [congruence|].
  simpl in *. apply andb_true_iff in Hw as [Hc Hw]. rewrite Hc.
  now apply greedy_complete.
Qed.

Lemma bt_Star_complete {A : Type} (cls : ascii -> bool) (w s : string)
      (g : groups) (k : cont) (a : A) :
  all_in cls w = true -> stops cls s = true -> k s g = Some a ->
  bt (Star cls) (w ++ s) g k = Some a.
Proof. intros. simpl. now apply greedy_complete. Qed.

Lemma bt_Plus_stops {A : Type} (cls : ascii -> bool) (s : string)
      (g : groups) (k : @cont A) :
  stops cls s = true -> bt (Plus cls) s g k = None.
Proof.
  destruct s as [|c s]; [reflexivity|]. simpl. intros H.
  apply negb_true_iff in H. now rewrite H.
Qed.

(** The text after a run of one class stops a class disjoint from it. *)
Lemma stops_after (cls cls' : ascii -> bool) (w s : string) :
  (forall c, cls' c = true -> cls c = false) ->
  all_in cls' w = true -> w <> "" -> stops cls (w ++ s) = true.
Proof.
  intros Hd Hw Hne. destruct w as [|c w]; [congruence|]. simpl in *.
  apply andb_true_iff in Hw as [Hc _]. now rewrite (Hd c Hc).
Qed.

Lemma stops_after_opt (cls cls' : ascii -> bool) (w s : string) :
  (forall c, cls' c = true -> cls c = false) ->
  all_in cls' w = true -> stops cls s = true -> stops cls (w ++ s) = true.
Proof.
  intros Hd Hw Hs. destruct w as [|c w]; [exact Hs|]. simpl in *.
  apply andb_true_iff in Hw as [Hc _]. now rewrite (Hd c Hc).
Qed.

Ltac by_cases_on_char c :=
  destruct c as [[] [] [] [] [] [] [] []]; vm_compute; congruence.

Lemma space_not_word (c : ascii) : isspace c = true -> isword c = false.
Proof. by_cases_on_char c. Qed.

Lemma word_not_space (c : ascii) : isword c = true -> isspace c = false.
Proof. by_cases_on_char c. Qed.

Lemma digit_not_space (c : ascii) : isdigit c = true -> isspace c = false.
Proof. by_cases_on_char c. Qed.

Lemma space_not_digit (c : ascii) : isspace c = true -> isdigit c = false.
Proof. by_cases_on_char c. Qed.

Lemma op_not_word (c : ascii) : op_char c = true -> isword c = false.
Proof. by_cases_on_char c. Qed.

Lemma op_not_space (c : ascii) : op_char c = true -> isspace c = false.
Proof. by_cases_on_char c. Qed.

Lemma space_not_op (c : ascii) : isspace c = true -> op_char c = false.
Proof. by_cases_on_char c. Qed.

Lemma num_not_op (c : ascii) : num_char c = true -> op_char c = false.
Proof. by_cases_on_char c. Qed.

Lemma num_not_space (c : ascii) : num_char c = true -> isspace c = false.
Proof. by_cases_on_char c. Qed.

Lemma digit_is_word (c : ascii) : isdigit c = true -> isword c = true.
Proof. by_cases_on_char c. Qed.

End Completeness.

Section CompletenessMore.

Local Open Scope string_scope.

Lemma bt_Opt {A : Type} (r : regex) (s : string) (g : groups) (k : @cont A) :
  bt (Opt r) s g k = orelse (bt r s g k) (fun _ => k s g).
Proof. reflexivity. Qed.

Lemma made_of_spec (cls : ascii -> bool) (w : string) :
  made_of cls w = true -> all_in cls w = true /\ w <> "".
Proof.
  unfold made_of. intros H. apply andb_true_iff in H as [Ha Hn].
  split; [assumption|]. apply negb_true_iff in Hn.
  now apply String.eqb_neq.
Qed.

Lemma stops_after_run (cls cls' : ascii -> bool) (w s : string) :
  (forall c, cls' c = true -> cls c = false) ->
  made_of cls' w = true -> stops cls (w ++ s) = true.
Proof.
  intros Hd Hw. destruct (made_of_spec _ _ Hw).
  now apply stops_after with (cls' := cls').
Qed.

Lemma bt_run_complete {A : Type} (cls : ascii -> bool) (w s : string)
      (g : groups) (k : cont) (a : A) :
  made_of cls w = true -> stops cls s = true -> k s g = Some a ->
  bt (Plus cls) (w ++ s) g k = Some a.
Proof.
  intros Hw. destruct (made_of_spec _ _ Hw). now apply bt_Plus_complete.
Qed.

End CompletenessMore.

(* ====================================================================== *)
(** * Layer declarations *)
(* ====================================================================== *)

Section LayerLines.

Local Open Scope string_scope.

Variables (ws1 name ws2 number : string).
Hypothesis Hws1 : made_of isspace ws1 = true.
Hypothesis Hname : made_of isword name = true.
Hypothesis Hws2 : made_of isspace ws2 = true.
Hypothesis Hnumber : made_of isdigit number = true.

Lemma layer_re_prefix {A : Type} (rest : string) (k : @cont A) (a : A) :
  stops isdigit rest = true ->
  k rest [(2%nat, number); (1%nat, name)] = Some a ->
  bt (cat [Lit "LAYER"; Plus isspace; Group 1 (Plus isword); Plus isspace;
           Group 2 (Plus isdigit)])
     ("LAYER" ++ ws1 ++ name ++ ws2 ++ number ++ rest) [] k = Some a.
Proof.
  intros Hrest Hk. cbn [cat].
  rewrite bt_Seq. apply bt_Lit_complete.
  rewrite bt_Seq. apply bt_run_complete; [assumption | |].
  { apply stops_after_run with (cls' := isword);
      [apply word_not_space | assumption]. }
  rewrite bt_Seq, bt_Group. apply bt_run_complete; [assumption | |].
  { apply stops_after_run with (cls' := isspace);
      [apply space_not_word | assumption]. }
  rewrite consumed_append.
  rewrite bt_Seq. apply bt_run_complete; [assumption | |].
  { apply stops_after_run with (cls' := isdigit);
      [apply digit_not_space | assumption]. }
  rewrite bt_Group. apply bt_run_complete; [assumption.. |].
  now rewrite consumed_append.
Qed.

Lemma re_match_layer_plain (tail : string) :
  stops isdigit tail = true -> stops isspace tail = true ->
  re_match layer_re ("LAYER" ++ ws1 ++ name ++ ws2 ++ number ++ tail)
  = Some [(2%nat, number); (1%nat, name)].
Proof.
  intros Hd Hs. unfold re_match, match_here, layer_re.
  match goal with |- option_map fst ?b = _ =>
    assert (H : b = Some ([(2%nat, number); (1%nat, name)], tail)) end.
  { apply (layer_re_prefix tail
             (fun s' g' =>
                bt (Opt (Seq (Plus isspace) (Group 3 (Plus isdigit)))) s' g'
                   (fun s'' g'' => Some (g'', s'')))); [assumption|].
    rewrite bt_Opt, bt_Seq, bt_Plus_stops by assumption. reflexivity. }
  now rewrite H.
Qed.

Lemma re_match_layer_datatype (ws3 datatype tail : string) :
  made_of isspace ws3 = true -> made_of isdigit datatype = true ->
  stops isdigit tail = true ->
  re_match layer_re
           ("LAYER" ++ ws1 ++ name ++ ws2 ++ number ++ ws3 ++ datatype ++ tail)
  = Some [(3%nat, datatype); (2%nat, number); (1%nat, name)].
Proof.
  intros Hws3 Hdt Hd. unfold re_match, match_here, layer_re.
  match goal with |- option_map fst ?b = _ =>
    assert (H : b = Some ([(3%nat, datatype); (2%nat, number); (1%nat, name)],
                          tail)) end.
  { apply (layer_re_prefix (ws3 ++ datatype ++ tail)
             (fun s' g' =>
                bt (Opt (Seq (Plus isspace) (Group 3 (Plus isdigit)))) s' g'
                   (fun s'' g'' => Some (g'', s'')))).
    { apply stops_after_run with (cls' := isspace);
        [apply space_not_digit | assumption]. }
    rewrite bt_Opt, bt_Seq.
    rewrite (bt_run_complete isspace ws3 (datatype ++ tail) _ _
               ([(3%nat, datatype); (2%nat, number); (1%nat, name)], tail));
      [reflexivity | assumption | |].
    { apply stops_after_run with (cls' := isdigit);
        [apply digit_not_space | assumption]. }
    rewrite bt_Group. apply bt_run_complete; [assumption.. |].
    now rewrite consumed_append. }
  now rewrite H.
Qed.

End LayerLines.

Section LayerDeclarations.

Local Open Scope string_scope.

Lemma dict_get_set_same {V : Type} (d : Py.dict V) (k : string) (v : V) :
  Py.dict_get (Py.dict_set d k v) k = Some v.
Proof.
  induction d as [|[k' v'] d IH]; simpl.
  - now rewrite String.eqb_refl.
  - destruct (String.eqb k' k) eqn:E; simpl.
    + now rewrite String.eqb_refl.
    + now rewrite E.
Qed.

Lemma dict_get_set_other {V : Type} (d : Py.dict V) (k k' : string) (v : V) :
  k' <> k -> Py.dict_get (Py.dict_set d k v) k' = Py.dict_get d k'.
Proof.
  intros Hne. induction d as [|[k0 v0] d IH]; simpl.
  - apply String.eqb_neq in Hne. now rewrite String.eqb_sym, Hne.
  - destruct (String.eqb_spec k0 k) as [->|Hk]; simpl.
    + apply String.eqb_neq in Hne. now rewrite String.eqb_sym, Hne.
    + now rewrite IH.
Qed.

Variables (self : SVRFParser) (ws1 name ws2 number : string).
Hypothesis Hws1 : made_of isspace ws1 = true.
Hypothesis Hname : made_of isword name = true.
Hypothesis Hws2 : made_of isspace ws2 = true.
Hypothesis Hnumber : made_of isdigit number = true.

Lemma int_short (digits : string) :
  (String.length digits <= Py.max_str_digits)%nat ->
  Py.int digits = Py.Ok (of_digits digits).
Proof.
  intros H. unfold Py.int.
  destruct (Nat.ltb_spec Py.max_str_digits (String.length digits));
    [lia | reflexivity].
Qed.

Lemma int_long (digits : string) :
  (Py.max_str_digits < String.length digits)%nat ->
  Py.int digits = Py.Raise Py.ValueError.
Proof.
  intros H. unfold Py.int.
  destruct (Nat.ltb_spec Py.max_str_digits (String.length digits));
    [reflexivity | lia].
Qed.

(** What [_parse_layer] does with a well-formed declaration. *)
Lemma parse_layer_plain (tail : string) :
  stops isdigit tail = true -> stops isspace tail = true ->
  _parse_layer self ("LAYER" ++ ws1 ++ name ++ ws2 ++ number ++ tail)
  = (gds_layer <- Py.int number ;;
     Py.Ok (layers_set self name {| LayerDef.name := name;
                                    LayerDef.gds_layer := gds_layer;
                                    LayerDef.gds_datatype := 0 |})).
Proof.
  intros Hd Hs. unfold _parse_layer.
  rewrite (re_match_layer_plain ws1 name ws2 number Hws1 Hname Hws2
             Hnumber tail Hd Hs).
  cbn [grp group Nat.eqb Py.text Py.truthy].
  now destruct (Py.int number).
Qed.

Lemma parse_layer_datatype (ws3 datatype tail : string) :
  made_of isspace ws3 = true -> made_of isdigit datatype = true ->
  stops isdigit tail = true ->
  _parse_layer self
    ("LAYER" ++ ws1 ++ name ++ ws2 ++ number ++ ws3 ++ datatype ++ tail)
  = (gds_layer <- Py.int number ;;
     gds_datatype <- Py.int datatype ;;
     Py.Ok (layers_set self name {| LayerDef.name := name;
                                    LayerDef.gds_layer := gds_layer;
                                    LayerDef.gds_datatype := gds_datatype |})).
Proof.
  intros Hws3 Hdt Hd. unfold _parse_layer.
  rewrite (re_match_layer_datatype ws1 name ws2 number Hws1 Hname Hws2
             Hnumber ws3 datatype tail Hws3 Hdt Hd).
  cbn [grp group Nat.eqb Py.text Py.truthy].
  destruct (made_of_spec _ _ Hdt) as [_ Hne].
  destruct datatype; [congruence | reflexivity].
Qed.

(** X1.  A declaration [LAYER name number], with an optional datatype
    number after it, files the layer under its name when [int] converts
    the numbers, that is when none has more than 4300 digits: looked up,
    the name gives the two numbers read (the datatype 0 when none is
    written); every other name is as before, and so are the rules.  With
    a longer number the call raises [ValueError], and nothing is
    filed. *)
Theorem layer_declaration_parsed :
  (forall tail,
      stops isdigit tail = true -> stops isspace tail = true ->
      let line := "LAYER" ++ ws1 ++ name ++ ws2 ++ number ++ tail in
      ((String.length number <= Py.max_str_digits)%nat ->
       exists self',
         _parse_layer self line = Py.Ok self'
         /\ Py.dict_get (layers self') name
            = Some {| LayerDef.name := name;
                      LayerDef.gds_layer := of_digits number;
                      LayerDef.gds_datatype := 0 |}
         /\ (forall other, other <> name ->
                Py.dict_get (layers self') other
                = Py.dict_get (layers self) other)
         /\ rules self' = rules self)
      /\ ((Py.max_str_digits < String.length number)%nat ->
          _parse_layer self line = Py.Raise Py.ValueError))
  /\ (forall ws3 datatype tail,
         made_of isspace ws3 = true -> made_of isdigit datatype = true ->
         stops isdigit tail = true ->
         let line :=
           "LAYER" ++ ws1 ++ name ++ ws2 ++ number ++ ws3 ++ datatype
                   ++ tail in
         ((String.length number <= Py.max_str_digits)%nat ->
          (String.length datatype <= Py.max_str_digits)%nat ->
          exists self',
            _parse_layer self line = Py.Ok self'
            /\ Py.dict_get (layers self') name
               = Some {| LayerDef.name := name;
                         LayerDef.gds_layer := of_digits number;
                         LayerDef.gds_datatype := of_digits datatype |}
            /\ (forall other, other <> name ->
                   Py.dict_get (layers self') other
                   = Py.dict_get (layers self) other)
            /\ rules self' = rules self)
         /\ ((Py.max_str_digits < String.length number)%nat
             \/ (Py.max_str_digits < String.length datatype)%nat ->
             _parse_layer self line = Py.Raise Py.ValueError)).
Proof.
  split.
  - intros tail Hd Hs line. subst line.
    rewrite parse_layer_plain by assumption. split.
    + intros Hlen. rewrite (int_short _ Hlen). cbn [Py.bind].
      eexists. split; [reflexivity|]. cbn [layers rules layers_set].
      split; [apply dict_get_set_same|].
      split; [|reflexivity]. intros other Hne. now apply dict_get_set_other.
    + intros Hlen. now rewrite (int_long _ Hlen).
  - intros ws3 datatype tail Hws3 Hdt Hd line. subst line.
    rewrite parse_layer_datatype by assumption. split.
    + intros Hlen Hlen'. rewrite (int_short _ Hlen), (int_short _ Hlen').
      cbn [Py.bind].
      eexists. split; [reflexivity|]. cbn [layers rules layers_set].
      split; [apply dict_get_set_same|].
      split; [|reflexivity]. intros other Hne. now apply dict_get_set_other.
    + intros [Hlen|Hlen].
      * now rewrite (int_long _ Hlen).
      * rewrite (int_long _ Hlen). unfold Py.int.
        now destruct (Py.max_str_digits <? String.length number)%nat.
Qed.

(** X2.  A layer declared again, with a number of 4300 digits at
    most, keeps the place its name has in the table, and the table is no
    longer; a new name goes to the end. *)
Theorem layer_redeclared_in_place :
  forall tail,
    stops isdigit tail = true -> stops isspace tail = true ->
    (String.length number <= Py.max_str_digits)%nat ->
    exists self',
      _parse_layer self ("LAYER" ++ ws1 ++ name ++ ws2 ++ number ++ tail)
      = Py.Ok self'
      /\ Py.keys (layers self')
         = if Py.dict_mem (layers self) name then Py.keys (layers self)
           else (Py.keys (layers self) ++ [name])%list.
Proof.
  intros tail Hd Hs Hlen. rewrite parse_layer_plain by assumption.
  rewrite (int_short _ Hlen). cbn [Py.bind].
  eexists. split; [reflexivity|].
  cbn [layers layers_set]. apply keys_dict_set.
Qed.

End LayerDeclarations.

Lemma layer_declaration_parsed_witness :
  let self :=
    {| layers := [("VIA1", {| LayerDef.name := "VIA1";
                              LayerDef.gds_layer := 30;
                              LayerDef.gds_datatype := 2 |})];
       rules := []; current_rule_name := None |} in
  exists self',
    _parse_layer self "LAYER METAL1 10" = Py.Ok self'
    /\ Py.dict_get (layers self') "METAL1"
       = Some {| LayerDef.name := "METAL1"; LayerDef.gds_layer := 10;
                 LayerDef.gds_datatype := 0 |}
    /\ Py.dict_get (layers self') "VIA1"
       = Some {| LayerDef.name := "VIA1"; LayerDef.gds_layer := 30;
                 LayerDef.gds_datatype := 2 |}.
Proof.
  intros self.
  destruct (proj1 (layer_declaration_parsed self " " "METAL1" " " "10"
                     eq_refl eq_refl eq_refl eq_refl) "" eq_refl eq_refl)
    as [Hshort _].
  destruct Hshort as (self' & Hok & H1 & H2 & _);
    [apply Nat.leb_le; vm_compute; reflexivity|].
  exists self'. split; [exact Hok|]. split; [exact H1|].
  etransitivity; [apply (H2 "VIA1"); discriminate | reflexivity].
Defined.

Lemma layer_redeclared_in_place_witness :
  let layer number :=
    {| LayerDef.name := "METAL1"; LayerDef.gds_layer := number;
       LayerDef.gds_datatype := 0 |} in
  let self :=
    {| layers := [("METAL1", layer 10%Z);
                  ("VIA1", {| LayerDef.name := "VIA1";
                              LayerDef.gds_layer := 30;
                              LayerDef.gds_datatype := 0 |})];
       rules := []; current_rule_name := None |} in
  exists self',
    _parse_layer self "LAYER METAL1 11" = Py.Ok self'
    /\ Py.keys (layers self') = ["METAL1"; "VIA1"].
Proof.
  intros layer self.
  apply (layer_redeclared_in_place self " " "METAL1" " " "11"
           eq_refl eq_refl eq_refl eq_refl "" eq_refl eq_refl).
  apply Nat.leb_le. vm_compute. reflexivity.
Defined.

(* ====================================================================== *)
(** * The lines of a rule block *)
(* ====================================================================== *)

Section BlockLines.

Lemma take_block_closed (rest : list string) (brace_count : Z)
      (rule_lines : list string) :
  (brace_count <= 0)%Z ->
  take_block rest brace_count rule_lines = (rule_lines, rest).
Proof.
  intros H. destruct rest as [|x rest]; [reflexivity|]. cbn [take_block].
  now replace (0 <? brace_count)%Z with false by (symmetry; now apply Z.ltb_ge).
Qed.

Lemma take_block_app (body rest : list string) :
  forall (brace_count : Z) (rule_lines : list string),
    open_through brace_count body = true ->
    take_block (body ++ rest) brace_count rule_lines
    = take_block rest (brace_count + brace_total body)%Z (rule_lines ++ body).
Proof.
  induction body as [|x body IH]; intros brace_count rule_lines H.
  - cbn [brace_total fold_right app]. now rewrite Z.add_0_r, app_nil_r.
  - cbn [open_through] in H. apply andb_true_iff in H as [Hpos Hopen].
    cbn [app take_block]. rewrite Hpos, (IH _ _ Hopen).
    cbn [brace_total fold_right]. fold (brace_total body).
    now rewrite Z.add_assoc, <- app_assoc.
Qed.

Lemma opens_block_spec (line : string) :
  opens_block line = true ->
  String.eqb line "" || startswith "//" line = false
  /\ startswith "LAYER " line = false
  /\ contains "{" line = true.
Proof.
  unfold opens_block. intros H.
  apply andb_true_iff in H as [H H3]. apply andb_true_iff in H as [H1 H2].
  apply negb_true_iff in H1, H2. auto.
Qed.

(** The classifier adds one node or none. *)
Lemma parse_rule_block_adds (self self' : SVRFParser)
      (rule_name block : string) (comment : option string) :
  _parse_rule_block self rule_name block comment = Py.Ok self' ->
  rules self' = rules self \/ exists node, rules self' = rules self ++ [node].
Proof.
  unfold _parse_rule_block, Py.float.
  destruct (contains "WIDTH" block);
    [|destruct (contains "EXTERNAL" block);
      [|destruct (contains "INTERNAL" block);
        [|destruct (contains "ENC" block)]]].
  all: try match goal with |- context [search ?r ?b] =>
         destruct (search r b) as [m|] end.
  all: try match goal with |- context [Float.of_string ?t] =>
         destruct (Float.of_string t) as [value|] end.
  all: cbn [Py.bind]; intros H; try discriminate H; injection H as <-.
  all: first [left; reflexivity | right; eexists; reflexivity].
Qed.

Variables (self : SVRFParser) (l : string) (body rest : list string).
Hypothesis Hopens : opens_block (strip l) = true.
Hypothesis Hopen : open_through (braces (strip l)) body = true.

(** X3.  A rule block runs from its opening line over the lines that
    follow while more braces are open than closed, and ends with the
    line that brings the count to zero or below.  The block handed to
    the classifier is the opening line, stripped, and those lines as
    they are, joined by newlines; the loop goes on with the line after
    them.  A block whose braces balance on the opening line is that line
    alone. *)
Theorem block_ends_at_balance :
  (braces (strip l) + brace_total body <= 0)%Z ->
  parse_lines self (l :: body ++ rest)
  = (self' <- _parse_rule_block
                (set_current_rule_name self (block_name (strip l)))
                (block_name (strip l)) (join nl (strip l :: body))
                (block_comment (strip l)) ;;
     parse_lines self' rest).
Proof.
  intros Hclosed. rewrite parse_lines_cons. cbv zeta.
  destruct (opens_block_spec _ Hopens) as (-> & -> & ->).
  rewrite (take_block_app _ _ _ _ Hopen), (take_block_closed _ _ _ Hclosed).
  reflexivity.
Qed.

(** X4.  A rule block whose braces never close takes every line to the
    end of the deck: whatever follows the opening line - layer
    declarations, assignments, other blocks - is text of this one block,
    which gives one rule at most, and no layer. *)
Theorem unclosed_block_takes_rest :
  parse_lines self (l :: body)
  = _parse_rule_block (set_current_rule_name self (block_name (strip l)))
                      (block_name (strip l)) (join nl (strip l :: body))
                      (block_comment (strip l))
  /\ forall self',
       parse_lines self (l :: body) = Py.Ok self' ->
       layers self' = layers self
       /\ (List.length (rules self') <= S (List.length (rules self)))%nat.
Proof.
  assert (Heq : parse_lines self (l :: body)
                = _parse_rule_block
                    (set_current_rule_name self (block_name (strip l)))
                    (block_name (strip l)) (join nl (strip l :: body))
                    (block_comment (strip l))).
  { rewrite parse_lines_cons. cbv zeta.
    destruct (opens_block_spec _ Hopens) as (-> & -> & ->).
    rewrite <- (app_nil_r body) at 1.
    rewrite (take_block_app _ _ _ _ Hopen). cbn [take_block].
    apply bind_ok. }
  split; [exact Heq|]. intros self' H. rewrite Heq in H.
  split.
  - now rewrite (parse_rule_block_layers _ _ _ _ _ H).
  - destruct (parse_rule_block_adds _ _ _ _ _ H) as [->|(node & ->)];
      cbn [rules set_current_rule_name];
      [lia | rewrite length_app; simpl; lia].
Qed.

End BlockLines.

Lemma block_ends_at_balance_witness :
  parse_lines SVRFParser_init
              ("E1 {" :: ["  ENC V1 M1 > 0.1"; "}"] ++ ["LAYER M1 10"])
  = (self' <- _parse_rule_block
                (set_current_rule_name SVRFParser_init
                                       (block_name (strip "E1 {")))
                (block_name (strip "E1 {"))
                (join nl (strip "E1 {" :: ["  ENC V1 M1 > 0.1"; "}"]))
                (block_comment (strip "E1 {")) ;;
     parse_lines self' ["LAYER M1 10"]).
Proof.
  apply (block_ends_at_balance SVRFParser_init "E1 {"
           ["  ENC V1 M1 > 0.1"; "}"] ["LAYER M1 10"]);
    vm_compute; first [reflexivity | discriminate].
Defined.

Lemma unclosed_block_takes_rest_witness :
  let lines := ["W1 { WIDTH M1 < 0.5"; "LAYER M2 20"; "R = AND M1 M2"] in
  exists w,
    parse_lines SVRFParser_init lines
    = Py.Ok {| layers := []; rules := [Width w];
               current_rule_name := Some "W1" |}.
Proof.
  intros lines. subst lines. eexists.
  rewrite (proj1 (unclosed_block_takes_rest SVRFParser_init
                    "W1 { WIDTH M1 < 0.5" ["LAYER M2 20"; "R = AND M1 M2"]
                    eq_refl eq_refl)).
  vm_compute. reflexivity.
Defined.

(* ====================================================================== *)
(** * Well-formed checks *)
(* ====================================================================== *)

Section Searching.

Local Open Scope string_scope.

Lemma search_here (r : regex) (s : string) (g : groups) :
  re_match r s = Some g -> search r s = Some g.
Proof. intros H. destruct s; simpl; now rewrite H. Qed.

(** The search passes over the positions at which nothing matches. *)
Lemma search_skip (r : regex) (pre s : string) :
  (forall u v, pre = u ++ v -> v <> "" -> re_match r (v ++ s) = None) ->
  search r (pre ++ s) = search r s.
Proof.
  induction pre as [|c pre IH]; intros H; [reflexivity|].
  assert (H0 : re_match r (String c pre ++ s) = None)
    by (apply (H "" (String c pre)); [reflexivity | discriminate]).
  cbn [append search] in H0 |- *. rewrite H0.
  apply IH. intros u v -> Hv. apply (H (String c u) v); auto.
Qed.

Lemma prefix_within (p a b : string) :
  prefix p (a ++ b) = true -> (String.length p <= String.length a)%nat ->
  prefix p a = true.
Proof.
  revert a. induction p as [|x p IH]; intros a H Hlen.
  - now destruct a.
  - destruct a as [|y a]; simpl in *; [lia|].
    destruct (ascii_dec x y); [|discriminate]. apply IH; [assumption | lia].
Qed.

(** A keyword that does not begin before the end of [pre] is not found
    at any position of [pre]. *)
Lemma keyword_not_before (kw k0 : string) (l : ascii) (pre u v rest : string) :
  kw = k0 ++ String l "" ->
  contains kw (pre ++ k0) = false ->
  pre = u ++ v -> v <> "" ->
  strip_prefix kw (v ++ kw ++ rest) = None.
Proof.
  intros Hkw Hno -> Hv.
  destruct (strip_prefix kw (v ++ kw ++ rest)) as [t|] eqn:Hp; [|reflexivity].
  exfalso. apply strip_prefix_sound in Hp.
  assert (Hpre : prefix kw (v ++ kw ++ rest) = true)
    by (rewrite Hp; apply prefix_append).
  assert (Hin : prefix kw (v ++ k0) = true).
  { apply prefix_within with (b := String l rest).
    - rewrite append_assoc. rewrite Hkw in Hpre at 2.
      now rewrite append_assoc in Hpre.
    - rewrite Hkw, !length_append. destruct v; [congruence|]. simpl. lia. }
  rewrite append_assoc in Hno.
  now rewrite (contains_append_r _ u _ (contains_prefix _ _ Hin)) in Hno.
Qed.

Lemma check_re_needs_keyword (kw s : string) :
  strip_prefix kw s = None -> re_match (check_re kw) s = None.
Proof.
  intros H. unfold re_match, match_here, check_re. cbn [cat bt].
  now rewrite H.
Qed.

Lemma enc_re_needs_keyword (s : string) :
  strip_prefix "ENC" s = None -> re_match enc_re s = None.
Proof.
  intros H. unfold re_match, match_here, enc_re. cbn [cat bt].
  now rewrite H.
Qed.

Variables (ws1 layer ws2 op ws3 number tail : string).
Hypothesis Hws1 : made_of isspace ws1 = true.
Hypothesis Hlayer : made_of isword layer = true.
Hypothesis Hws2 : all_in isspace ws2 = true.
Hypothesis Hop : made_of op_char op = true.
Hypothesis Hws3 : all_in isspace ws3 = true.
Hypothesis Hnumber : made_of num_char number = true.
Hypothesis Htail : stops num_char tail = true.

(** The operator and the number of a check, from the point after the
    layer names. *)
Lemma check_tail_complete {A : Type} (g : groups) (n : nat) (k : @cont A)
      (a : A) :
  k tail ((S n, number) :: (n, op) :: g) = Some a ->
  bt (cat [Star isspace; Group n (Plus op_char); Star isspace;
           Group (S n) (Plus num_char)])
     (ws2 ++ op ++ ws3 ++ number ++ tail) g k = Some a.
Proof.
  intros Hk. cbn [cat].
  rewrite bt_Seq. apply bt_Star_complete; [assumption | |].
  { apply stops_after_run with (cls' := op_char);
      [apply op_not_space | assumption]. }
  rewrite bt_Seq, bt_Group. apply bt_run_complete; [assumption | |].
  { apply stops_after_opt with (cls' := isspace);
      [apply space_not_op | assumption |].
    apply stops_after_run with (cls' := num_char);
      [apply num_not_op | assumption]. }
  rewrite consumed_append.
  rewrite bt_Seq. apply bt_Star_complete; [assumption | |].
  { apply stops_after_run with (cls' := num_char);
      [apply num_not_space | assumption]. }
  rewrite bt_Group. apply bt_run_complete; [assumption.. |].
  now rewrite consumed_append.
Qed.

Lemma stops_word_before_op :
  stops isword (ws2 ++ op ++ ws3 ++ number ++ tail) = true.
Proof.
  apply stops_after_opt with (cls' := isspace);
    [apply space_not_word | assumption |].
  apply stops_after_run with (cls' := op_char);
    [apply op_not_word | assumption].
Qed.

(** The search finds a well-formed check at the first occurrence of its
    keyword. *)
Lemma search_check (kw k0 : string) (l : ascii) (pre : string) :
  kw = k0 ++ String l "" ->
  contains kw (pre ++ k0) = false ->
  search (check_re kw)
         (pre ++ kw ++ ws1 ++ layer ++ ws2 ++ op ++ ws3 ++ number ++ tail)
  = Some [(3%nat, number); (2%nat, op); (1%nat, layer)].
Proof.
  intros Hkw Hno. rewrite search_skip.
  - apply search_here. unfold re_match, match_here, check_re.
    match goal with |- option_map fst ?b = _ =>
      assert (H : b = Some ([(3%nat, number); (2%nat, op); (1%nat, layer)],
                            tail)) end; [|now rewrite H].
    cbn [cat]. rewrite bt_Seq. apply bt_Lit_complete.
    rewrite bt_Seq. apply bt_run_complete; [assumption | |].
    { apply stops_after_run with (cls' := isword);
        [apply word_not_space | assumption]. }
    rewrite bt_Seq, bt_Group.
    apply bt_run_complete; [assumption | apply stops_word_before_op |].
    rewrite consumed_append.
    now apply (check_tail_complete [(1%nat, layer)] 2).
  - intros u v Hpre Hv. apply check_re_needs_keyword.
    now apply (keyword_not_before kw k0 l pre u v).
Qed.

Lemma search_enc (pre outer ws : string) :
  contains "ENC" (pre ++ "EN") = false ->
  made_of isword outer = true -> made_of isspace ws = true ->
  search enc_re
         (pre ++ "ENC" ++ ws1 ++ outer ++ ws ++ layer ++ ws2 ++ op ++ ws3
              ++ number ++ tail)
  = Some [(4%nat, number); (3%nat, op); (2%nat, layer); (1%nat, outer)].
Proof.
  intros Hno Houter Hws. rewrite search_skip.
  - apply search_here. unfold re_match, match_here, enc_re.
    match goal with |- option_map fst ?b = _ =>
      assert (H : b = Some ([(4%nat, number); (3%nat, op); (2%nat, layer);
                             (1%nat, outer)], tail)) end; [|now rewrite H].
    cbn [cat]. rewrite bt_Seq.
    apply (bt_Lit_complete "ENC").
    rewrite bt_Seq. apply bt_run_complete; [assumption | |].
    { apply stops_after_run with (cls' := isword);
        [apply word_not_space | assumption]. }
    rewrite bt_Seq, bt_Group. apply bt_run_complete; [assumption | |].
    { apply stops_after_run with (cls' := isspace);
        [apply space_not_word | assumption]. }
    rewrite consumed_append.
    rewrite bt_Seq. apply bt_run_complete; [assumption | |].
    { apply stops_after_run with (cls' := isword);
        [apply word_not_space | assumption]. }
    rewrite bt_Seq, bt_Group.
    apply bt_run_complete; [assumption | apply stops_word_before_op |].
    rewrite consumed_append.
    now apply (check_tail_complete [(2%nat, layer); (1%nat, outer)] 3).
  - intros u v Hpre Hv. apply enc_re_needs_keyword.
    now apply (keyword_not_before "ENC" "EN" "C" pre u v).
Qed.

End Searching.

Section WellFormedChecks.

Local Open Scope string_scope.

Variables (self : SVRFParser) (rule_name : string) (comment : option string).
Variables (pre ws1 layer ws2 op ws3 number tail : string).
Hypothesis Hws1 : made_of isspace ws1 = true.
Hypothesis Hlayer : made_of isword layer = true.
Hypothesis Hws2 : all_in isspace ws2 = true.
Hypothesis Hop : made_of op_char op = true.
Hypothesis Hws3 : all_in isspace ws3 = true.
Hypothesis Hnumber : made_of num_char number = true.
Hypothesis Htail : stops num_char tail = true.

(** X5.  A block that reads [WIDTH layer op number] at its first WIDTH
    (spaces are needed after the keyword only) gives the width check of
    the rule with that layer, that operator and the float of that
    number; when the number does not convert, the call raises
    [ValueError] and no node is added. *)
Theorem width_block_translated :
  contains "WIDTH" (pre ++ "WIDT") = false ->
  _parse_rule_block self rule_name
    (pre ++ "WIDTH" ++ ws1 ++ layer ++ ws2 ++ op ++ ws3 ++ number ++ tail)
    comment
  = match Float.of_string number with
    | Some value =>
        Py.Ok (rules_append self (Width
          {| WidthCheck.rule_name := rule_name;
             WidthCheck.layer := layer;
             WidthCheck.operator := op;
             WidthCheck.value := value;
             WidthCheck.comment := comment |}))
    | None => Py.Raise Py.ValueError
    end.
Proof.
  intros Hno. unfold _parse_rule_block.
  rewrite contains_middle.
  rewrite (search_check ws1 layer ws2 op ws3 number tail Hws1 Hlayer Hws2 Hop
             Hws3 Hnumber Htail "WIDTH" "WIDT" "H" pre eq_refl Hno).
  cbn [grp group Nat.eqb Py.text]. unfold Py.float.
  now destruct (Float.of_string number).
Qed.

(** X6.  EXTERNAL and INTERNAL give the same node: a block without
    WIDTH that reads [EXTERNAL layer op number] at its first EXTERNAL,
    or a block without WIDTH and EXTERNAL that reads
    [INTERNAL layer op number] at its first INTERNAL, gives the spacing
    check with that layer, operator and number, and nothing in the node
    tells the two keywords apart. *)
Theorem spacing_block_translated :
  let node value :=
    Spacing {| SpacingCheck.rule_name := rule_name;
               SpacingCheck.layer := layer;
               SpacingCheck.operator := op;
               SpacingCheck.value := value;
               SpacingCheck.comment := comment |} in
  let result :=
    match Float.of_string number with
    | Some value => Py.Ok (rules_append self (node value))
    | None => Py.Raise Py.ValueError
    end in
  let external :=
    pre ++ "EXTERNAL" ++ ws1 ++ layer ++ ws2 ++ op ++ ws3 ++ number ++ tail in
  let internal :=
    pre ++ "INTERNAL" ++ ws1 ++ layer ++ ws2 ++ op ++ ws3 ++ number ++ tail in
  (contains "WIDTH" external = false ->
   contains "EXTERNAL" (pre ++ "EXTERNA") = false ->
   _parse_rule_block self rule_name external comment = result)
  /\ (contains "WIDTH" internal = false ->
      contains "EXTERNAL" internal = false ->
      contains "INTERNAL" (pre ++ "INTERNA") = false ->
      _parse_rule_block self rule_name internal comment = result).
Proof.
  intros node result external internal. subst node result external internal.
  split.
  - intros Hw Hno. unfold _parse_rule_block. rewrite Hw, contains_middle.
    rewrite (search_check ws1 layer ws2 op ws3 number tail Hws1 Hlayer Hws2
               Hop Hws3 Hnumber Htail "EXTERNAL" "EXTERNA" "L" pre eq_refl Hno).
    cbn [grp group Nat.eqb Py.text]. unfold Py.float.
    now destruct (Float.of_string number).
  - intros Hw He Hno. unfold _parse_rule_block.
    rewrite Hw, He, contains_middle.
    rewrite (search_check ws1 layer ws2 op ws3 number tail Hws1 Hlayer Hws2
               Hop Hws3 Hnumber Htail "INTERNAL" "INTERNA" "L" pre eq_refl Hno).
    cbn [grp group Nat.eqb Py.text]. unfold Py.float.
    now destruct (Float.of_string number).
Qed.

(** X7.  A block without WIDTH, EXTERNAL and INTERNAL that reads
    [ENC outer inner op number] at its first ENC gives the enclosure
    check with the first layer as outer layer and the second as inner
    layer. *)
Theorem enclosure_block_translated :
  forall outer ws : string,
    let block :=
      pre ++ "ENC" ++ ws1 ++ outer ++ ws ++ layer ++ ws2 ++ op ++ ws3
          ++ number ++ tail in
    made_of isword outer = true -> made_of isspace ws = true ->
    contains "WIDTH" block = false ->
    contains "EXTERNAL" block = false ->
    contains "INTERNAL" block = false ->
    contains "ENC" (pre ++ "EN") = false ->
    _parse_rule_block self rule_name block comment
    = match Float.of_string number with
      | Some value =>
          Py.Ok (rules_append self (Enclosure
            {| EnclosureCheck.rule_name := rule_name;
               EnclosureCheck.outer_layer := outer;
               EnclosureCheck.inner_layer := layer;
               EnclosureCheck.operator := op;
               EnclosureCheck.value := value;
               EnclosureCheck.comment := comment |}))
      | None => Py.Raise Py.ValueError
      end.
Proof.
  intros outer ws block Houter Hws Hw He Hi Hno. subst block.
  unfold _parse_rule_block. rewrite Hw, He, Hi, contains_middle.
  rewrite (search_enc ws1 layer ws2 op ws3 number tail Hws1 Hlayer Hws2 Hop
             Hws3 Hnumber Htail pre outer ws Hno Houter Hws).
  cbn [grp group Nat.eqb Py.text]. unfold Py.float.
  now destruct (Float.of_string number).
Qed.

End WellFormedChecks.

Lemma width_block_translated_witness :
  _parse_rule_block SVRFParser_init "W1"
    ("W1 { " ++ "WIDTH" ++ " " ++ "METAL1" ++ " " ++ "<" ++ " " ++ "0.5"
       ++ " }")%string None
  = Py.Ok (rules_append SVRFParser_init (Width
      {| WidthCheck.rule_name := "W1"; WidthCheck.layer := "METAL1";
         WidthCheck.operator := "<"; WidthCheck.value := Float.lit "0.5";
         WidthCheck.comment := None |})).
Proof.
  exact (width_block_translated SVRFParser_init "W1" None "W1 { " " " "METAL1"
           " " "<" " " "0.5" " }" eq_refl eq_refl eq_refl eq_refl eq_refl
           eq_refl eq_refl eq_refl).
Defined.

Lemma spacing_block_translated_witness :
  _parse_rule_block SVRFParser_init "S1"
    ("S1 { " ++ "EXTERNAL" ++ " " ++ "METAL1" ++ "" ++ "<" ++ "" ++ "0.25"
       ++ " }")%string None
  = _parse_rule_block SVRFParser_init "S1"
      ("S1 { " ++ "INTERNAL" ++ " " ++ "METAL1" ++ "" ++ "<" ++ "" ++ "0.25"
         ++ " }")%string None.
Proof.
  destruct (spacing_block_translated SVRFParser_init "S1" None "S1 { " " "
              "METAL1" "" "<" "" "0.25" " }" eq_refl eq_refl eq_refl eq_refl
              eq_refl eq_refl eq_refl) as [He Hi].
  rewrite He by reflexivity. rewrite Hi by reflexivity. reflexivity.
Defined.

Lemma enclosure_block_translated_witness :
  _parse_rule_block SVRFParser_init "E1"
    ("E1 { " ++ "ENC" ++ " " ++ "VIA1" ++ " " ++ "METAL1" ++ " " ++ ">" ++ " "
       ++ "0.1" ++ " }")%string None
  = Py.Ok (rules_append SVRFParser_init (Enclosure
      {| EnclosureCheck.rule_name := "E1";
         EnclosureCheck.outer_layer := "VIA1";
         EnclosureCheck.inner_layer := "METAL1";
         EnclosureCheck.operator := ">";
         EnclosureCheck.value := Float.lit "0.1";
         EnclosureCheck.comment := None |})).
Proof.
  exact (enclosure_block_translated SVRFParser_init "E1" None "E1 { " " "
           "METAL1" " " ">" " " "0.1" " }" eq_refl eq_refl eq_refl eq_refl
           eq_refl eq_refl eq_refl "VIA1" " " eq_refl eq_refl eq_refl eq_refl
           eq_refl eq_refl).
Defined.

(* ====================================================================== *)
(** * Well-formed assignments *)
(* ====================================================================== *)

Section CharFacts.

Local Open Scope string_scope.

Lemma contains_char_cons (c d : ascii) (s : string) :
  contains (String c "") (String d s)
  = Ascii.eqb c d || contains (String c "") s.
Proof.
  cbn [contains prefix].
  destruct (ascii_dec c d) as [->|Hne].
  - rewrite Ascii.eqb_refl. now destruct s.
  - apply Ascii.eqb_neq in Hne. now rewrite Hne.
Qed.

Lemma contains_char_app (c : ascii) (a b : string) :
  contains (String c "") (a ++ b)
  = contains (String c "") a || contains (String c "") b.
Proof.
  induction a as [|d a IH].
  - now destruct b.
  - cbn [append]. rewrite !contains_char_cons, IH. apply orb_assoc.
Qed.

Lemma contains_char_run (c : ascii) (cls : ascii -> bool) (w : string) :
  cls c = false -> all_in cls w = true -> contains (String c "") w = false.
Proof.
  intros Hc. induction w as [|d w IH]; [reflexivity|].
  cbn [all_in]. intros H. apply andb_true_iff in H as [Hd Hw].
  rewrite contains_char_cons, (IH Hw), orb_false_r.
  apply Ascii.eqb_neq. intros ->. congruence.
Qed.

(** A text that ends with a run of characters that are not spaces keeps
    its end under [rstrip]. *)
Lemma rstrip_run (cls : ascii -> bool) (a w : string) :
  (forall c, cls c = true -> isspace c = false) ->
  made_of cls w = true -> rstrip (a ++ w) = a ++ w.
Proof.
  intros Hd Hw. destruct (made_of_spec _ _ Hw) as [Hall Hne].
  assert (Hbase : rstrip w = w).
  { clear Hw Hne. induction w as [|c w IH]; [reflexivity|].
    cbn [all_in] in Hall. apply andb_true_iff in Hall as [Hc Hall].
    cbn [rstrip]. rewrite (IH Hall), (Hd c Hc). now destruct w. }
  induction a as [|c a IH]; [exact Hbase|].
  cbn [append rstrip]. rewrite IH.
  destruct (a ++ w) eqn:E; [|reflexivity].
  destruct a; [simpl in E; congruence | discriminate].
Qed.

End CharFacts.

Section WellFormedAssignments.

Local Open Scope string_scope.

Lemma bt_Alt_first {A : Type} (r1 r2 : regex) (s : string) (g : groups)
      (k : cont) (a : A) :
  bt r1 s g k = Some a -> bt (Alt r1 r2) s g k = Some a.
Proof. intros H. cbn [bt]. now rewrite H. Qed.

Lemma bt_Alt_second {A : Type} (r1 r2 : regex) (s : string) (g : groups)
      (k : @cont A) :
  bt r1 s g k = None -> bt (Alt r1 r2) s g k = bt r2 s g k.
Proof. intros H. cbn [bt]. now rewrite H. Qed.

Variables (result ws1 ws2 op pxl_op ws3 operand1 : string).
Hypothesis Hresult : made_of isword result = true.
Hypothesis Hws1 : all_in isspace ws1 = true.
Hypothesis Hws2 : all_in isspace ws2 = true.
Hypothesis Hop : In (op, pxl_op) BooleanOp.op_map.
Hypothesis Hws3 : made_of isspace ws3 = true.
Hypothesis Hoperand1 : made_of isword operand1 = true.

Lemma op_cases :
  (op = "AND" /\ pxl_op = "and") \/ (op = "OR" /\ pxl_op = "or")
  \/ (op = "NOT" /\ pxl_op = "not").
Proof.
  destruct Hop as [H|[H|[H|[]]]]; injection H as <- <-; auto.
Qed.

(** The assignment pattern up to the first operand. *)
Lemma assignment_re_prefix {A : Type} (rest : string) (k : @cont A) (a : A) :
  stops isword rest = true ->
  k rest [(3%nat, operand1); (2%nat, op); (1%nat, result)] = Some a ->
  bt (cat [Group 1 (Plus isword); Star isspace; Lit "="; Star isspace;
           Group 2 (Alt (Lit "AND") (Alt (Lit "OR") (Lit "NOT")));
           Plus isspace; Group 3 (Plus isword)])
     (result ++ ws1 ++ "=" ++ ws2 ++ op ++ ws3 ++ operand1 ++ rest) [] k
  = Some a.
Proof.
  intros Hrest Hk. cbn [cat].
  rewrite bt_Seq, bt_Group. apply bt_run_complete; [assumption | |].
  { apply stops_after_opt with (cls' := isspace);
      [apply space_not_word | assumption | reflexivity]. }
  rewrite consumed_append.
  rewrite bt_Seq. apply bt_Star_complete; [assumption | reflexivity |].
  rewrite bt_Seq. apply (bt_Lit_complete "=").
  rewrite bt_Seq. apply bt_Star_complete; [assumption | |].
  { destruct op_cases as [[-> _]|[[-> _]|[-> _]]]; reflexivity. }
  rewrite bt_Seq, bt_Group.
  assert (Hafter :
            bt (Seq (Plus isspace) (Group 3 (Plus isword)))
               (ws3 ++ operand1 ++ rest) [(2%nat, op); (1%nat, result)] k
            = Some a).
  { rewrite bt_Seq. apply bt_run_complete; [assumption | |].
    { apply stops_after_run with (cls' := isword);
        [apply word_not_space | assumption]. }
    rewrite bt_Group. apply bt_run_complete; [assumption.. |].
    now rewrite consumed_append. }
  destruct op_cases as [[-> _]|[[-> _]|[-> _]]].
  - apply bt_Alt_first. apply (bt_Lit_complete "AND").
    now rewrite consumed_append.
  - rewrite bt_Alt_second by reflexivity.
    apply bt_Alt_first. apply (bt_Lit_complete "OR").
    now rewrite consumed_append.
  - rewrite !bt_Alt_second by reflexivity.
    apply (bt_Lit_complete "NOT"). now rewrite consumed_append.
Qed.

Lemma re_match_assignment_one (tail : string) :
  stops isword tail = true -> stops isspace tail = true ->
  re_match assignment_re
           (result ++ ws1 ++ "=" ++ ws2 ++ op ++ ws3 ++ operand1 ++ tail)
  = Some [(3%nat, operand1); (2%nat, op); (1%nat, result)].
Proof.
  intros Hw Hs. unfold re_match, match_here, assignment_re.
  match goal with |- option_map fst ?b = _ =>
    assert (H : b = Some ([(3%nat, operand1); (2%nat, op); (1%nat, result)],
                          tail)) end; [|now rewrite H].
  apply (assignment_re_prefix tail
           (fun s' g' =>
              bt (Opt (Seq (Plus isspace) (Group 4 (Plus isword)))) s' g'
                 (fun s'' g'' => Some (g'', s'')))); [assumption|].
  rewrite bt_Opt, bt_Seq, bt_Plus_stops by assumption. reflexivity.
Qed.

Lemma re_match_assignment_two (ws4 operand2 tail : string) :
  made_of isspace ws4 = true -> made_of isword operand2 = true ->
  stops isword tail = true ->
  re_match assignment_re
           (result ++ ws1 ++ "=" ++ ws2 ++ op ++ ws3 ++ operand1 ++ ws4
                   ++ operand2 ++ tail)
  = Some [(4%nat, operand2); (3%nat, operand1); (2%nat, op);
          (1%nat, result)].
Proof.
  intros Hws4 Hop2 Hw. unfold re_match, match_here, assignment_re.
  match goal with |- option_map fst ?b = _ =>
    assert (H : b = Some ([(4%nat, operand2); (3%nat, operand1); (2%nat, op);
                           (1%nat, result)], tail)) end; [|now rewrite H].
  apply (assignment_re_prefix (ws4 ++ operand2 ++ tail)
           (fun s' g' =>
              bt (Opt (Seq (Plus isspace) (Group 4 (Plus isword)))) s' g'
                 (fun s'' g'' => Some (g'', s'')))).
  { apply stops_after_run with (cls' := isspace);
      [apply space_not_word | assumption]. }
  rewrite bt_Opt, bt_Seq.
  rewrite (bt_run_complete isspace ws4 (operand2 ++ tail) _ _
             ([(4%nat, operand2); (3%nat, operand1); (2%nat, op);
               (1%nat, result)], tail));
    [reflexivity | assumption | |].
  { apply stops_after_run with (cls' := isword);
      [apply word_not_space | assumption]. }
  rewrite bt_Group. apply bt_run_complete; [assumption.. |].
  now rewrite consumed_append.
Qed.

(** Whatever follows the first operand, the pattern matches, and its
    first three groups are the name, the keyword and the operand. *)
Lemma re_match_assignment_any (tail : string) :
  stops isword tail = true ->
  exists m,
    re_match assignment_re
             (result ++ ws1 ++ "=" ++ ws2 ++ op ++ ws3 ++ operand1 ++ tail)
    = Some m
    /\ grp m 1 = result /\ grp m 2 = op /\ grp m 3 = operand1.
Proof.
  intros Hw.
  set (g0 := [(3%nat, operand1); (2%nat, op); (1%nat, result)]).
  set (k := fun (s' : string) (g' : groups) =>
              bt (Opt (Seq (Plus isspace) (Group 4 (Plus isword)))) s' g'
                 (fun s'' g'' => Some (g'', s''))).
  assert (Hk : exists m s'',
             k tail g0 = Some (m, s'')
             /\ grp m 1 = result /\ grp m 2 = op /\ grp m 3 = operand1).
  { unfold k. rewrite bt_Opt. unfold orelse.
    destruct (bt (Seq (Plus isspace) (Group 4 (Plus isword))) tail g0
                 (fun s'' g'' => Some (g'', s''))) as [[m s'']|] eqn:E.
    - exists m, s''. split; [reflexivity|].
      apply bt_sound in E as (s1 & g1 & Hspan & E). injection E as <- <-.
      destruct Hspan as (s2 & g2 & (w & _ & _ & _ & ->) & g3
                         & (w' & _ & _ & _ & ->) & ->).
      now subst g0.
    - exists g0, tail. now subst g0. }
  destruct Hk as (m & s'' & Hk & H1 & H2 & H3).
  exists m. split; [|auto].
  unfold re_match, match_here, assignment_re.
  match goal with |- option_map fst ?b = _ =>
    assert (H : b = Some (m, s'')) end; [|now rewrite H].
  exact (assignment_re_prefix tail k (m, s'') Hw Hk).
Qed.

Lemma no_at_sign_in_op : contains "@" op = false.
Proof. destruct op_cases as [[-> _]|[[-> _]|[-> _]]]; reflexivity. Qed.

Lemma no_at_sign_one :
  contains "@" (result ++ ws1 ++ "=" ++ ws2 ++ op ++ ws3 ++ operand1) = false.
Proof.
  rewrite !contains_char_app, no_at_sign_in_op.
  rewrite (contains_char_run "@" isword result),
          (contains_char_run "@" isspace ws1),
          (contains_char_run "@" isspace ws2),
          (contains_char_run "@" isspace ws3),
          (contains_char_run "@" isword operand1);
    try reflexivity; try assumption;
    now apply made_of_spec.
Qed.

Lemma no_at_sign_two (ws4 operand2 : string) :
  made_of isspace ws4 = true -> made_of isword operand2 = true ->
  contains "@" (result ++ ws1 ++ "=" ++ ws2 ++ op ++ ws3 ++ operand1 ++ ws4
                       ++ operand2) = false.
Proof.
  intros Hws4 Hop2.
  rewrite !contains_char_app, no_at_sign_in_op.
  rewrite (contains_char_run "@" isword result),
          (contains_char_run "@" isspace ws1),
          (contains_char_run "@" isspace ws2),
          (contains_char_run "@" isspace ws3),
          (contains_char_run "@" isword operand1),
          (contains_char_run "@" isspace ws4),
          (contains_char_run "@" isword operand2);
    try reflexivity; try assumption;
    now apply made_of_spec.
Qed.

Variable self : SVRFParser.

(** X8.  An assignment [result = OP operand], with OP one of AND, OR and
    NOT, gives a boolean node that renders [result = op operand;] with
    the keyword in lower case; with a second operand the node renders
    [result = operand1 op operand2;].  Spaces around the equals sign are
    optional. *)
Theorem assignment_translated :
  (exists b,
      _parse_assignment self
        (result ++ ws1 ++ "=" ++ ws2 ++ op ++ ws3 ++ operand1)
      = rules_append self (Boolean b)
      /\ to_pxl b = result ++ " = " ++ pxl_op ++ " " ++ operand1 ++ ";")
  /\ (forall ws4 operand2,
         made_of isspace ws4 = true -> made_of isword operand2 = true ->
         exists b,
           _parse_assignment self
             (result ++ ws1 ++ "=" ++ ws2 ++ op ++ ws3 ++ operand1 ++ ws4
                     ++ operand2)
           = rules_append self (Boolean b)
           /\ to_pxl b
              = result ++ " = " ++ operand1 ++ " " ++ pxl_op ++ " "
                       ++ operand2 ++ ";").
Proof.
  split.
  - exists {| BooleanOp.result_name := result; BooleanOp.operation := op;
              BooleanOp.layer1 := operand1; BooleanOp.layer2 := None;
              BooleanOp.comment := None |}.
    unfold _parse_assignment. rewrite no_at_sign_one.
    pose proof (re_match_assignment_one "" eq_refl eq_refl) as Hm.
    rewrite append_nil_r in Hm. rewrite Hm. split; [reflexivity|].
    destruct op_cases as [[-> ->]|[[-> ->]|[-> ->]]]; reflexivity.
  - intros ws4 operand2 Hws4 Hop2.
    exists {| BooleanOp.result_name := result; BooleanOp.operation := op;
              BooleanOp.layer1 := operand1; BooleanOp.layer2 := Some operand2;
              BooleanOp.comment := None |}.
    unfold _parse_assignment.
    pose proof (re_match_assignment_two ws4 operand2 "" Hws4 Hop2 eq_refl)
      as Hm.
    rewrite append_nil_r in Hm. rewrite Hm.
    pose proof (no_at_sign_two ws4 operand2 Hws4 Hop2) as Hat.
    rewrite Hat. split; [reflexivity|].
    destruct (made_of_spec _ _ Hop2) as [_ Hne].
    unfold to_pxl, BooleanOp.pxl. cbn [BooleanOp.layer2 Py.truthy].
    destruct operand2; [congruence|].
    destruct op_cases as [[-> ->]|[[-> ->]|[-> ->]]]; reflexivity.
Qed.

End WellFormedAssignments.

Lemma assignment_translated_witness :
  exists b,
    _parse_assignment SVRFParser_init "RESULT = AND METAL1 METAL2"
    = rules_append SVRFParser_init (Boolean b)
    /\ to_pxl b = "RESULT = METAL1 and METAL2;".
Proof.
  exact (proj2 (assignment_translated "RESULT" " " " " "AND" "and" " "
                  "METAL1" eq_refl eq_refl eq_refl (or_introl eq_refl)
                  eq_refl eq_refl SVRFParser_init)
               " " "METAL2" eq_refl eq_refl).
Defined.

Section TrailingSpace.

Local Open Scope string_scope.

(** [rstrip] takes a rest off the text. *)
Lemma rstrip_split (s : string) : exists t, s = rstrip s ++ t.
Proof.
  induction s as [|c s [t IH]]; [now exists ""|]. cbn [rstrip].
  destruct (rstrip s) as [|d r] eqn:E.
  - cbn [append] in IH. subst t.
    destruct (isspace c); [now exists (String c s) | now exists s].
  - exists t. cbn [append]. now rewrite IH at 1.
Qed.

Lemma rstrip_after_run (cls : ascii -> bool) (w tail : string) :
  (forall c, cls c = true -> isspace c = false) ->
  all_in cls w = true -> rstrip (w ++ tail) = w ++ rstrip tail.
Proof.
  intros Hd. induction w as [|c w IH]; intros Hw; [reflexivity|].
  cbn [all_in] in Hw. apply andb_true_iff in Hw as [Hc Hw].
  cbn [append rstrip]. rewrite (IH Hw), (Hd c Hc).
  now destruct (w ++ rstrip tail).
Qed.

Lemma rstrip_keeps_front (a b : string) :
  rstrip b <> "" -> rstrip (a ++ b) = a ++ rstrip b.
Proof.
  intros Hb. induction a as [|c a IH]; [reflexivity|].
  cbn [append rstrip]. rewrite IH.
  destruct (a ++ rstrip b) eqn:E; [|reflexivity].
  destruct a; [cbn [append] in E; congruence | discriminate].
Qed.

Lemma stops_rstrip (cls : ascii -> bool) (s : string) :
  stops cls s = true -> stops cls (rstrip s) = true.
Proof.
  destruct s as [|c s]; [auto|]. cbn [rstrip stops]. intros H.
  destruct (rstrip s); [destruct (isspace c)|]; auto.
Qed.

End TrailingSpace.

Section LayerNamedAssignment.

Local Open Scope string_scope.

Variables (self : SVRFParser) (rest : list string).
Variables (suffix ws1 ws2 op pxl_op ws3 operand1 : string).
Hypothesis Hsuffix : made_of isword suffix = true.
Hypothesis Hws1 : all_in isspace ws1 = true.
Hypothesis Hws2 : all_in isspace ws2 = true.
Hypothesis Hop : In (op, pxl_op) BooleanOp.op_map.
Hypothesis Hws3 : made_of isspace ws3 = true.
Hypothesis Hoperand1 : made_of isword operand1 = true.

(** X9.  An assignment to a name that begins with LAYER (as [LAYER1] or
    [LAYERS]), whatever follows its first operand - a second operand, a
    comment - is a good assignment for [_parse_assignment], which would
    add its node, but the loop of [parse_file] never hands it over: the
    line begins with LAYER, so it is not taken for an assignment, and is
    skipped without a node. *)
Theorem layer_named_assignment_dropped :
  forall tail : string,
    stops isword tail = true -> contains "{" tail = false ->
    let l :=
      "LAYER" ++ suffix ++ ws1 ++ "=" ++ ws2 ++ op ++ ws3 ++ operand1
              ++ tail in
    (exists b,
        _parse_assignment self (strip l) = rules_append self (Boolean b)
        /\ BooleanOp.result_name b = "LAYER" ++ suffix
        /\ BooleanOp.operation b = op
        /\ BooleanOp.layer1 b = operand1)
    /\ parse_lines self (l :: rest) = parse_lines self rest.
Proof.
  intros tail Htail Hbrace l.
  destruct (made_of_spec _ _ Hsuffix) as [Hall Hne].
  destruct (made_of_spec _ _ Hoperand1) as [Hall1 Hne1].
  assert (Hresult : made_of isword ("LAYER" ++ suffix) = true).
  { unfold made_of. cbn [append all_in]. rewrite Hall. reflexivity. }
  set (line := ("LAYER" ++ suffix) ++ ws1 ++ "=" ++ ws2 ++ op ++ ws3
                                   ++ operand1 ++ rstrip tail).
  assert (Hstrip : strip l = line).
  { unfold strip. replace (lstrip l) with l by reflexivity.
    subst l line.
    replace ("LAYER" ++ suffix ++ ws1 ++ "=" ++ ws2 ++ op ++ ws3
                     ++ operand1 ++ tail)
      with (("LAYER" ++ suffix ++ ws1 ++ "=" ++ ws2 ++ op ++ ws3)
              ++ operand1 ++ tail)
      by (now rewrite !append_assoc).
    rewrite rstrip_keeps_front.
    - rewrite (rstrip_after_run isword) by (apply word_not_space || assumption).
      now rewrite !append_assoc.
    - rewrite (rstrip_after_run isword) by (apply word_not_space || assumption).
      destruct operand1; [congruence | discriminate]. }
  rewrite Hstrip. split.
  - destruct (re_match_assignment_any _ ws1 ws2 op pxl_op ws3 operand1
                Hresult Hws1 Hws2 Hop Hws3 Hoperand1 (rstrip tail)
                (stops_rstrip _ _ Htail)) as (m & Hm & H1 & H2 & H3).
    unfold _parse_assignment, line. rewrite Hm.
    eexists. split; [reflexivity|]. cbn [BooleanOp.result_name
      BooleanOp.operation BooleanOp.layer1]. auto.
  - rewrite parse_lines_cons. cbv zeta. rewrite Hstrip.
    assert (H1 : String.eqb line "" || startswith "//" line = false)
      by reflexivity.
    assert (H2 : startswith "LAYER " line = false).
    { subst line. destruct suffix as [|c s]; [congruence|].
      cbn [all_in] in Hall. apply andb_true_iff in Hall as [Hc _].
      unfold startswith. cbn [append prefix].
      repeat match goal with
             | |- context [ascii_dec ?a ?a] =>
                 destruct (ascii_dec a a); [|congruence]
             end.
      destruct (ascii_dec " " c) as [<-|]; [discriminate Hc|].
      reflexivity. }
    assert (H3 : contains "{" line = false).
    { destruct (rstrip_split tail) as [t Ht].
      rewrite Ht, contains_char_app in Hbrace.
      apply orb_false_iff in Hbrace as [Hbrace _].
      subst line. rewrite !contains_char_app, Hbrace.
      rewrite (contains_char_run "{" isword suffix),
              (contains_char_run "{" isspace ws1),
              (contains_char_run "{" isspace ws2),
              (contains_char_run "{" isspace ws3),
              (contains_char_run "{" isword operand1);
        try reflexivity; try assumption; try (now apply made_of_spec).
      destruct Hop as [H|[H|[H|[]]]]; injection H as <- _; reflexivity. }
    assert (H4 : startswith "LAYER" line = true)
      by (subst line; rewrite append_assoc; apply prefix_append).
    rewrite H1, H2, H3, H4, andb_false_r. reflexivity.
Qed.

End LayerNamedAssignment.

Lemma layer_named_assignment_dropped_witness :
  (exists b,
      _parse_assignment SVRFParser_init "LAYER1 = AND A B @ both"
      = rules_append SVRFParser_init (Boolean b)
      /\ BooleanOp.result_name b = "LAYER1")
  /\ parse_lines SVRFParser_init ["LAYER1 = AND A B @ both  "]
     = Py.Ok SVRFParser_init.
Proof.
  destruct (layer_named_assignment_dropped SVRFParser_init [] "1" " " " "
              "AND" "and" " " "A" eq_refl eq_refl eq_refl
              (or_introl eq_refl) eq_refl eq_refl
              " B @ both  " eq_refl eq_refl)
    as [(b & Hb & Hname & _) H2].
  split; [|exact H2].
  exists b. split; [exact Hb | exact Hname].
Defined.

(* ====================================================================== *)
(** * Block comments *)
(* ====================================================================== *)

Section BlockComments.

Local Open Scope string_scope.

(** A match of the comment pattern is an opening mark, some text and a
    closing mark. *)
Lemma match_here_comment (s rest : string) (g : groups) :
  match_here comment_re s = Some (g, rest) ->
  exists w, s = "/*" ++ w ++ "*/" ++ rest.
Proof.
  unfold match_here. intros H.
  destruct (bt_sound _ _ _ _ _ H) as (s' & g' & Hs & Hk).
  injection Hk as -> ->. unfold comment_re in Hs. cbn [cat span] in Hs.
  destruct Hs as (s1 & g1 & [-> _] & s2 & g2 & (w & -> & _) & -> & _).
  now exists w.
Qed.

Lemma sub_empty_no_match (r : regex) (s : string) :
  (forall u v, s = u ++ v -> match_here r v = None) ->
  sub_empty_from r 0 s = s.
Proof.
  induction s as [|c s IH]; intros H; [reflexivity|].
  cbn [sub_empty_from]. rewrite (H "" (String c s) eq_refl).
  rewrite IH; [reflexivity|]. intros u v ->. now apply (H (String c u) v).
Qed.

(** The positions before the first match are copied. *)
Lemma sub_empty_copy (r : regex) (a t : string) :
  (forall u v, a = u ++ v -> v <> "" -> match_here r (v ++ t) = None) ->
  sub_empty_from r 0 (a ++ t) = a ++ sub_empty_from r 0 t.
Proof.
  induction a as [|c a IH]; intros H; [reflexivity|].
  cbn [append sub_empty_from].
  assert (H0 : match_here r (String c a ++ t) = None)
    by (apply (H "" (String c a)); [reflexivity | discriminate]).
  cbn [append] in H0. rewrite H0, IH; [reflexivity|].
  intros u v -> Hv. now apply (H (String c u) v).
Qed.

(** The characters of a match are dropped. *)
Lemma sub_empty_drop (r : regex) (w t : string) :
  sub_empty_from r (String.length w) (w ++ t) = sub_empty_from r 0 t.
Proof.
  induction w as [|c w IH]; [reflexivity|]. cbn [String.length append].
  cbn [sub_empty_from]. exact IH.
Qed.

(** A match that is not empty is taken out whole. *)
Lemma sub_empty_match (r : regex) (s rest : string) (g : groups) (w : string) :
  match_here r s = Some (g, rest) -> s = w ++ rest -> w <> "" ->
  sub_empty_from r 0 s = sub_empty_from r 0 rest.
Proof.
  intros Hm -> Hw. destruct w as [|c w]; [congruence|].
  change (sub_empty_from r 0 (String c w ++ rest))
    with (match match_here r (String c w ++ rest) with
          | Some (_, rest') =>
              match (String.length (String c w ++ rest)
                     - String.length rest')%nat with
              | O => String c (sub_empty_from r 0 (w ++ rest))
              | S n => sub_empty_from r n (w ++ rest)
              end
          | None => String c (sub_empty_from r 0 (w ++ rest))
          end).
  rewrite Hm.
  replace (String.length (String c w ++ rest) - String.length rest)%nat
    with (S (String.length w))
    by (cbn [append String.length]; rewrite length_append; lia).
  apply sub_empty_drop.
Qed.

Lemma lazy_any_first {A : Type} (c s : string) (g : groups) (k : cont)
      (a : A) :
  (forall u v, c = u ++ v -> v <> "" -> k (v ++ s) g = None) ->
  k s g = Some a ->
  lazy_any (c ++ s) g k = Some a.
Proof.
  induction c as [|x c IH]; intros Hno Hk.
  - destruct s; simpl; now rewrite Hk.
  - cbn [append lazy_any].
    assert (H0 : k (String x c ++ s) g = None)
      by (apply (Hno "" (String x c)); [reflexivity | discriminate]).
    cbn [append] in H0. rewrite H0. cbn [orelse].
    apply IH; [|assumption]. intros u v -> Hv. now apply (Hno (String x u) v).
Qed.

Lemma comment_needs_opening (s : string) :
  strip_prefix "/*" s = None -> match_here comment_re s = None.
Proof.
  intros H. unfold match_here, comment_re. cbn [cat bt]. now rewrite H.
Qed.

(** A comment from its opening mark to the first closing mark. *)
Lemma match_here_first_close (c b : string) :
  contains "*/" (c ++ "*") = false ->
  match_here comment_re ("/*" ++ c ++ "*/" ++ b) = Some ([], b).
Proof.
  intros Hno. unfold match_here, comment_re. cbn [cat].
  rewrite bt_Seq. apply (bt_Lit_complete "/*").
  rewrite bt_Seq. cbn [bt]. apply lazy_any_first.
  - intros u v Hc Hv. rewrite (keyword_not_before "*/" "*" "/" c u v b);
      auto.
  - now rewrite strip_prefix_append.
Qed.

Variable self : SVRFParser.

(** X10.  A deck in which no [/*] or no [*/] is written is read as it
    stands: an opening mark that is never closed does not start a
    comment, and the text after it is deck text. *)
Theorem unterminated_comment_kept :
  forall content,
    contains "/*" content = false \/ contains "*/" content = false ->
    sub_empty comment_re content = content
    /\ parse_text self content = parse_lines self (split LF content).
Proof.
  intros content H.
  assert (Heq : sub_empty comment_re content = content).
  { apply sub_empty_no_match. intros u v ->.
    destruct (match_here comment_re v) as [[g rest]|] eqn:Hm; [|reflexivity].
    exfalso. destruct (match_here_comment _ _ _ Hm) as (w & ->).
    destruct H as [H|H].
    - now rewrite (contains_middle "/*" u) in H.
    - rewrite <- (append_assoc "/*" w), <- (append_assoc u) in H.
      now rewrite (contains_middle "*/" (u ++ "/*" ++ w) rest) in H.
  }
  split; [exact Heq|]. unfold parse_text. now rewrite Heq.
Qed.

(** X11.  The first comment of a text runs from its first [/*] to the
    first [*/] after it, over line ends and over any [/*] in between
    (comments do not nest); it is taken out, the text before it is kept
    and the text after it is searched for further comments. *)
Theorem first_comment_removed :
  forall before inside after,
    contains "/*" (before ++ "/") = false ->
    contains "*/" (inside ++ "*") = false ->
    sub_empty comment_re (before ++ "/*" ++ inside ++ "*/" ++ after)
    = before ++ sub_empty comment_re after.
Proof.
  intros a c b Ha Hc. unfold sub_empty. rewrite sub_empty_copy.
  - f_equal.
    apply (sub_empty_match comment_re _ b [] ("/*" ++ c ++ "*/")).
    + now apply match_here_first_close.
    + now rewrite !append_assoc.
    + discriminate.
  - intros u v Hpre Hv. apply comment_needs_opening.
    now apply (keyword_not_before "/*" "/" "*" a u v).
Qed.

End BlockComments.

Lemma unterminated_comment_kept_witness :
  sub_empty comment_re "LAYER M1 10 /* metal one" = "LAYER M1 10 /* metal one"
  /\ parse_text SVRFParser_init "LAYER M1 10 /* metal one"
     = parse_lines SVRFParser_init (split LF "LAYER M1 10 /* metal one").
Proof.
  apply (unterminated_comment_kept SVRFParser_init). right. reflexivity.
Defined.

Lemma first_comment_removed_witness :
  sub_empty comment_re
            ("LAYER M1 " ++ "/*" ++ " old /* older " ++ "*/" ++ "10 */")
  = ("LAYER M1 " ++ sub_empty comment_re "10 */")%string.
Proof.
  apply (first_comment_removed "LAYER M1 " " old /* older " "10 */");
    reflexivity.
Defined.

(* ====================================================================== *)
(** * Rendering *)
(* ====================================================================== *)

Section Rendering.

Local Open Scope string_scope.

Lemma join_comment_line (comment : string) (lines : list string) :
  lines <> [] ->
  join nl (("// " ++ comment)%string :: lines)
  = ("// " ++ comment ++ nl) ++ join nl lines.
Proof.
  intros H. destruct lines as [|x lines]; [congruence|].
  unfold join. cbn [concat]. now rewrite !append_assoc.
Qed.

(** X12.  A node renders its comment, when it has one that is not
    empty, as a [//] line of its own before the lines of the node, and
    those lines do not depend on the comment: a node with the empty
    comment renders as the node without comment. *)
Theorem comment_rendered_first :
  forall rule : Rule,
    to_pxl rule
    = (if Py.truthy (rule_comment rule)
       then "// " ++ Py.text (rule_comment rule) ++ nl
       else "")
        ++ to_pxl (with_comment rule None).
Proof.
  intros [[? ? ? ? c0]|[? ? ? ? c0]|[? ? ? ? ? c0]|[? ? ? l2 c0]];
    cbv [rule_comment with_comment to_pxl Rule_pxl WidthCheck.pxl
         SpacingCheck.pxl EnclosureCheck.pxl BooleanOp.pxl
         WidthCheck.comment WidthCheck.rule_name WidthCheck.layer
         WidthCheck.operator WidthCheck.value
         SpacingCheck.comment SpacingCheck.rule_name SpacingCheck.layer
         SpacingCheck.operator SpacingCheck.value
         EnclosureCheck.comment EnclosureCheck.rule_name
         EnclosureCheck.outer_layer EnclosureCheck.inner_layer
         EnclosureCheck.operator EnclosureCheck.value
         BooleanOp.comment BooleanOp.result_name BooleanOp.operation
         BooleanOp.layer1 BooleanOp.layer2 comment_lines];
    destruct c0 as [[|c s]|]; cbn [Py.truthy Py.text List.app];
    try reflexivity.
  1-3: apply join_comment_line; discriminate.
  destruct (Py.truthy l2); apply join_comment_line; discriminate.
Qed.

Lemma upper_char_idempotent (c : ascii) :
  upper_char (upper_char c) = upper_char c.
Proof. destruct c as [[] [] [] [] [] [] [] []]; reflexivity. Qed.

Lemma upper_idempotent (s : string) : upper (upper s) = upper s.
Proof.
  induction s as [|c s IH]; [reflexivity|]. cbn [upper].
  now rewrite upper_char_idempotent, IH.
Qed.

(** X13.  A boolean node is rendered by its operation in upper case:
    the case of the operation does not matter, and an operation that is
    none of AND, OR, NOT in upper case is rendered as [and]. *)
Theorem operation_rendered_by_upper_case :
  forall (b : BooleanOp.t),
    let as_operation op :=
      {| BooleanOp.result_name := BooleanOp.result_name b;
         BooleanOp.operation := op;
         BooleanOp.layer1 := BooleanOp.layer1 b;
         BooleanOp.layer2 := BooleanOp.layer2 b;
         BooleanOp.comment := BooleanOp.comment b |} in
    to_pxl b = to_pxl (as_operation (upper (BooleanOp.operation b)))
    /\ (upper (BooleanOp.operation b) <> "AND" ->
        upper (BooleanOp.operation b) <> "OR" ->
        upper (BooleanOp.operation b) <> "NOT" ->
        to_pxl b = to_pxl (as_operation "AND")).
Proof.
  intros b as_operation. subst as_operation. unfold to_pxl, BooleanOp.pxl.
  cbn [BooleanOp.result_name BooleanOp.operation BooleanOp.layer1
       BooleanOp.layer2 BooleanOp.comment].
  split; [now rewrite upper_idempotent|].
  intros H1 H2 H3. unfold BooleanOp.op_map. cbn [Py.dict_get].
  apply String.eqb_neq in H1, H2, H3.
  rewrite (String.eqb_sym "AND"), (String.eqb_sym "OR"),
          (String.eqb_sym "NOT"), H1, H2, H3.
  reflexivity.
Qed.

End Rendering.

Lemma operation_rendered_by_upper_case_witness :
  to_pxl {| BooleanOp.result_name := "R"; BooleanOp.operation := "xor";
            BooleanOp.layer1 := "A"; BooleanOp.layer2 := Some "B";
            BooleanOp.comment := None |}
  = to_pxl {| BooleanOp.result_name := "R"; BooleanOp.operation := "AND";
              BooleanOp.layer1 := "A"; BooleanOp.layer2 := Some "B";
              BooleanOp.comment := None |}.
Proof.
  apply (operation_rendered_by_upper_case
           {| BooleanOp.result_name := "R"; BooleanOp.operation := "xor";
              BooleanOp.layer1 := "A"; BooleanOp.layer2 := Some "B";
              BooleanOp.comment := None |}); discriminate.
Defined.

Section Output.

Variables (generator : PXLGenerator) (parser : SVRFParser).

(** X15.  Nothing parsed is lost in generation: the output holds the
    rendering of every rule of the parser and the declaration line of
    every layer of its table. *)
Theorem generate_renders_everything :
  let text := fst (fst (generate generator parser)) in
  (forall rule, In rule (rules parser) -> contains (to_pxl rule) text = true)
  /\ (forall name layer,
         In (name, layer) (layers parser) ->
         contains (to_pxl layer) text = true).
Proof.
  intros text. subst text. cbn [generate fst]. split.
  - intros rule Hin.
    eapply contains_trans;
      [|apply contains_join; right; right; left; reflexivity].
    unfold generate_rules. apply contains_join.
    rewrite in_app_iff. right. apply in_flat_map. exists rule.
    split; [assumption | now left].
  - intros name layer Hin.
    eapply contains_trans; [|apply contains_join; right; left; reflexivity].
    unfold generate_layers. apply contains_join.
    rewrite !in_app_iff. left. right. apply in_map.
    apply (Permutation_in _ (Permutation_sym (sorted_by_perm _ _))).
    unfold Py.values. now apply (in_map snd) in Hin.
Qed.

End Output.

Lemma generate_renders_everything_witness :
  match parse_text SVRFParser_init
                   ("LAYER METAL1 10" ++ nl ++ "RESULT = AND METAL1 METAL2")
  with
  | Py.Ok parser =>
      let text := fst (fst (generate PXLGenerator_init parser)) in
      contains "METAL1 = layer(10, 0);" text = true
      /\ contains "RESULT = METAL1 and METAL2;" text = true
  | Py.Raise _ => False
  end.
Proof.
  destruct (parse_text SVRFParser_init
              ("LAYER METAL1 10" ++ nl ++ "RESULT = AND METAL1 METAL2"))
    as [parser|e] eqn:Hp; [|vm_compute in Hp; discriminate].
  assert (Hparser : parser
                    = {| layers := [("METAL1",
                                     {| LayerDef.name := "METAL1";
                                        LayerDef.gds_layer := 10;
                                        LayerDef.gds_datatype := 0 |})];
                         rules := [Boolean
                                     {| BooleanOp.result_name := "RESULT";
                                        BooleanOp.operation := "AND";
                                        BooleanOp.layer1 := "METAL1";
                                        BooleanOp.layer2 := Some "METAL2";
                                        BooleanOp.comment := None |}];
                         current_rule_name := None |}).
  { vm_compute in Hp. now injection Hp as <-. }
  destruct (generate_renders_everything PXLGenerator_init parser) as [Hr Hl].
  split.
  - apply (Hl "METAL1" {| LayerDef.name := "METAL1"; LayerDef.gds_layer := 10;
                          LayerDef.gds_datatype := 0 |}).
    rewrite Hparser. now left.
  - apply (Hr (Boolean {| BooleanOp.result_name := "RESULT";
                          BooleanOp.operation := "AND";
                          BooleanOp.layer1 := "METAL1";
                          BooleanOp.layer2 := Some "METAL2";
                          BooleanOp.comment := None |})).
    rewrite Hparser. now left.
Defined.

Section Writing.

Variables (args : Args) (fs : Py.FileSystem).

(** X16.  A run that ends with exit code 0 has parsed the input file
    and written the generated text to the output path, where it can be
    read back; every other file is as before.  A run whose output path
    cannot be written ends with exit code 1 and leaves the files as they
    were, whatever the deck. *)
Theorem translation_written :
  (forall fs',
      main args fs = (0%Z, fs') ->
      exists parser,
        parse_file SVRFParser_init fs (input args) = Py.Ok parser
        /\ Py.read_file fs' (output args)
           = Py.Ok (fst (fst (generate PXLGenerator_init parser)))
        /\ forall path, path <> output args ->
                        Py.read_file fs' path = Py.read_file fs path)
  /\ (existsb (String.eqb (output args)) (Py.unwritable fs) = true ->
      main args fs = (1%Z, fs)).
Proof.
  unfold main, translate. split.
  - intros fs'.
    destruct (parse_file SVRFParser_init fs (input args)) as [parser|e];
      cbn [Py.bind]; [|destruct e; discriminate].
    cbn [generate]. unfold Py.write_file.
    destruct (existsb (String.eqb (output args)) (Py.unwritable fs));
      [discriminate|].
    intros H. injection H as <-. exists parser. split; [reflexivity|].
    unfold Py.read_file. cbn [Py.files]. split.
    + now rewrite dict_get_set_same.
    + intros path Hne. now rewrite dict_get_set_other.
  - intros Hw.
    destruct (parse_file SVRFParser_init fs (input args)) as [parser|e];
      cbn [Py.bind]; [|now destruct e].
    cbn [generate]. unfold Py.write_file. now rewrite Hw.
Qed.

End Writing.

Lemma translation_written_witness :
  let args := {| input := "deck.svrf"; output := "deck.rs";
                 verbose := false; stats := false |} in
  let fs := {| Py.files := [("deck.svrf", "LAYER M1 10")];
               Py.unwritable := [] |} in
  let locked := {| Py.files := [("deck.svrf", "LAYER M1 10")];
                   Py.unwritable := ["deck.rs"] |} in
  Py.read_file (snd (main args fs)) "deck.svrf" = Py.Ok "LAYER M1 10"
  /\ main args locked = (1%Z, locked).
Proof.
  intros args fs locked. split.
  - destruct (main args fs) as [code fs'] eqn:Hm.
    assert (Hcode : code = 0%Z) by (vm_compute in Hm; now injection Hm as <- _).
    subst code.
    destruct (proj1 (translation_written args fs) fs' Hm) as (p & _ & _ & H).
    cbn [snd]. rewrite H; [reflexivity | discriminate].
  - apply (translation_written args locked). reflexivity.
Defined.

(* ====================================================================== *)
(** * The comparator: how rules are filed *)
(* ====================================================================== *)

Section SortedNames.

Lemma name_lt_trans (a b c : string) :
  name_lt a b -> name_lt b c -> name_lt a c.
Proof.
  unfold name_lt. intros H1 H2.
  apply OrderedTypeEx.String_as_OT.cmp_lt.
  apply OrderedTypeEx.String_as_OT.cmp_lt in H1, H2.
  exact (OrderedTypeEx.String_as_OT.lt_trans _ _ _ H1 H2).
Qed.

Lemma name_lt_irrefl (a : string) : ~ name_lt a a.
Proof.
  unfold name_lt. intros H.
  assert (He : String.compare a a = Eq)
    by now apply OrderedTypeEx.String_as_OT.cmp_eq.
  congruence.
Qed.

Lemma name_gt_lt (a b : string) : String.compare a b = Gt -> name_lt b a.
Proof.
  unfold name_lt. intros H. rewrite String.compare_antisym, H. reflexivity.
Qed.

Lemma insert_name_in_inv (n k : string) (l : list string) :
  In k (insert_name n l) -> k = n \/ In k l.
Proof.
  induction l as [|m l IH]; cbn [insert_name].
  - intros [<-|[]]. now left.
  - destruct (String.compare n m) eqn:Hc.
    + auto.
    + intros [<-|H]; auto.
    + intros [<-|H]; [right; now left|].
      destruct (IH H); [now left | right; now right].
Qed.

Lemma insert_name_sorted (n : string) (l : list string) :
  StronglySorted name_lt l -> StronglySorted name_lt (insert_name n l).
Proof.
  induction 1 as [|m l Hs IH Hm]; cbn [insert_name].
  - repeat constructor.
  - destruct (String.compare n m) eqn:Hc.
    + now constructor.
    + constructor; [now constructor|]. constructor; [exact Hc|].
      eapply Forall_impl; [|exact Hm]. intros c Hmc.
      now apply name_lt_trans with m.
    + constructor; [assumption|]. apply Forall_forall. intros k Hk.
      apply insert_name_in_inv in Hk as [->|Hk].
      * now apply name_gt_lt.
      * now apply (proj1 (Forall_forall _ _) Hm).
Qed.

Lemma sorted_names_sorted (a b : list string) :
  StronglySorted name_lt (sorted_names a b).
Proof.
  unfold sorted_names. induction (a ++ b) as [|n l IH]; [constructor|].
  cbn [fold_right]. now apply insert_name_sorted.
Qed.

Lemma sorted_nodup (l : list string) : StronglySorted name_lt l -> NoDup l.
Proof.
  induction 1 as [|m l Hs IH Hm]; constructor; [|assumption].
  intros Hin. apply (proj1 (Forall_forall _ _) Hm) in Hin.
  now apply name_lt_irrefl in Hin.
Qed.

Lemma sorted_names_in_inv (a b : list string) (k : string) :
  In k (sorted_names a b) -> In k (a ++ b).
Proof.
  unfold sorted_names. induction (a ++ b) as [|n l IH]; [auto|].
  cbn [fold_right]. intros H. apply insert_name_in_inv in H as [->|H].
  - now left.
  - right. now apply IH.
Qed.

End SortedNames.

Section Filing.

Lemma filed_first {A : Type} (a b c d : list A) (r : A) :
  Permutation ((a ++ [r]) ++ b ++ c ++ d) (r :: a ++ b ++ c ++ d).
Proof.
  rewrite <- app_assoc. cbn [app]. symmetry. apply Permutation_middle.
Qed.

Lemma filed_second {A : Type} (a b c d : list A) (r : A) :
  Permutation (a ++ (b ++ [r]) ++ c ++ d) (r :: a ++ b ++ c ++ d).
Proof.
  rewrite <- (app_assoc b). cbn [app]. rewrite !(app_assoc a b).
  symmetry. apply Permutation_middle.
Qed.

Lemma filed_third {A : Type} (a b c d : list A) (r : A) :
  Permutation (a ++ b ++ (c ++ [r]) ++ d) (r :: a ++ b ++ c ++ d).
Proof.
  rewrite <- (app_assoc c). cbn [app].
  rewrite !(app_assoc b c), !(app_assoc a (b ++ c)).
  symmetry. apply Permutation_middle.
Qed.

Lemma filed_fourth {A : Type} (a b c d : list A) (r : A) :
  Permutation (a ++ b ++ c ++ d ++ [r]) (r :: a ++ b ++ c ++ d).
Proof.
  rewrite !app_assoc. symmetry. apply Permutation_cons_append.
Qed.

Variables (self : DRCComparator)
          (cal_violations icv_violations : Py.dict (list Violation.t)).

(** A turn of the loop files its rule in one of the four lists. *)
Lemma compare_rule_files (results : Results) (rule : string) :
  Permutation
    (reported_names (compare_rule self cal_violations icv_violations
                                  results rule))
    (rule :: reported_names results).
Proof.
  unfold compare_rule, reported_names.
  repeat match goal with
         | |- context [if ?c then _ else _] => destruct c
         end;
    cbn [matching_rules mismatched_rules only_calibre only_icv];
    rewrite ?map_app; cbn [map rc_rule mm_rule].
  - apply filed_third.
  - apply filed_fourth.
  - apply filed_first.
  - apply filed_second.
  - apply filed_second.
Qed.

Lemma compare_fold_files (rules : list string) :
  forall results,
    Permutation
      (reported_names
         (fold_left (compare_rule self cal_violations icv_violations)
                    rules results))
      (reported_names results ++ rules).
Proof.
  induction rules as [|rule rules IH]; intros results; cbn [fold_left].
  - now rewrite app_nil_r.
  - rewrite IH, compare_rule_files. cbn [app]. apply Permutation_middle.
Qed.

Lemma app_one_nil {A : Type} (l : list A) (x : A) : l ++ [x] = [] -> False.
Proof. destruct l; discriminate. Qed.

(** A turn that leaves the three lists of differences empty has filed
    its rule as matching. *)
Lemma compare_rule_clean (results : Results) (rule : string) :
  let results' :=
    compare_rule self cal_violations icv_violations results rule in
  mismatched_rules results' = [] -> only_calibre results' = [] ->
  only_icv results' = [] ->
  (mismatched_rules results = [] /\ only_calibre results = []
   /\ only_icv results = [])
  /\ map rc_rule (matching_rules results')
     = map rc_rule (matching_rules results) ++ [rule].
Proof.
  cbv zeta. unfold compare_rule.
  repeat match goal with
         | |- context [if ?c then _ else _] => destruct c
         end;
    cbn [matching_rules mismatched_rules only_calibre only_icv].
  all: intros H1 H2 H3.
  all: try (now apply app_one_nil in H1).
  all: try (now apply app_one_nil in H2).
  all: try (now apply app_one_nil in H3).
  rewrite map_app. auto.
Qed.

Lemma compare_fold_clean (rules : list string) :
  forall results,
    let results' :=
      fold_left (compare_rule self cal_violations icv_violations)
                rules results in
    mismatched_rules results' = [] -> only_calibre results' = [] ->
    only_icv results' = [] ->
    (mismatched_rules results = [] /\ only_calibre results = []
     /\ only_icv results = [])
    /\ map rc_rule (matching_rules results')
       = map rc_rule (matching_rules results) ++ rules.
Proof.
  induction rules as [|rule rules IH]; intros results; cbn [fold_left];
    cbv zeta.
  - intros H1 H2 H3. now rewrite app_nil_r.
  - intros H1 H2 H3.
    destruct (IH _ H1 H2 H3) as [(G1 & G2 & G3) Hm].
    destruct (compare_rule_clean results rule G1 G2 G3) as [Hclean Hrule].
    split; [exact Hclean|]. rewrite Hm, Hrule. now rewrite <- app_assoc.
Qed.

(** X17.  The comparison files every rule name of either report in one
    of its four lists, once: no rule is left out, none is reported
    twice, and no other name is reported. *)
Theorem every_rule_filed_once :
  let results := compare self cal_violations icv_violations in
  NoDup (reported_names results)
  /\ forall rule,
       In rule (reported_names results)
       <-> In rule (Py.keys cal_violations)
           \/ In rule (Py.keys icv_violations).
Proof.
  intros results.
  assert (Hp : Permutation
                 (reported_names results)
                 (sorted_names (Py.keys cal_violations)
                               (Py.keys icv_violations))).
  { subst results. unfold compare.
    match goal with
    | |- Permutation (reported_names ?r) _ =>
        change (reported_names r)
          with (reported_names
                  (fold_left
                     (compare_rule self cal_violations icv_violations)
                     (sorted_names (Py.keys cal_violations)
                                   (Py.keys icv_violations))
                     {| matching_rules := []; mismatched_rules := [];
                        only_calibre := []; only_icv := [];
                        total_calibre := 0; total_icv := 0;
                        perfect_match := false |}))
    end.
    now rewrite compare_fold_files. }
  split.
  - apply (Permutation_NoDup (Permutation_sym Hp)).
    apply sorted_nodup, sorted_names_sorted.
  - intros rule. rewrite <- in_app_iff. split.
    + intros H. apply sorted_names_in_inv.
      now apply (Permutation_in _ Hp).
    + intros H. apply (Permutation_in _ (Permutation_sym Hp)).
      now apply sorted_names_in.
Qed.

(** X18.  The result is a perfect match exactly when every rule of
    either report is filed as matching: the matching rules are then all
    the rule names, in increasing order. *)
Theorem perfect_match_all_matching :
  let results := compare self cal_violations icv_violations in
  perfect_match results = true
  <-> map rc_rule (matching_rules results)
      = sorted_names (Py.keys cal_violations) (Py.keys icv_violations).
Proof.
  intros results.
  set (all_rules := sorted_names (Py.keys cal_violations)
                                 (Py.keys icv_violations)).
  set (final := fold_left (compare_rule self cal_violations icv_violations)
                          all_rules
                          {| matching_rules := []; mismatched_rules := [];
                             only_calibre := []; only_icv := [];
                             total_calibre := 0; total_icv := 0;
                             perfect_match := false |}).
  assert (Hm : matching_rules results = matching_rules final) by reflexivity.
  assert (Hperfect : perfect_match results
                     = (List.length (mismatched_rules final) =? 0)%nat
                       && (List.length (only_calibre final) =? 0)%nat
                       && (List.length (only_icv final) =? 0)%nat)
    by reflexivity.
  rewrite Hperfect, Hm. split.
  - intros H. apply andb_true_iff in H as [H H3].
    apply andb_true_iff in H as [H1 H2].
    apply Nat.eqb_eq, length_zero_iff_nil in H1, H2, H3.
    destruct (compare_fold_clean all_rules _ H1 H2 H3) as [_ Hall].
    exact Hall.
  - intros H.
    pose proof (compare_fold_files all_rules
                  {| matching_rules := []; mismatched_rules := [];
                     only_calibre := []; only_icv := [];
                     total_calibre := 0; total_icv := 0;
                     perfect_match := false |}) as Hp.
    fold final in Hp. apply Permutation_length in Hp.
    unfold reported_names in Hp. cbn [matching_rules mismatched_rules
                                      only_calibre only_icv map app] in Hp.
    rewrite !length_app, !length_map in Hp.
    apply (f_equal (@List.length string)) in H. rewrite length_map in H.
    assert (H1 : List.length (mismatched_rules final) = 0%nat) by lia.
    assert (H2 : List.length (only_calibre final) = 0%nat) by lia.
    assert (H3 : List.length (only_icv final) = 0%nat) by lia.
    now rewrite H1, H2, H3.
Qed.

End Filing.

Lemma every_rule_filed_once_witness :
  let cal := [("M1.W.1", @nil Violation.t); ("M2.S.1", [])] in
  let icv := [("M1.W.1", @nil Violation.t); ("V1.E.1", [])] in
  let results := compare {| tolerance := Float.lit "0.001" |} cal icv in
  In "V1.E.1" (reported_names results)
  /\ (In "M3.W.1" (reported_names results) -> False).
Proof.
  intros cal icv results.
  destruct (every_rule_filed_once {| tolerance := Float.lit "0.001" |} cal icv)
    as [_ H].
  split.
  - apply H. right. right. now left.
  - intros Hin. apply H in Hin.
    destruct Hin as [[Hin|[Hin|[]]]|[Hin|[Hin|[]]]]; discriminate Hin.
Defined.

Lemma perfect_match_all_matching_witness :
  let cal := [("M2.S.1", @nil Violation.t); ("M1.W.1", [])] in
  let icv := [("M1.W.1", @nil Violation.t); ("M2.S.1", [])] in
  let results := compare {| tolerance := Float.lit "0.001" |} cal icv in
  map rc_rule (matching_rules results) = ["M1.W.1"; "M2.S.1"].
Proof.
  intros cal icv results.
  apply (perfect_match_all_matching {| tolerance := Float.lit "0.001" |}
                                    cal icv).
  vm_compute. reflexivity.
Defined.

(* ====================================================================== *)
(** * The comparator: rules that differ *)
(* ====================================================================== *)

Section Differences.

Variables (self : DRCComparator)
          (cal_violations icv_violations : Py.dict (list Violation.t)).

Ltac by_branches :=
  unfold compare_rule;
  repeat match goal with
         | |- context [if ?c then _ else _] => destruct c
         end;
  cbn [matching_rules mismatched_rules only_calibre only_icv];
  rewrite ?in_app_iff; auto.

Lemma compare_rule_keeps_mismatched (results : Results) (rule : string)
      (entry : Mismatch) :
  In entry (mismatched_rules results) ->
  In entry (mismatched_rules
              (compare_rule self cal_violations icv_violations results rule)).
Proof. intros H. by_branches. Qed.

Lemma compare_rule_keeps_only_calibre (results : Results) (rule : string)
      (entry : RuleCount) :
  In entry (only_calibre results) ->
  In entry (only_calibre
              (compare_rule self cal_violations icv_violations results rule)).
Proof. intros H. by_branches. Qed.

Lemma compare_rule_keeps_only_icv (results : Results) (rule : string)
      (entry : RuleCount) :
  In entry (only_icv results) ->
  In entry (only_icv
              (compare_rule self cal_violations icv_violations results rule)).
Proof. intros H. by_branches. Qed.

(** What is true of a list after the turn of a rule stays true to the
    end of the loop. *)
Lemma compare_fold_reaches (P : Results -> Prop) (rule : string) :
  (forall results r, P results ->
                     P (compare_rule self cal_violations icv_violations
                                     results r)) ->
  (forall results, P (compare_rule self cal_violations icv_violations
                                   results rule)) ->
  forall rules results,
    In rule rules ->
    P (fold_left (compare_rule self cal_violations icv_violations)
                 rules results).
Proof.
  intros Hkeep Hadd.
  assert (Hfold : forall rules results,
             P results ->
             P (fold_left (compare_rule self cal_violations icv_violations)
                          rules results)).
  { intros rs. induction rs as [|r rs IH]; intros results H; [exact H|].
    cbn [fold_left]. apply IH, Hkeep, H. }
  intros rs. induction rs as [|r rs IH]; intros results Hin; [contradiction|].
  cbn [fold_left]. destruct Hin as [->|Hin].
  - apply Hfold, Hadd.
  - now apply IH.
Qed.

Lemma not_perfect (results : Results) :
  mismatched_rules results <> [] \/ only_calibre results <> []
  \/ only_icv results <> [] ->
  (List.length (mismatched_rules results) =? 0)%nat
  && (List.length (only_calibre results) =? 0)%nat
  && (List.length (only_icv results) =? 0)%nat = false.
Proof.
  intros [H|[H|H]].
  - destruct (mismatched_rules results); [congruence | reflexivity].
  - destruct (only_calibre results); [congruence|].
    cbn. now rewrite andb_false_r.
  - destruct (only_icv results); [congruence|].
    cbn. now rewrite andb_false_r.
Qed.

Variable rule : string.

(** X19.  A rule that only one report has, or that the two reports have
    with different numbers of violations, is filed accordingly - under
    [only_calibre], under [only_icv], or under [mismatched_rules] with
    the reason [counts differ] - and the result is no perfect match. *)
Theorem differing_rule_reported :
  let results := compare self cal_violations icv_violations in
  (forall cal_viols,
      Py.dict_get cal_violations rule = Some cal_viols ->
      Py.dict_get icv_violations rule = None ->
      In {| rc_rule := rule; rc_count := len cal_viols |}
         (only_calibre results)
      /\ perfect_match results = false)
  /\ (forall icv_viols,
         Py.dict_get cal_violations rule = None ->
         Py.dict_get icv_violations rule = Some icv_viols ->
         In {| rc_rule := rule; rc_count := len icv_viols |}
            (only_icv results)
         /\ perfect_match results = false)
  /\ (forall cal_viols icv_viols,
         Py.dict_get cal_violations rule = Some cal_viols ->
         Py.dict_get icv_violations rule = Some icv_viols ->
         List.length cal_viols <> List.length icv_viols ->
         In {| mm_rule := rule; calibre_count := len cal_viols;
               icv_count := len icv_viols; reason := "counts differ" |}
            (mismatched_rules results)
         /\ perfect_match results = false).
Proof.
  intros results.
  set (all_rules := sorted_names (Py.keys cal_violations)
                                 (Py.keys icv_violations)).
  set (start := {| matching_rules := []; mismatched_rules := [];
                   only_calibre := []; only_icv := [];
                   total_calibre := 0; total_icv := 0;
                   perfect_match := false |}).
  set (final := fold_left (compare_rule self cal_violations icv_violations)
                          all_rules start).
  assert (Hperfect : perfect_match results
                     = (List.length (mismatched_rules final) =? 0)%nat
                       && (List.length (only_calibre final) =? 0)%nat
                       && (List.length (only_icv final) =? 0)%nat)
    by reflexivity.
  change (only_calibre results) with (only_calibre final).
  change (only_icv results) with (only_icv final).
  change (mismatched_rules results) with (mismatched_rules final).
  rewrite Hperfect. clear Hperfect.
  split; [|split].
  - intros cal_viols Hc Hi.
    assert (Hin : In {| rc_rule := rule; rc_count := len cal_viols |}
                     (only_calibre final)).
    { apply (compare_fold_reaches
               (fun r => In {| rc_rule := rule; rc_count := len cal_viols |}
                            (only_calibre r)) rule).
      - intros r r0. apply compare_rule_keeps_only_calibre.
      - intros r. unfold compare_rule, Py.dict_mem. rewrite Hc, Hi.
        cbn [negb only_calibre]. rewrite in_app_iff. right. now left.
      - apply sorted_names_in, in_or_app. left.
        exact (dict_get_keys _ _ _ Hc). }
    split; [exact Hin|]. apply not_perfect. right. left.
    intros E. now rewrite E in Hin.
  - intros icv_viols Hc Hi.
    assert (Hin : In {| rc_rule := rule; rc_count := len icv_viols |}
                     (only_icv final)).
    { apply (compare_fold_reaches
               (fun r => In {| rc_rule := rule; rc_count := len icv_viols |}
                            (only_icv r)) rule).
      - intros r r0. apply compare_rule_keeps_only_icv.
      - intros r. unfold compare_rule, Py.dict_mem. rewrite Hc, Hi.
        cbn [negb only_icv]. rewrite in_app_iff. right. now left.
      - apply sorted_names_in, in_or_app. right.
        exact (dict_get_keys _ _ _ Hi). }
    split; [exact Hin|]. apply not_perfect. right. right.
    intros E. now rewrite E in Hin.
  - intros cal_viols icv_viols Hc Hi Hlen.
    assert (Hin : In {| mm_rule := rule; calibre_count := len cal_viols;
                        icv_count := len icv_viols;
                        reason := "counts differ" |}
                     (mismatched_rules final)).
    { apply (compare_fold_reaches
               (fun r => In {| mm_rule := rule;
                               calibre_count := len cal_viols;
                               icv_count := len icv_viols;
                               reason := "counts differ" |}
                            (mismatched_rules r)) rule).
      - intros r r0. apply compare_rule_keeps_mismatched.
      - intros r. unfold compare_rule, Py.dict_mem. rewrite Hc, Hi.
        cbn [negb].
        replace (len cal_viols =? len icv_viols)%Z with false
          by (symmetry; apply Z.eqb_neq; unfold len; lia).
        cbn [mismatched_rules]. rewrite in_app_iff. right. now left.
      - apply sorted_names_in, in_or_app. left.
        exact (dict_get_keys _ _ _ Hc). }
    split; [exact Hin|]. apply not_perfect. left.
    intros E. now rewrite E in Hin.
Qed.

End Differences.

(* ====================================================================== *)
(** * The comparator: tolerance *)
(* ====================================================================== *)

Section FloatFacts.

Lemma sub_self (m e : Z) :
  Float.sub (Float.Finite m e) (Float.Finite m e) = Float.Finite 0 0.
Proof.
  unfold Float.sub, Float.round64.
  assert (H : Qnum (Float.to_Q m e - Float.to_Q m e) = 0%Z).
  { destruct (Float.to_Q m e) as [n d]. cbn. lia. }
  now rewrite H.
Qed.

Lemma to_Q_abs_nonneg (m e : Z) : (0 <= Qnum (Float.to_Q (Z.abs m) e))%Z.
Proof.
  unfold Float.to_Q. destruct (0 <=? e)%Z; cbn [Qnum]; [|lia].
  apply Z.mul_nonneg_nonneg; [lia|]. apply Z.pow_nonneg. lia.
Qed.

Lemma Qltb_false_below (p q : Q) :
  Float.Qltb (0 # 1) q = false -> (0 <= Qnum p)%Z -> Float.Qltb p q = false.
Proof.
  unfold Float.Qltb, Qcompare. cbn [Qnum Qden]. intros Hq Hp.
  assert (Hle : (Qnum q <= 0)%Z).
  { destruct (0 * Z.pos (Qden q) ?= Qnum q * 1)%Z eqn:E; try discriminate.
    - apply Z.compare_eq in E. lia.
    - apply Z.compare_gt_iff in E. lia. }
  destruct (Qnum p * Z.pos (Qden q) ?= Qnum q * Z.pos (Qden p))%Z eqn:E;
    try reflexivity.
  pose proof (proj1 (Z.compare_lt_iff _ _) E) as E'.
  assert (0 <= Qnum p * Z.pos (Qden q))%Z by (apply Z.mul_nonneg_nonneg; lia).
  assert (Qnum q * Z.pos (Qden p) <= 0)%Z by (apply Z.mul_nonpos_nonneg; lia).
  lia.
Qed.

(** With a tolerance that is not above zero no distance is within
    tolerance. *)
Lemma never_within (tol d : Float.float) :
  Float.ltb (Float.Finite 0 0) tol = false ->
  Float.ltb (Float.abs d) tol = false.
Proof.
  destruct tol as [m e|[]|]; destruct d as [m' e'|b|];
    cbn [Float.abs Float.ltb negb andb]; try reflexivity; try discriminate.
  intros H. apply Qltb_false_below; [exact H | apply to_Q_abs_nonneg].
Qed.

End FloatFacts.

Section Sets.

Lemma set_add_keeps (s : list Violation.t) (v w : Violation.t) :
  In v s -> In v (set_add s w).
Proof.
  induction s as [|u s IH]; [contradiction|]. cbn [set_add].
  destruct (Violation.same_element u w); [auto|].
  intros [->|H]; [now left | right; now apply IH].
Qed.

Lemma set_add_in (s : list Violation.t) (v w : Violation.t) :
  In v (set_add s w) -> In v s \/ v = w.
Proof.
  induction s as [|u s IH]; cbn [set_add].
  - intros [<-|[]]. now right.
  - destruct (Violation.same_element u w); [auto|].
    intros [<-|H]; [left; now left|].
    destruct (IH H); [left; now right | now right].
Qed.

Lemma set_fold_keeps (l s : list Violation.t) (v : Violation.t) :
  In v s -> In v (fold_left set_add l s).
Proof.
  revert s. induction l as [|w l IH]; intros s H; [exact H|].
  cbn [fold_left]. now apply IH, set_add_keeps.
Qed.

Lemma set_fold_in (l s : list Violation.t) (v : Violation.t) :
  In v (fold_left set_add l s) -> In v s \/ In v l.
Proof.
  revert s. induction l as [|w l IH]; intros s H; [now left|].
  cbn [fold_left] in H. destruct (IH _ H) as [H1|H1].
  - destruct (set_add_in _ _ _ H1); [now left | right; left; congruence].
  - right. now right.
Qed.

(** The elements of a set are elements of the list it was made of, and
    the first element of the list is in the set. *)
Lemma set_of_in (l : list Violation.t) (v : Violation.t) :
  In v (set_of l) -> In v l.
Proof.
  unfold set_of. intros H. now destruct (set_fold_in _ _ _ H).
Qed.

Lemma set_of_first (v : Violation.t) (l : list Violation.t) :
  In v (set_of (v :: l)).
Proof.
  unfold set_of. cbn [fold_left set_add]. apply set_fold_keeps. now left.
Qed.

(** An element of the list has in the set an element the set takes for
    the same. *)
Lemma set_of_represents (l : list Violation.t) (v : Violation.t) :
  In v l ->
  In v (set_of l)
  \/ exists u, In u (set_of l) /\ Violation.same_element u v = true.
Proof.
  unfold set_of.
  assert (Hgen : forall l s,
             In v l ->
             In v (fold_left set_add l s)
             \/ exists u, In u (fold_left set_add l s)
                          /\ Violation.same_element u v = true).
  { clear l. induction l as [|w l IH]; intros s Hin; [contradiction|].
    cbn [fold_left]. destruct Hin as [->|Hin]; [|now apply IH].
    assert (Hadd : In v (set_add s v)
                   \/ exists u, In u (set_add s v)
                                /\ Violation.same_element u v = true).
    { clear IH. induction s as [|u s IHs]; cbn [set_add];
        [left; now left|].
      destruct (Violation.same_element u v) eqn:E.
      - right. exists u. split; [now left | exact E].
      - destruct IHs as [H|(u' & H & E')].
        + left. now right.
        + right. exists u'. split; [now right | exact E']. }
    destruct Hadd as [H|(u & H & E)].
    - left. now apply set_fold_keeps.
    - right. exists u. split; [now apply set_fold_keeps | exact E]. }
  intros H. now apply Hgen.
Qed.

End Sets.

Lemma differing_rule_reported_witness :
  let v := {| Violation.rule := "M1.W.1"; Violation.x := Float.lit "10.5";
              Violation.y := Float.lit "20.3"; Violation.type := "polygon" |} in
  let cal := [("M1.W.1", [v; v])] in
  let icv := [("M1.W.1", [v])] in
  let results := compare {| tolerance := Float.lit "0.001" |} cal icv in
  In {| mm_rule := "M1.W.1"; calibre_count := 2; icv_count := 1;
        reason := "counts differ" |} (mismatched_rules results)
  /\ perfect_match results = false.
Proof.
  intros v cal icv results.
  destruct (differing_rule_reported {| tolerance := Float.lit "0.001" |}
                                    cal icv "M1.W.1") as (_ & _ & H).
  apply (H [v; v] [v]); [reflexivity | reflexivity | cbn; lia].
Defined.

Section Tolerance.

Variable self : DRCComparator.

Lemma dict_get_in {V : Type} (d : Py.dict V) (k : string) :
  In k (Py.keys d) ->
  exists v, Py.dict_get d k = Some v /\ In v (Py.values d).
Proof.
  induction d as [|[k' v'] d IH]; [contradiction|].
  cbn [Py.keys Py.values map fst snd Py.dict_get].
  destruct (String.eqb_spec k' k) as [->|Hne].
  - intros _. exists v'. split; [reflexivity | now left].
  - intros [H|H]; [congruence|].
    destruct (IH H) as (v & Hv & Hin). exists v. split; [exact Hv | now right].
Qed.

Lemma violations_equal_refl (v : Violation.t) :
  Float.ltb (Float.Finite 0 0) (tolerance self) = true ->
  located v = true -> _violations_equal self v v = true.
Proof.
  unfold located, _violations_equal. intros Htol Hv.
  rewrite String.eqb_refl.
  destruct (Violation.x v) as [mx ex| |]; try discriminate.
  destruct (Violation.y v) as [my ey| |]; try discriminate.
  rewrite !sub_self. cbn [Float.abs Z.abs]. now rewrite Htol.
Qed.

Lemma violations_match_refl (l : list Violation.t) :
  Float.ltb (Float.Finite 0 0) (tolerance self) = true ->
  (forall v, In v l -> located v = true) ->
  _violations_match self l l = true.
Proof.
  intros Htol Hl. unfold _violations_match. rewrite Nat.eqb_refl.
  cbn [negb]. apply forallb_forall. intros v Hv.
  apply existsb_exists. exists v. split; [exact Hv|].
  apply violations_equal_refl; [exact Htol | apply Hl, set_of_in, Hv].
Qed.

Lemma violations_never_equal (v w : Violation.t) :
  Float.ltb (Float.Finite 0 0) (tolerance self) = false ->
  _violations_equal self v w = false.
Proof.
  intros Htol. unfold _violations_equal.
  rewrite (never_within _ (Float.sub (Violation.x v) (Violation.x w)) Htol).
  now rewrite andb_false_r.
Qed.

Lemma violations_never_match (c : Violation.t)
      (cal_viols icv_viols : list Violation.t) :
  Float.ltb (Float.Finite 0 0) (tolerance self) = false ->
  _violations_match self (c :: cal_viols) icv_viols = false.
Proof.
  intros Htol. unfold _violations_match.
  destruct (negb _); [reflexivity|].
  match goal with |- ?b = false => destruct b eqn:E end; [|reflexivity].
  rewrite forallb_forall in E. specialize (E c (set_of_first c cal_viols)).
  apply existsb_exists in E as (w & _ & Hw).
  now rewrite violations_never_equal in Hw.
Qed.

Variables (cal_violations icv_violations : Py.dict (list Violation.t)).

Lemma compare_fold_all_matching (rules : list string) :
  (forall rule, In rule rules ->
     exists l, Py.dict_get cal_violations rule = Some l
               /\ Py.dict_get icv_violations rule = Some l
               /\ _violations_match self l l = true) ->
  forall results,
    let results' :=
      fold_left (compare_rule self cal_violations icv_violations)
                rules results in
    mismatched_rules results' = mismatched_rules results
    /\ only_calibre results' = only_calibre results
    /\ only_icv results' = only_icv results.
Proof.
  induction rules as [|rule rules IH]; intros Hall results; cbv zeta;
    cbn [fold_left]; [auto|].
  destruct (Hall rule (or_introl eq_refl)) as (l & Hc & Hi & Hm).
  destruct (IH (fun r H => Hall r (or_intror H))
               (compare_rule self cal_violations icv_violations results rule))
    as (H1 & H2 & H3).
  rewrite H1, H2, H3.
  unfold compare_rule, Py.dict_mem. rewrite Hc, Hi, Hm, Z.eqb_refl.
  cbn [negb mismatched_rules only_calibre only_icv]. auto.
Qed.

End Tolerance.

Section ToleranceTheorems.

Variable self : DRCComparator.

(** X20.  With a tolerance that is not above zero - zero, a negative
    number, not a number - no two violations are within tolerance: a rule
    that both reports have with the same number of violations, at least
    one, is filed under [mismatched_rules] with the reason
    [locations differ], wherever the violations are, and the result is
    no perfect match. *)
Theorem no_tolerance_locations_differ
        (cal_violations icv_violations : Py.dict (list Violation.t))
        (rule : string) (cal_viols icv_viols : list Violation.t) :
  Float.ltb (Float.Finite 0 0) (tolerance self) = false ->
  Py.dict_get cal_violations rule = Some cal_viols ->
  Py.dict_get icv_violations rule = Some icv_viols ->
  List.length cal_viols = List.length icv_viols ->
  cal_viols <> [] ->
  let results := compare self cal_violations icv_violations in
  In {| mm_rule := rule; calibre_count := len cal_viols;
        icv_count := len icv_viols; reason := "locations differ" |}
     (mismatched_rules results)
  /\ perfect_match results = false.
Proof.
  intros Htol Hc Hi Hlen Hne results.
  set (final := fold_left (compare_rule self cal_violations icv_violations)
                          (sorted_names (Py.keys cal_violations)
                                        (Py.keys icv_violations))
                          {| matching_rules := []; mismatched_rules := [];
                             only_calibre := []; only_icv := [];
                             total_calibre := 0; total_icv := 0;
                             perfect_match := false |}).
  change (mismatched_rules results) with (mismatched_rules final).
  change (perfect_match results)
    with ((List.length (mismatched_rules final) =? 0)%nat
          && (List.length (only_calibre final) =? 0)%nat
          && (List.length (only_icv final) =? 0)%nat).
  assert (Hin : In {| mm_rule := rule; calibre_count := len cal_viols;
                      icv_count := len icv_viols;
                      reason := "locations differ" |}
                   (mismatched_rules final)).
  { apply (compare_fold_reaches self cal_violations icv_violations
             (fun r => In {| mm_rule := rule;
                             calibre_count := len cal_viols;
                             icv_count := len icv_viols;
                             reason := "locations differ" |}
                          (mismatched_rules r)) rule).
    - intros r r0. apply compare_rule_keeps_mismatched.
    - intros r. unfold compare_rule, Py.dict_mem. rewrite Hc, Hi.
      cbn [negb].
      replace (len cal_viols =? len icv_viols)%Z with true
        by (symmetry; apply Z.eqb_eq; unfold len; lia).
      destruct cal_viols as [|c cal_viols']; [congruence|].
      rewrite (violations_never_match self c cal_viols' icv_viols Htol).
      cbn [mismatched_rules]. rewrite in_app_iff. right. now left.
    - apply sorted_names_in, in_or_app. left.
      exact (dict_get_keys _ _ _ Hc). }
  split; [exact Hin|]. apply not_perfect. left.
  intros E. now rewrite E in Hin.
Qed.

(** X21.  A report compared with itself is a perfect match, whatever
    the positive tolerance, when the coordinates of its violations are
    finite numbers. *)
Theorem self_comparison_perfect (report : Py.dict (list Violation.t)) :
  Float.ltb (Float.Finite 0 0) (tolerance self) = true ->
  (forall v, In v (all_violations report) -> located v = true) ->
  perfect_match (compare self report report) = true.
Proof.
  intros Htol Hloc.
  set (start := {| matching_rules := []; mismatched_rules := [];
                   only_calibre := []; only_icv := [];
                   total_calibre := 0; total_icv := 0;
                   perfect_match := false |}).
  set (final := fold_left (compare_rule self report report)
                          (sorted_names (Py.keys report) (Py.keys report))
                          start).
  change (perfect_match (compare self report report))
    with ((List.length (mismatched_rules final) =? 0)%nat
          && (List.length (only_calibre final) =? 0)%nat
          && (List.length (only_icv final) =? 0)%nat).
  destruct (compare_fold_all_matching self report report
              (sorted_names (Py.keys report) (Py.keys report)))
    with (results := start) as (H1 & H2 & H3).
  - intros rule Hin. apply sorted_names_in_inv in Hin.
    assert (Hk : In rule (Py.keys report))
      by (apply in_app_or in Hin; tauto).
    destruct (dict_get_in report rule Hk) as (l & Hl & Hv).
    exists l. split; [exact Hl|]. split; [exact Hl|].
    apply violations_match_refl; [exact Htol|].
    intros v Hin'. apply Hloc. unfold all_violations.
    apply in_concat. exists l. now split.
  - fold final in H1, H2, H3. now rewrite H1, H2, H3.
Qed.

(** X22.  The check of the locations looks from the Calibre side only:
    when every Calibre violation of a rule is within tolerance of the
    first ICV violation, two lists of the same length match, whatever
    the other ICV violations are. *)
Theorem match_looks_from_calibre
        (cal_viols icv_rest : list Violation.t) (icv_first : Violation.t) :
  List.length cal_viols = S (List.length icv_rest) ->
  (forall c, In c cal_viols -> _violations_equal self c icv_first = true) ->
  _violations_match self cal_viols (icv_first :: icv_rest) = true.
Proof.
  intros Hlen Hall. unfold _violations_match.
  cbn [List.length]. rewrite <- Hlen, Nat.eqb_refl. cbn [negb].
  apply forallb_forall. intros c Hc. apply existsb_exists.
  exists icv_first. split; [apply set_of_first|].
  apply Hall, set_of_in, Hc.
Qed.

End ToleranceTheorems.

Lemma no_tolerance_locations_differ_witness :
  let v := {| Violation.rule := "M1.W.1"; Violation.x := Float.lit "10.5";
              Violation.y := Float.lit "20.3"; Violation.type := "polygon" |} in
  let report := [("M1.W.1", [v])] in
  let results := compare {| tolerance := Float.Finite 0 0 |} report report in
  In {| mm_rule := "M1.W.1"; calibre_count := 1; icv_count := 1;
        reason := "locations differ" |} (mismatched_rules results)
  /\ perfect_match results = false.
Proof.
  intros v report results.
  apply (no_tolerance_locations_differ {| tolerance := Float.Finite 0 0 |}
           report report "M1.W.1" [v] [v]);
    [reflexivity | reflexivity | reflexivity | reflexivity | discriminate].
Defined.

Lemma self_comparison_perfect_witness :
  let v := {| Violation.rule := "M1.W.1"; Violation.x := Float.lit "10.5";
              Violation.y := Float.lit "20.3"; Violation.type := "polygon" |} in
  let w := {| Violation.rule := "M2.S.1"; Violation.x := Float.lit "1.25";
              Violation.y := Float.lit "0.1"; Violation.type := "edge" |} in
  perfect_match (compare {| tolerance := Float.lit "0.001" |}
                         [("M2.S.1", [w; w]); ("M1.W.1", [v])]
                         [("M2.S.1", [w; w]); ("M1.W.1", [v])]) = true.
Proof.
  intros v w.
  apply (self_comparison_perfect {| tolerance := Float.lit "0.001" |}
           [("M2.S.1", [w; w]); ("M1.W.1", [v])]).
  - vm_compute. reflexivity.
  - intros u Hu. cbn in Hu.
    destruct Hu as [<-|[<-|[<-|[]]]]; vm_compute; reflexivity.
Defined.

Lemma match_looks_from_calibre_witness :
  let at_ x y := {| Violation.rule := "M1.W.1"; Violation.x := Float.lit x;
                    Violation.y := Float.lit y; Violation.type := "polygon" |} in
  _violations_match {| tolerance := Float.lit "0.001" |}
                    [at_ "10.5" "20.3"; at_ "10.5" "20.3"]
                    [at_ "10.5" "20.3"; at_ "99.0" "99.0"] = true.
Proof.
  intros at_.
  apply (match_looks_from_calibre {| tolerance := Float.lit "0.001" |}
           [at_ "10.5" "20.3"; at_ "10.5" "20.3"] [at_ "99.0" "99.0"]
           (at_ "10.5" "20.3")).
  - reflexivity.
  - intros c Hc. destruct Hc as [<-|[<-|[]]]; vm_compute; reflexivity.
Defined.

(* ====================================================================== *)
(** * The comparator: totals *)
(* ====================================================================== *)

Section Totals.

Variable self : DRCComparator.

Lemma count_over_cons (report : Py.dict (list Violation.t)) (rule : string)
      (rules : list string) :
  count_over report (rule :: rules)
  = (len (violations_of report rule) + count_over report rules)%Z.
Proof. reflexivity. Qed.

Lemma compare_fold_totals
      (cal_violations icv_violations : Py.dict (list Violation.t))
      (rules : list string) :
  forall results,
    let results' :=
      fold_left (compare_rule self cal_violations icv_violations)
                rules results in
    total_calibre results'
    = (total_calibre results + count_over cal_violations rules)%Z
    /\ total_icv results'
       = (total_icv results + count_over icv_violations rules)%Z.
Proof.
  induction rules as [|rule rules IH]; intros results; cbv zeta;
    cbn [fold_left]; [cbn; lia|]. rewrite !count_over_cons.
  destruct (IH (compare_rule self cal_violations icv_violations results rule))
    as [H1 H2].
  rewrite H1, H2.
  assert (Hc : total_calibre
                 (compare_rule self cal_violations icv_violations results rule)
               = (total_calibre results
                  + len (violations_of cal_violations rule))%Z).
  { unfold compare_rule, violations_of.
    repeat match goal with
           | |- context [if ?c then _ else _] => destruct c
           end; reflexivity. }
  assert (Hi : total_icv
                 (compare_rule self cal_violations icv_violations results rule)
               = (total_icv results
                  + len (violations_of icv_violations rule))%Z).
  { unfold compare_rule, violations_of.
    repeat match goal with
           | |- context [if ?c then _ else _] => destruct c
           end; reflexivity. }
  rewrite Hc, Hi. lia.
Qed.

Variable report : Py.dict (list Violation.t).

Lemma count_over_perm (l l' : list string) :
  Permutation l l' -> count_over report l = count_over report l'.
Proof.
  induction 1; rewrite ?count_over_cons; lia.
Qed.

Lemma count_over_none (l : list string) :
  (forall rule, In rule l -> violations_of report rule = []) ->
  count_over report l = 0%Z.
Proof.
  induction l as [|rule l IH]; intros H; [reflexivity|].
  rewrite count_over_cons, (H rule (or_introl eq_refl)), IH; [reflexivity|].
  intros r Hr. apply H. now right.
Qed.

(** Over a list that holds every name of another, once, and apart from
    these only rules without violations, the count is the same. *)
Lemma count_over_incl (known : list string) :
  NoDup known ->
  forall l,
    NoDup l -> incl known l ->
    (forall rule, In rule l -> ~ In rule known ->
                  violations_of report rule = []) ->
    count_over report l = count_over report known.
Proof.
  induction 1 as [|k known Hk Hnd IH]; intros l Hl Hincl Hnone.
  - apply count_over_none. intros rule Hr. now apply Hnone.
  - destruct (in_split k l (Hincl k (or_introl eq_refl))) as (l1 & l2 & ->).
    rewrite (count_over_perm _ (k :: l1 ++ l2))
      by (symmetry; apply Permutation_middle).
    rewrite !count_over_cons.
    apply NoDup_remove in Hl as [Hl Hnk].
    rewrite (IH (l1 ++ l2) Hl); [reflexivity| |].
    + intros r Hr.
      assert (Hin : In r (l1 ++ k :: l2)) by (apply Hincl; now right).
      apply in_app_or in Hin as [Hin|[->|Hin]];
        [apply in_or_app; now left | contradiction
         | apply in_or_app; now right].
    + intros r Hr Hnot. apply Hnone.
      * apply in_app_or in Hr as [Hr|Hr]; apply in_or_app;
          [now left | right; now right].
      * intros [->|Hin]; [contradiction | contradiction].
Qed.

Lemma count_over_ext (other : Py.dict (list Violation.t)) (l : list string) :
  (forall rule, In rule l ->
                violations_of report rule = violations_of other rule) ->
  count_over report l = count_over other l.
Proof.
  induction l as [|rule l IH]; intros H; [reflexivity|].
  rewrite !count_over_cons, (H rule (or_introl eq_refl)), IH; [reflexivity|].
  intros r Hr. apply H. now right.
Qed.

End Totals.

Section TotalsOfReports.

Lemma count_over_keys (report : Py.dict (list Violation.t)) :
  NoDup (Py.keys report) ->
  count_over report (Py.keys report) = len (all_violations report).
Proof.
  induction report as [|[k v] report IH]; [reflexivity|].
  cbn [Py.keys map fst]. intros Hnd.
  apply NoDup_cons_iff in Hnd as [Hk Hnd].
  rewrite count_over_cons, (count_over_ext _ report).
  - fold (Py.keys report). rewrite (IH Hnd).
    unfold violations_of. cbn [Py.dict_get]. rewrite String.eqb_refl.
    unfold all_violations, len. cbn [Py.values map snd List.concat].
    rewrite List.length_app. unfold Py.values. lia.
  - intros rule Hr. unfold violations_of. cbn [Py.dict_get].
    destruct (String.eqb_spec k rule) as [->|_]; [contradiction|reflexivity].
Qed.

Lemma violations_of_unknown (report : Py.dict (list Violation.t))
      (rule : string) :
  ~ In rule (Py.keys report) -> violations_of report rule = [].
Proof.
  intros H. unfold violations_of.
  destruct (Py.dict_get report rule) eqn:E; [|reflexivity].
  now apply dict_get_keys in E.
Qed.

Variables (self : DRCComparator)
          (cal_violations icv_violations : Py.dict (list Violation.t)).

(** X23.  The two totals of the result are the numbers of violations of
    the two reports, whatever rules the reports share. *)
Theorem totals_count_all_violations :
  NoDup (Py.keys cal_violations) -> NoDup (Py.keys icv_violations) ->
  let results := compare self cal_violations icv_violations in
  total_calibre results = len (all_violations cal_violations)
  /\ total_icv results = len (all_violations icv_violations).
Proof.
  intros Hc Hi results.
  set (all_rules := sorted_names (Py.keys cal_violations)
                                 (Py.keys icv_violations)).
  set (start := {| matching_rules := []; mismatched_rules := [];
                   only_calibre := []; only_icv := [];
                   total_calibre := 0; total_icv := 0;
                   perfect_match := false |}).
  change (total_calibre results)
    with (total_calibre
            (fold_left (compare_rule self cal_violations icv_violations)
                       all_rules start)).
  change (total_icv results)
    with (total_icv
            (fold_left (compare_rule self cal_violations icv_violations)
                       all_rules start)).
  destruct (compare_fold_totals self cal_violations icv_violations
                                all_rules start) as [H1 H2].
  rewrite H1, H2. cbn [total_calibre total_icv start].
  assert (Hnd : NoDup all_rules)
    by apply sorted_nodup, sorted_names_sorted.
  split.
  - rewrite (count_over_incl cal_violations (Py.keys cal_violations) Hc
                             all_rules Hnd).
    + now rewrite count_over_keys.
    + intros r Hr. apply sorted_names_in, in_or_app. now left.
    + intros r _ Hr. now apply violations_of_unknown.
  - rewrite (count_over_incl icv_violations (Py.keys icv_violations) Hi
                             all_rules Hnd).
    + now rewrite count_over_keys.
    + intros r Hr. apply sorted_names_in, in_or_app. now right.
    + intros r _ Hr. now apply violations_of_unknown.
Qed.

End TotalsOfReports.

Lemma totals_count_all_violations_witness :
  let v := {| Violation.rule := "M1.W.1"; Violation.x := Float.lit "10.5";
              Violation.y := Float.lit "20.3"; Violation.type := "polygon" |} in
  let w := {| Violation.rule := "M2.S.1"; Violation.x := Float.lit "1.25";
              Violation.y := Float.lit "0.1"; Violation.type := "edge" |} in
  let results := compare {| tolerance := Float.lit "0.001" |}
                         [("M2.S.1", [w; w]); ("M1.W.1", [v])]
                         [("M1.W.1", [v; v])] in
  total_calibre results = 3%Z /\ total_icv results = 2%Z.
Proof.
  intros v w results.
  apply (totals_count_all_violations
           {| tolerance := Float.lit "0.001" |}
           [("M2.S.1", [w; w]); ("M1.W.1", [v])] [("M1.W.1", [v; v])]).
  - cbn. repeat constructor; cbn; intuition discriminate.
  - cbn. repeat constructor; cbn; intuition discriminate.
Defined.

(* ====================================================================== *)
(** * The report parsers: what a report holds *)
(* ====================================================================== *)

Section Reports.

Local Open Scope string_scope.

Lemma dict_get_entry {V : Type} (d : Py.dict V) (k : string) (v : V) :
  Py.dict_get d k = Some v -> In (k, v) d.
Proof.
  induction d as [|[k' v'] d IH]; [discriminate|]. cbn [Py.dict_get].
  destruct (String.eqb_spec k' k) as [->|_].
  - intros [= ->]. now left.
  - intros H. right. now apply IH.
Qed.

Lemma for_each_invariant {S : Type} (body : S -> string -> Py.result S)
      (P : S -> Prop) :
  (forall st line st', P st -> body st line = Py.Ok st' -> P st') ->
  forall lines st st',
    P st -> for_each body lines st = Py.Ok st' -> P st'.
Proof.
  intros Hbody lines. induction lines as [|line lines IH]; intros st st' HP.
  - cbn [for_each]. now intros [= <-].
  - cbn [for_each]. destruct (body st line) as [st1|e] eqn:E;
      cbn [Py.bind]; [|discriminate].
    apply IH. now apply (Hbody st line).
Qed.

(** The entries of a report after one more violation. *)
Lemma dict_append_entries (P : string * list Violation.t -> Prop)
      (report : Py.dict (list Violation.t)) (rule : string)
      (v : Violation.t) :
  Forall P report ->
  (forall l, (l = [] \/ In (rule, l) report) -> P (rule, (l ++ [v])%list)) ->
  Forall P (dict_append report rule v).
Proof.
  intros Hall Hnew. unfold dict_append. apply dict_set_Forall; [exact Hall|].
  apply Hnew. destruct (Py.dict_get report rule) as [l|] eqn:E.
  - right. now apply dict_get_entry.
  - now left.
Qed.

Lemma dict_append_keys (report : Py.dict (list Violation.t)) (rule : string)
      (v : Violation.t) :
  NoDup (Py.keys report) -> NoDup (Py.keys (dict_append report rule v)).
Proof.
  intros Hnd. unfold dict_append. rewrite keys_dict_set.
  destruct (Py.dict_mem report rule) eqn:E; [exact Hnd|].
  apply NoDup_app; [exact Hnd | repeat constructor; intros [] |].
  intros k Hk [<-|[]]. now apply dict_mem_keys in E.
Qed.

Lemma dict_append_wf (report : Py.dict (list Violation.t)) (v : Violation.t) :
  report_wf report -> report_wf (dict_append report (Violation.rule v) v).
Proof.
  intros [Hnd Hall]. split; [now apply dict_append_keys|].
  apply dict_append_entries; [exact Hall|].
  intros l Hl. cbn [fst snd]. split.
  - now destruct l.
  - apply Forall_app. split; [|now repeat constructor].
    destruct Hl as [->|Hin]; [constructor|].
    rewrite Forall_forall in Hall. exact (proj2 (Hall _ Hin)).
Qed.

Lemma calibre_line_wf (st st' : CalibreParser.state) (line : string) :
  report_wf (CalibreParser.violations st) ->
  CalibreParser.parse_line st line = Py.Ok st' ->
  report_wf (CalibreParser.violations st').
Proof.
  intros Hwf. unfold CalibreParser.parse_line.
  assert (Hadd : forall type,
             CalibreParser.add_violation st line type = Py.Ok st' ->
             report_wf (CalibreParser.violations st')).
  { intros type. unfold CalibreParser.add_violation.
    destruct (CalibreParser._extract_coords line) as [[[x y]|]|e];
      cbn [Py.bind]; try discriminate.
    - intros [= <-]. cbn [CalibreParser.violations].
      exact (dict_append_wf _
               {| Violation.rule := Py.text (CalibreParser.current_rule st);
                  Violation.x := x; Violation.y := y;
                  Violation.type := type |} Hwf).
    - now intros [= <-]. }
  destruct (contains "RULECHECK" line).
  - destruct (search rulecheck_re line); now intros [= <-].
  - destruct (contains "POLYGON" line
              && Py.truthy (CalibreParser.current_rule st));
      [apply Hadd|].
    destruct (contains "EDGE" line
              && Py.truthy (CalibreParser.current_rule st));
      [apply Hadd|]. now intros [= <-].
Qed.

Lemma icv_line_wf (report report' : Py.dict (list Violation.t))
      (line : string) :
  report_wf report -> ICVParser.parse_line report line = Py.Ok report' ->
  report_wf report'.
Proof.
  intros Hwf. unfold ICVParser.parse_line.
  destruct (contains "violation" (lower line)); [|now intros [= <-]].
  destruct (ICVParser.violation_search line) as [m|]; [|now intros [= <-]].
  destruct (float_of_token (grp m 2)) as [x|]; cbn [Py.bind];
    [|discriminate].
  destruct (float_of_token (grp m 3)) as [y|]; cbn [Py.bind];
    [|discriminate].
  intros [= <-].
  exact (dict_append_wf _
           {| Violation.rule := grp m 1; Violation.x := x; Violation.y := y;
              Violation.type := "unknown" |} Hwf).
Qed.

Lemma empty_report_wf : report_wf [].
Proof. split; constructor. Qed.

(** What [exit_if_not_found] returns, the call returned. *)
Lemma returns_ok {A : Type} (r : Py.result A) (a : A) :
  exit_if_not_found r = Returns a -> r = Py.Ok a.
Proof.
  destruct r as [a'|[]]; cbn [exit_if_not_found]; try discriminate.
  now intros [= ->].
Qed.

Lemma exits_with_one {A : Type} (r : Py.result A) (status : Z) :
  exit_if_not_found r = Exits status -> status = 1%Z.
Proof.
  destruct r as [a'|[]]; cbn [exit_if_not_found]; try discriminate.
  now intros [= <-].
Qed.

(** X24.  A report that one of the two parsers returns holds every rule
    once, with at least one violation, and every violation stands under
    the rule it names: a rule whose header is followed by no violation
    is not in the report. *)
Theorem parsed_reports_well_formed :
  forall (fs : Py.FileSystem) (filename : string)
         (report : Py.dict (list Violation.t)),
    CalibreParser.parse_file fs filename = Returns report
    \/ ICVParser.parse_file fs filename = Returns report ->
    report_wf report.
Proof.
  intros fs filename report [H|H]; apply returns_ok in H.
  - destruct (Py.read_file fs filename) as [content|]; cbn [Py.bind] in H;
      [|discriminate].
    destruct (CalibreParser.parse_lines
                (file_lines content)
                {| CalibreParser.violations := [];
                   CalibreParser.current_rule := None |}) as [st|] eqn:E;
      cbn [Py.bind] in H; [|discriminate].
    injection H as <-.
    apply (for_each_invariant CalibreParser.parse_line
             (fun st => report_wf (CalibreParser.violations st))
             (fun st line st' => calibre_line_wf st st' line)
             (file_lines content)
             {| CalibreParser.violations := [];
                CalibreParser.current_rule := None |} st
             empty_report_wf E).
  - destruct (Py.read_file fs filename) as [content|]; cbn [Py.bind] in H;
      [|discriminate].
    apply (for_each_invariant ICVParser.parse_line report_wf
             (fun report line report' => icv_line_wf report report' line)
             _ _ _ empty_report_wf H).
Qed.

End Reports.

Lemma parsed_reports_well_formed_witness :
  let fs := {| Py.files :=
                 [("calibre.rpt",
                   ("RULECHECK M1.W.1" ++ nl
                      ++ "POLYGON ( 10.5 20.3 ) ( 15.7 25.8 )" ++ nl
                      ++ "RULECHECK M2.S.1" ++ nl
                      ++ "RULECHECK M1.W.1" ++ nl
                      ++ "EDGE ( 1.5 -2 )" ++ nl)%string)];
               Py.unwritable := [] |} in
  exists report,
    CalibreParser.parse_file fs "calibre.rpt" = Returns report
    /\ Py.keys report = ["M1.W.1"]
    /\ report_wf report.
Proof.
  intros fs. eexists. split; [vm_compute; reflexivity|].
  split; [reflexivity|].
  apply (parsed_reports_well_formed fs "calibre.rpt").
  left. vm_compute. reflexivity.
Defined.

(* ====================================================================== *)
(** * The report parsers: rule names *)
(* ====================================================================== *)

Section RuleNamesOfReports.

Local Open Scope string_scope.

Lemma lazy_in_line_sound {A : Type} (s : string) (g : groups) (k : cont)
      (a : A) :
  ICVParser.lazy_in_line s g k = Some a ->
  exists w s', s = w ++ s' /\ k s' g = Some a.
Proof.
  induction s as [|c s IH]; cbn [ICVParser.lazy_in_line]; unfold orelse;
    intros H.
  - destruct (k "" g) eqn:Hk; [|discriminate].
    exists "", "". split; [reflexivity | congruence].
  - destruct (k (String c s) g) eqn:Hk.
    + exists "", (String c s). split; [reflexivity | congruence].
    + destruct (Ascii.eqb c LF); [discriminate|].
      destruct (IH H) as (w & s' & -> & Hk'). exists (String c w), s'. auto.
Qed.

(** The first group of a match of the violation pattern is a word. *)
Lemma violation_search_word (s : string) (m : groups) :
  ICVParser.violation_search s = Some m -> made_of isword (grp m 1) = true.
Proof.
  assert (Hhere : forall s m,
             ICVParser.violation_bt s [] (fun _ g => Some g) = Some m ->
             made_of isword (grp m 1) = true).
  { clear s m. intros s m H. unfold ICVParser.violation_bt in H.
    apply bt_sound in H as (s1 & g1 & Hspan & H).
    destruct Hspan as (g0 & (w & -> & Hne & Hw & ->) & ->).
    rewrite consumed_append in H.
    apply lazy_in_line_sound in H as (skipped & s2 & -> & H).
    apply bt_sound in H as (s3 & g3 & Hspan & H).
    injection H as <-. cbn [cat span] in Hspan.
    destruct Hspan as (s4 & g4 & (g5 & (w2 & _ & _ & _ & ->) & ->)
                       & s5 & g6 & (w3 & _ & _ & _ & ->)
                       & g7 & (w4 & _ & _ & _ & ->) & ->).
    unfold grp, made_of. cbn [group Nat.eqb Py.text]. rewrite Hw.
    destruct w; [congruence | reflexivity]. }
  induction s as [|c s IH]; cbn [ICVParser.violation_search].
  - destruct (ICVParser.violation_bt "" [] (fun _ g => Some g)) eqn:E;
      [|discriminate]. intros [= <-]. now apply (Hhere "").
  - destruct (ICVParser.violation_bt (String c s) [] (fun _ g => Some g))
      eqn:E; [|exact IH]. intros [= <-]. now apply (Hhere (String c s)).
Qed.

End RuleNamesOfReports.

Section NonWordRules.

Local Open Scope string_scope.

Lemma icv_line_words (report report' : Py.dict (list Violation.t))
      (line : string) :
  Forall (fun rule => made_of isword rule = true) (Py.keys report) ->
  ICVParser.parse_line report line = Py.Ok report' ->
  Forall (fun rule => made_of isword rule = true) (Py.keys report').
Proof.
  intros Hall. unfold ICVParser.parse_line.
  destruct (contains "violation" (lower line)); [|now intros [= <-]].
  destruct (ICVParser.violation_search line) as [m|] eqn:Hm;
    [|now intros [= <-]].
  destruct (float_of_token (grp m 2)) as [x|]; cbn [Py.bind];
    [|discriminate].
  destruct (float_of_token (grp m 3)) as [y|]; cbn [Py.bind];
    [|discriminate].
  intros [= <-]. unfold dict_append. rewrite keys_dict_set.
  destruct (Py.dict_mem report (grp m 1)); [exact Hall|].
  apply Forall_app. split; [exact Hall|].
  constructor; [|constructor]. exact (violation_search_word line m Hm).
Qed.

(** The rule names of an ICV report are words. *)
Lemma icv_rule_names_words (fs : Py.FileSystem) (filename : string)
      (report : Py.dict (list Violation.t)) (rule : string) :
  ICVParser.parse_file fs filename = Returns report ->
  In rule (Py.keys report) -> made_of isword rule = true.
Proof.
  intros H Hin. apply returns_ok in H.
  destruct (Py.read_file fs filename) as [content|]; cbn [Py.bind] in H;
    [|discriminate].
  assert (Hall : Forall (fun rule => made_of isword rule = true)
                        (Py.keys report)).
  { apply (for_each_invariant ICVParser.parse_line
             (fun report => Forall (fun rule => made_of isword rule = true)
                                   (Py.keys report))
             (fun report line report' => icv_line_words report report' line)
             (file_lines content) [] report); [constructor | exact H]. }
  rewrite Forall_forall in Hall. now apply Hall.
Qed.

(** A rule that Calibre alone reports is filed so, and spoils the
    match. *)
Lemma only_calibre_filed (self : DRCComparator)
      (cal_violations icv_violations : Py.dict (list Violation.t))
      (rule : string) (cal_viols : list Violation.t) :
  Py.dict_get cal_violations rule = Some cal_viols ->
  Py.dict_get icv_violations rule = None ->
  let results := compare self cal_violations icv_violations in
  In {| rc_rule := rule; rc_count := len cal_viols |} (only_calibre results)
  /\ perfect_match results = false.
Proof.
  intros Hc Hi results.
  set (final := fold_left (compare_rule self cal_violations icv_violations)
                          (sorted_names (Py.keys cal_violations)
                                        (Py.keys icv_violations))
                          {| matching_rules := []; mismatched_rules := [];
                             only_calibre := []; only_icv := [];
                             total_calibre := 0; total_icv := 0;
                             perfect_match := false |}).
  change (only_calibre results) with (only_calibre final).
  change (perfect_match results)
    with ((List.length (mismatched_rules final) =? 0)%nat
          && (List.length (only_calibre final) =? 0)%nat
          && (List.length (only_icv final) =? 0)%nat).
  assert (Hin : In {| rc_rule := rule; rc_count := len cal_viols |}
                   (only_calibre final)).
  { apply (compare_fold_reaches self cal_violations icv_violations
             (fun r => In {| rc_rule := rule; rc_count := len cal_viols |}
                          (only_calibre r)) rule).
    - intros r r0. apply compare_rule_keeps_only_calibre.
    - intros r. unfold compare_rule, Py.dict_mem. rewrite Hc, Hi.
      cbn [negb only_calibre]. rewrite in_app_iff. right. now left.
    - apply sorted_names_in, in_or_app. left.
      exact (dict_get_keys _ _ _ Hc). }
  split; [exact Hin|]. apply not_perfect. right. left.
  intros E. now rewrite E in Hin.
Qed.

Lemma not_in_keys {V : Type} (d : Py.dict V) (k : string) :
  ~ In k (Py.keys d) -> Py.dict_get d k = None.
Proof.
  intros H. destruct (Py.dict_get d k) eqn:E; [|reflexivity].
  now apply dict_get_keys in E.
Qed.

(** X25.  A rule of the Calibre report whose name is not a word - a
    name with a dot in it, as [M1.W.1] - is never matched: the ICV
    parser reads rule names as words, so whatever the ICV report holds,
    the rule is filed as only in Calibre and the program ends with
    status 1. *)
Theorem non_word_rule_never_matches :
  forall (args : CompareDrc.Args) (fs : Py.FileSystem)
         (cal_violations : Py.dict (list Violation.t)) (rule : string),
    CalibreParser.parse_file fs (CompareDrc.calibre args)
    = Returns cal_violations ->
    In rule (Py.keys cal_violations) ->
    all_in isword rule = false ->
    CompareDrc.main args fs = 1%Z
    /\ forall icv_violations,
         ICVParser.parse_file fs (CompareDrc.icv args)
         = Returns icv_violations ->
         In rule
            (map rc_rule
                 (only_calibre
                    (compare (DRCComparator_init (CompareDrc.tolerance args))
                             cal_violations icv_violations))).
Proof.
  intros args fs cal_violations rule Hcal Hin Hword.
  assert (Hfiled : forall icv_violations,
             ICVParser.parse_file fs (CompareDrc.icv args)
             = Returns icv_violations ->
             let results :=
               compare (DRCComparator_init (CompareDrc.tolerance args))
                       cal_violations icv_violations in
             In rule (map rc_rule (only_calibre results))
             /\ perfect_match results = false).
  { intros icv_violations Hicv.
    destruct (dict_get_in cal_violations rule Hin) as (cal_viols & Hc & _).
    assert (Hi : Py.dict_get icv_violations rule = None).
    { apply not_in_keys. intros Hk.
      pose proof (icv_rule_names_words _ _ _ _ Hicv Hk) as Hw.
      unfold made_of in Hw. now rewrite Hword in Hw. }
    destruct (only_calibre_filed
                (DRCComparator_init (CompareDrc.tolerance args))
                cal_violations icv_violations rule cal_viols Hc Hi)
      as [Hone Hperfect].
    split; [|exact Hperfect].
    apply in_map_iff. now exists {| rc_rule := rule;
                                    rc_count := len cal_viols |}. }
  split.
  - unfold CompareDrc.main. rewrite Hcal.
    destruct (ICVParser.parse_file fs (CompareDrc.icv args))
      as [icv_violations|e|status] eqn:Hicv; [|reflexivity|].
    + unfold CompareDrc.print_report.
      now rewrite (proj2 (Hfiled icv_violations eq_refl)).
    + exact (exits_with_one _ _ Hicv).
  - intros icv_violations Hicv. exact (proj1 (Hfiled icv_violations Hicv)).
Qed.

End NonWordRules.

Lemma non_word_rule_never_matches_witness :
  let fs := {| Py.files :=
                 [("calibre.rpt",
                   ("RULECHECK M1.W.1" ++ nl
                      ++ "POLYGON ( 10.5 20.3 )" ++ nl)%string);
                  ("icv.log",
                   ("M1.W.1 violation at 10.5 20.3" ++ nl)%string)];
               Py.unwritable := [] |} in
  let args := {| CompareDrc.calibre := "calibre.rpt";
                 CompareDrc.icv := "icv.log";
                 CompareDrc.tolerance := Float.lit "0.001";
                 CompareDrc.verbose := false |} in
  Py.keys (match ICVParser.parse_file fs "icv.log" with
           | Returns report => report
           | _ => []
           end) = ["M1"]
  /\ CompareDrc.main args fs = 1%Z.
Proof.
  intros fs args. split; [vm_compute; reflexivity|].
  apply (non_word_rule_never_matches
           args fs
           [("M1.W.1", [{| Violation.rule := "M1.W.1";
                           Violation.x := Float.lit "10.5";
                           Violation.y := Float.lit "20.3";
                           Violation.type := "polygon" |}])] "M1.W.1").
  - vm_compute. reflexivity.
  - now left.
  - vm_compute. reflexivity.
Defined.

(* ====================================================================== *)
(** * The Calibre parser: lines *)
(* ====================================================================== *)

Section LinesOfText.

Local Open Scope string_scope.

Lemma file_lines_none (s : string) : file_lines s = [] -> s = "".
Proof.
  destruct s as [|c s]; [reflexivity|]. cbn [file_lines].
  destruct (Ascii.eqb c LF); [discriminate|].
  destruct (file_lines s); discriminate.
Qed.

(** The first line is the beginning of the text, and the other lines
    are the lines of the rest. *)
Lemma file_lines_head (s l : string) (ls : list string) :
  file_lines s = l :: ls -> exists rest, s = l ++ rest /\ file_lines rest = ls.
Proof.
  revert l ls. induction s as [|c s IH]; intros l ls; [discriminate|].
  cbn [file_lines]. destruct (Ascii.eqb c LF).
  - intros [= <- <-]. now exists s.
  - destruct (file_lines s) as [|l' ls'] eqn:E.
    + intros [= <- <-]. apply file_lines_none in E. subst s. now exists "".
    + intros [= <- <-]. destruct (IH l' ls' eq_refl) as (rest & -> & Hr).
      now exists rest.
Qed.

Lemma file_lines_contained (line : string) :
  forall s, In line (file_lines s) -> contains line s = true.
Proof.
  assert (H : forall lines s, file_lines s = lines -> In line lines ->
                              contains line s = true).
  { induction lines as [|l ls IH]; intros s Hs Hin; [contradiction|].
    destruct (file_lines_head s l ls Hs) as (rest & -> & Hr).
    destruct Hin as [->|Hin].
    - apply contains_prefix, prefix_append.
    - now apply contains_append_r, (IH rest). }
  intros s. now apply H.
Qed.

Lemma file_lines_app (a b : string) :
  file_lines (a ++ nl ++ b) = (file_lines (a ++ nl) ++ file_lines b)%list.
Proof.
  induction a as [|c a IH]; [reflexivity|].
  cbn [append file_lines]. destruct (Ascii.eqb c LF).
  - cbn [app]. f_equal. exact IH.
  - change (a ++ String (ascii_of_nat 10) b) with (a ++ nl ++ b).
    change (a ++ String (ascii_of_nat 10) "") with (a ++ nl).
    rewrite IH. destruct (file_lines (a ++ nl)) as [|l ls] eqn:E;
      [|reflexivity].
    apply file_lines_none in E. now destruct a.
Qed.

Lemma for_each_app {S : Type} (body : S -> string -> Py.result S)
      (l1 l2 : list string) (st : S) :
  for_each body (l1 ++ l2) st
  = (st' <- for_each body l1 st ;; for_each body l2 st').
Proof.
  revert st. induction l1 as [|line l1 IH]; intros st; [reflexivity|].
  cbn [app for_each]. destruct (body st line); cbn [Py.bind]; [apply IH|].
  reflexivity.
Qed.

(** Without a current rule, a line that is no header changes nothing. *)
Lemma calibre_lines_without_rule (lines : list string)
      (st : CalibreParser.state) :
  CalibreParser.current_rule st = None ->
  Forall (fun line => contains "RULECHECK" line = false) lines ->
  CalibreParser.parse_lines lines st = Py.Ok st.
Proof.
  intros Hrule Hall. unfold CalibreParser.parse_lines.
  induction Hall as [|line lines Hline Hall IH]; [reflexivity|].
  cbn [for_each]. unfold CalibreParser.parse_line.
  rewrite Hline, Hrule. cbn [Py.truthy]. rewrite !andb_false_r.
  cbn [Py.bind]. exact IH.
Qed.

Lemma prefix_drop_last (k0 : string) (l c : ascii) :
  l <> c ->
  forall s, prefix (k0 ++ String l "") (s ++ String c "") = true ->
            prefix (k0 ++ String l "") s = true.
Proof.
  intros Hne. induction k0 as [|x k0 IH]; intros s.
  - destruct s as [|y t]; cbn [append prefix].
    + destruct (ascii_dec l c); [contradiction | discriminate].
    + destruct (ascii_dec l y); [now destruct t | discriminate].
  - destruct s as [|y t]; cbn [append prefix].
    + destruct (ascii_dec x c); [|discriminate].
      destruct k0; discriminate.
    + destruct (ascii_dec x y); [apply IH | discriminate].
Qed.

(** A keyword found in a text with one more character, which is not
    the last of the keyword, is in the text. *)
Lemma contains_drop_last (k0 : string) (l c : ascii) :
  l <> c ->
  forall s, contains (k0 ++ String l "") (s ++ String c "") = true ->
            contains (k0 ++ String l "") s = true.
Proof.
  intros Hne. induction s as [|d s IH]; intros H.
  - apply contains_prefix, (prefix_drop_last k0 l c Hne "").
    cbn [append contains] in H. apply orb_true_iff in H as [H|H];
      [exact H|].
    cbn [contains] in H. rewrite orb_false_r in H.
    destruct k0; discriminate.
  - cbn [append contains] in H. apply orb_true_iff in H as [H|H].
    + apply contains_prefix.
      exact (prefix_drop_last k0 l c Hne (String d s) H).
    + cbn [contains]. rewrite (IH H). apply orb_true_r.
Qed.

(** X26.  What a Calibre report says before its first RULECHECK header
    is dropped: violations that stand before any header belong to no
    rule, and the report parses as the text after them does. *)
Theorem text_before_first_header_dropped :
  forall (fs : Py.FileSystem) (filename before after : string),
    contains "RULECHECK" before = false ->
    let with_text content :=
      {| Py.files := Py.dict_set (Py.files fs) filename content;
         Py.unwritable := Py.unwritable fs |} in
    CalibreParser.parse_file (with_text (before ++ nl ++ after)) filename
    = CalibreParser.parse_file (with_text after) filename.
Proof.
  intros fs filename before after Hno with_text.
  unfold CalibreParser.parse_file, Py.read_file, with_text.
  cbn [Py.files]. rewrite !dict_get_set_same. cbn [Py.bind].
  rewrite file_lines_app. unfold CalibreParser.parse_lines.
  rewrite for_each_app.
  fold (CalibreParser.parse_lines
          (file_lines (before ++ nl))
          {| CalibreParser.violations := [];
             CalibreParser.current_rule := None |}).
  rewrite calibre_lines_without_rule; [reflexivity | reflexivity |].
  apply Forall_forall. intros line Hin.
  destruct (contains "RULECHECK" line) eqn:E; [|reflexivity].
  apply file_lines_contained in Hin.
  pose proof (contains_trans _ _ _ E Hin) as Hc.
  assert (Hb : contains "RULECHECK" before = true); [|congruence].
  apply (contains_drop_last "RULECHEC" "K" LF); [discriminate | exact Hc].
Qed.

End LinesOfText.

Lemma text_before_first_header_dropped_witness :
  let fs := {| Py.files := []; Py.unwritable := [] |} in
  let with_text content :=
    {| Py.files := [("calibre.rpt", content)]; Py.unwritable := [] |} in
  CalibreParser.parse_file
    (with_text ("POLYGON ( 1 2 )" ++ nl ++ "RULECHECK R1" ++ nl
                  ++ "POLYGON ( 3 4 )" ++ nl)%string) "calibre.rpt"
  = CalibreParser.parse_file
      (with_text ("RULECHECK R1" ++ nl ++ "POLYGON ( 3 4 )" ++ nl)%string)
      "calibre.rpt".
Proof.
  intros fs with_text.
  apply (text_before_first_header_dropped
           fs "calibre.rpt" "POLYGON ( 1 2 )"
           ("RULECHECK R1" ++ nl ++ "POLYGON ( 3 4 )" ++ nl)%string).
  reflexivity.
Defined.

Section CalibreLines.

Local Open Scope string_scope.

Ltac by_cases_on_char c :=
  destruct c as [[] [] [] [] [] [] [] []]; vm_compute; congruence.

Lemma coord_not_space (c : ascii) : coord_char c = true -> isspace c = false.
Proof. by_cases_on_char c. Qed.

Lemma space_not_coord (c : ascii) : isspace c = true -> coord_char c = false.
Proof. by_cases_on_char c. Qed.

Lemma coord_not_sep (c : ascii) : coord_char c = true -> sep_char c = false.
Proof. by_cases_on_char c. Qed.

Lemma sep_not_coord (c : ascii) : sep_char c = true -> coord_char c = false.
Proof. by_cases_on_char c. Qed.

Lemma space_is_space (c : ascii) : isspace c = true -> nonspace c = false.
Proof. unfold nonspace. now intros ->. Qed.

Lemma nonspace_not_space (c : ascii) : nonspace c = true -> isspace c = false.
Proof. unfold nonspace. now destruct (isspace c). Qed.

(** A character that is not in [pre] does not begin a rest of [pre]. *)
Lemma char_not_before (c : ascii) (pre u v rest : string) :
  contains (String c "") pre = false -> pre = u ++ v -> v <> "" ->
  strip_prefix (String c "") (v ++ rest) = None.
Proof.
  intros Hno -> Hv. rewrite contains_char_app in Hno.
  apply orb_false_iff in Hno as [_ Hno].
  destruct v as [|d v]; [congruence|].
  rewrite contains_char_cons in Hno. apply orb_false_iff in Hno as [Hd _].
  cbn [append strip_prefix]. now rewrite Hd.
Qed.

Lemma search_rulecheck (pre ws name tail : string) :
  contains "RULECHECK" (pre ++ "RULECHEC") = false ->
  made_of isspace ws = true -> made_of nonspace name = true ->
  stops nonspace tail = true ->
  search rulecheck_re (pre ++ "RULECHECK" ++ ws ++ name ++ tail)
  = Some [(1%nat, name)].
Proof.
  intros Hno Hws Hname Htail. rewrite search_skip.
  - apply search_here. unfold re_match, match_here, rulecheck_re.
    match goal with |- option_map fst ?b = _ =>
      assert (H : b = Some ([(1%nat, name)], tail)) end; [|now rewrite H].
    cbn [cat]. rewrite bt_Seq. apply bt_Lit_complete.
    rewrite bt_Seq. apply bt_run_complete; [assumption | |].
    { apply stops_after_run with (cls' := nonspace);
        [apply nonspace_not_space | assumption]. }
    rewrite bt_Group. apply bt_run_complete; [assumption.. |].
    now rewrite consumed_append.
  - intros u v Hpre Hv. unfold re_match, match_here, rulecheck_re.
    cbn [cat bt].
    now rewrite (keyword_not_before "RULECHECK" "RULECHEC" "K" pre u v).
Qed.

Lemma search_coords (pre ws0 x ws1 y ws2 tail : string) :
  contains "(" pre = false ->
  all_in isspace ws0 = true -> made_of coord_char x = true ->
  made_of isspace ws1 = true -> made_of coord_char y = true ->
  all_in isspace ws2 = true ->
  search coords_re (pre ++ "(" ++ ws0 ++ x ++ ws1 ++ y ++ ws2 ++ ")" ++ tail)
  = Some [(2%nat, y); (1%nat, x)].
Proof.
  intros Hno Hws0 Hx Hws1 Hy Hws2. rewrite search_skip.
  - apply search_here. unfold re_match, match_here, coords_re.
    match goal with |- option_map fst ?b = _ =>
      assert (H : b = Some ([(2%nat, y); (1%nat, x)], tail)) end;
      [|now rewrite H].
    cbn [cat]. rewrite bt_Seq. apply (bt_Lit_complete "(").
    rewrite bt_Seq. apply bt_Star_complete; [assumption | |].
    { apply stops_after_run with (cls' := coord_char);
        [apply coord_not_space | assumption]. }
    rewrite bt_Seq, bt_Group. apply bt_run_complete; [assumption | |].
    { apply stops_after_run with (cls' := isspace);
        [apply space_not_coord | assumption]. }
    rewrite consumed_append.
    rewrite bt_Seq. apply bt_run_complete; [assumption | |].
    { apply stops_after_run with (cls' := coord_char);
        [apply coord_not_space | assumption]. }
    rewrite bt_Seq, bt_Group. apply bt_run_complete; [assumption | |].
    { apply stops_after_opt with (cls' := isspace);
        [apply space_not_coord | assumption | reflexivity]. }
    rewrite consumed_append.
    rewrite bt_Seq. apply bt_Star_complete; [assumption | reflexivity |].
    now apply (bt_Lit_complete ")").
  - intros u v Hpre Hv. unfold re_match, match_here, coords_re.
    cbn [cat bt]. now rewrite (char_not_before "(" pre u v).
Qed.

(** X27.  A line in which RULECHECK is followed by white space and a
    name makes that name - the text up to the next white space after the
    first such RULECHECK - the current rule, and adds no violation,
    whatever else the line holds. *)
Theorem rulecheck_header_names_rule :
  forall (st : CalibreParser.state) (pre ws name tail : string),
    contains "RULECHECK" (pre ++ "RULECHEC") = false ->
    made_of isspace ws = true -> made_of nonspace name = true ->
    stops nonspace tail = true ->
    CalibreParser.parse_line st (pre ++ "RULECHECK" ++ ws ++ name ++ tail)
    = Py.Ok {| CalibreParser.violations := CalibreParser.violations st;
               CalibreParser.current_rule := Some name |}.
Proof.
  intros st pre ws name tail Hno Hws Hname Htail.
  unfold CalibreParser.parse_line.
  rewrite (contains_middle "RULECHECK" pre (ws ++ name ++ tail)).
  now rewrite search_rulecheck.
Qed.

(** X28.  A POLYGON line, or an EDGE line without POLYGON in it, read
    under a current rule, adds one violation of that rule at the end of
    the rule's list: its location is the first pair of numbers in
    parentheses on the line, its type [polygon] or [edge]; further pairs
    are not read.  When one of the two numbers does not convert, the
    call raises [ValueError]. *)
Theorem first_pair_is_location :
  forall (st : CalibreParser.state) (rule type : string)
         (pre ws0 x ws1 y ws2 tail : string),
    let line := pre ++ "(" ++ ws0 ++ x ++ ws1 ++ y ++ ws2 ++ ")" ++ tail in
    CalibreParser.current_rule st = Some rule -> rule <> "" ->
    contains "RULECHECK" line = false ->
    (type = "polygon" /\ contains "POLYGON" line = true)
    \/ (type = "edge" /\ contains "POLYGON" line = false
        /\ contains "EDGE" line = true) ->
    contains "(" pre = false ->
    all_in isspace ws0 = true -> made_of coord_char x = true ->
    made_of isspace ws1 = true -> made_of coord_char y = true ->
    all_in isspace ws2 = true ->
    CalibreParser.parse_line st line
    = (x' <- float_of_token x ;;
       y' <- float_of_token y ;;
       Py.Ok {| CalibreParser.violations :=
                  dict_append (CalibreParser.violations st) rule
                    {| Violation.rule := rule; Violation.x := x';
                       Violation.y := y'; Violation.type := type |};
                CalibreParser.current_rule := Some rule |}).
Proof.
  intros st rule type pre ws0 x ws1 y ws2 tail line Hrule Hne Hhead Htype
         Hno Hws0 Hx Hws1 Hy Hws2.
  assert (Hadd : CalibreParser.add_violation st line type
                 = (x' <- float_of_token x ;;
                    y' <- float_of_token y ;;
                    Py.Ok {| CalibreParser.violations :=
                               dict_append (CalibreParser.violations st) rule
                                 {| Violation.rule := rule; Violation.x := x';
                                    Violation.y := y';
                                    Violation.type := type |};
                             CalibreParser.current_rule := Some rule |})).
  { unfold CalibreParser.add_violation, CalibreParser._extract_coords.
    subst line. rewrite search_coords by assumption.
    unfold grp. cbn [group Nat.eqb Py.text]. rewrite Hrule.
    destruct (float_of_token x) as [x'|]; cbn [Py.bind]; [|reflexivity].
    destruct (float_of_token y) as [y'|]; cbn [Py.bind]; reflexivity. }
  unfold CalibreParser.parse_line. rewrite Hhead, Hrule.
  assert (Htruthy : Py.truthy (Some rule) = true)
    by (destruct rule; [congruence | reflexivity]).
  rewrite Htruthy, !andb_true_r.
  destruct Htype as [[-> Hp]|(-> & Hp & He)].
  - rewrite Hp. exact Hadd.
  - rewrite Hp, He. exact Hadd.
Qed.

End CalibreLines.

Lemma rulecheck_header_names_rule_witness :
  CalibreParser.parse_line
    {| CalibreParser.violations := []; CalibreParser.current_rule := None |}
    ("RULECHECK M1.W.1 ........ TOTAL Result Count = 2" ++ nl)%string
  = Py.Ok {| CalibreParser.violations := [];
             CalibreParser.current_rule := Some "M1.W.1" |}.
Proof.
  apply (rulecheck_header_names_rule
           {| CalibreParser.violations := [];
              CalibreParser.current_rule := None |}
           "" " " "M1.W.1"
           (" ........ TOTAL Result Count = 2" ++ nl)%string);
    reflexivity.
Defined.

Lemma first_pair_is_location_witness :
  CalibreParser.parse_line
    {| CalibreParser.violations := [];
       CalibreParser.current_rule := Some "M1.W.1" |}
    ("POLYGON ( 10.5 20.3 ) ( 15.7 25.8 )" ++ nl)%string
  = Py.Ok {| CalibreParser.violations :=
               [("M1.W.1", [{| Violation.rule := "M1.W.1";
                               Violation.x := Float.lit "10.5";
                               Violation.y := Float.lit "20.3";
                               Violation.type := "polygon" |}])];
             CalibreParser.current_rule := Some "M1.W.1" |}.
Proof.
  etransitivity.
  - apply (first_pair_is_location
             {| CalibreParser.violations := [];
                CalibreParser.current_rule := Some "M1.W.1" |}
             "M1.W.1" "polygon" "POLYGON " " " "10.5" " " "20.3" " "
             (" ( 15.7 25.8 )" ++ nl)%string);
      try reflexivity; [discriminate | left; split; reflexivity].
  - vm_compute. reflexivity.
Defined.

(* ====================================================================== *)
(** * The ICV parser: lines *)
(* ====================================================================== *)

Section ICVLines.

Local Open Scope string_scope.

Lemma lazy_in_line_here {A : Type} (s : string) (g : groups) (k : cont)
      (a : A) :
  k s g = Some a -> ICVParser.lazy_in_line s g k = Some a.
Proof.
  intros H. destruct s; cbn [ICVParser.lazy_in_line]; unfold orelse;
    now rewrite H.
Qed.

(** The lazy run passes over the positions of a line at which the rest
    of the pattern does not match. *)
Lemma lazy_in_line_skip {A : Type} (gap s : string) (g : groups)
      (k : @cont A) :
  all_in plain_char gap = true ->
  (forall u v, gap = u ++ v -> v <> "" -> k (v ++ s) g = None) ->
  ICVParser.lazy_in_line (gap ++ s) g k = ICVParser.lazy_in_line s g k.
Proof.
  induction gap as [|c gap IH]; intros Hgap Hk; [reflexivity|].
  cbn [all_in] in Hgap. apply andb_true_iff in Hgap as [Hc Hgap].
  cbn [append ICVParser.lazy_in_line]. unfold orelse.
  assert (H0 : k (String c gap ++ s) g = None)
    by (apply (Hk "" (String c gap)); [reflexivity | discriminate]).
  cbn [append] in H0. rewrite H0.
  unfold plain_char in Hc. apply andb_true_iff in Hc as [_ Hc].
  apply negb_true_iff in Hc. rewrite Hc.
  apply IH; [exact Hgap|].
  intros u v -> Hv. apply (Hk (String c u) v); auto.
Qed.

Lemma violation_search_here (s : string) (m : groups) :
  ICVParser.violation_bt s [] (fun _ g => Some g) = Some m ->
  ICVParser.violation_search s = Some m.
Proof.
  intros H. destruct s; cbn [ICVParser.violation_search]; now rewrite H.
Qed.

Lemma violation_search_skip (pre s : string) :
  all_in nonword pre = true ->
  ICVParser.violation_search (pre ++ s) = ICVParser.violation_search s.
Proof.
  induction pre as [|c pre IH]; intros Hpre; [reflexivity|].
  cbn [all_in] in Hpre. apply andb_true_iff in Hpre as [Hc Hpre].
  cbn [append ICVParser.violation_search].
  unfold ICVParser.violation_bt at 1. cbn [bt].
  unfold nonword in Hc. apply negb_true_iff in Hc. rewrite Hc.
  now apply IH.
Qed.

Lemma stops_append (cls : ascii -> bool) (a b : string) :
  a <> "" -> stops cls a = true -> stops cls (a ++ b) = true.
Proof. intros Hne H. destruct a; [congruence | exact H]. Qed.

Lemma plain_stops_coord (v s : string) :
  all_in plain_char v = true -> v <> "" -> stops coord_char (v ++ s) = true.
Proof.
  intros Hv Hne. destruct v as [|c v]; [congruence|].
  cbn [all_in] in Hv. apply andb_true_iff in Hv as [Hc _].
  unfold plain_char in Hc. apply andb_true_iff in Hc as [Hc _].
  exact Hc.
Qed.

Lemma all_in_app_r (cls : ascii -> bool) (u v : string) :
  all_in cls (u ++ v) = true -> all_in cls v = true.
Proof.
  induction u as [|c u IH]; [auto|]. cbn [append all_in].
  intros H. apply andb_true_iff in H as [_ H]. auto.
Qed.

Variables (pre name gap x sep y tail : string).
Hypothesis Hpre : all_in nonword pre = true.
Hypothesis Hname : made_of isword name = true.
Hypothesis Hgap : all_in plain_char gap = true.
Hypothesis Hend : stops isword (gap ++ x) = true.
Hypothesis Hx : made_of coord_char x = true.
Hypothesis Hsep : made_of sep_char sep = true.
Hypothesis Hy : made_of coord_char y = true.
Hypothesis Htail : stops coord_char tail = true.

Lemma violation_search_line :
  ICVParser.violation_search (pre ++ name ++ gap ++ x ++ sep ++ y ++ tail)
  = Some [(3%nat, y); (2%nat, x); (1%nat, name)].
Proof.
  rewrite violation_search_skip by exact Hpre.
  apply violation_search_here. unfold ICVParser.violation_bt.
  rewrite bt_Group. apply bt_run_complete; [exact Hname | |].
  { rewrite <- append_assoc. apply stops_append; [|exact Hend].
    destruct (made_of_spec _ _ Hx) as [_ Hne]. destruct gap; [exact Hne|].
    discriminate. }
  rewrite consumed_append, lazy_in_line_skip; [|exact Hgap|].
  - apply lazy_in_line_here. cbn [cat].
    rewrite bt_Seq, bt_Group. apply bt_run_complete; [exact Hx | |].
    { apply stops_after_run with (cls' := sep_char);
        [apply sep_not_coord | exact Hsep]. }
    rewrite consumed_append.
    rewrite bt_Seq. apply bt_run_complete; [exact Hsep | |].
    { apply stops_after_run with (cls' := coord_char);
        [apply coord_not_sep | exact Hy]. }
    rewrite bt_Group. apply bt_run_complete; [exact Hy | exact Htail |].
    now rewrite consumed_append.
  - intros u v Huv Hv. cbn [cat]. rewrite bt_Seq, bt_Group.
    apply bt_Plus_stops, plain_stops_coord; [|exact Hv].
    rewrite Huv in Hgap. exact (all_in_app_r _ _ _ Hgap).
Qed.

(** X29.  A line of the ICV report that has the word [violation] in
    it, in whatever case, and reads: a name, text without digits, dots
    and minus signs, a number, commas or white space, a number - gives
    one violation of the rule of that name, of type [unknown], at the
    two numbers, added at the end of the rule's list (a new rule goes
    last).  The name is the first word of the line.  When one of the
    numbers does not convert, the call raises [ValueError]. *)
Theorem icv_line_read :
  forall report : Py.dict (list Violation.t),
    let line := pre ++ name ++ gap ++ x ++ sep ++ y ++ tail in
    contains "violation" (lower line) = true ->
    ICVParser.parse_line report line
    = (x' <- float_of_token x ;;
       y' <- float_of_token y ;;
       Py.Ok (dict_append report name
                {| Violation.rule := name; Violation.x := x';
                   Violation.y := y'; Violation.type := "unknown" |})).
Proof.
  intros report line Hword. unfold ICVParser.parse_line. rewrite Hword.
  subst line. rewrite violation_search_line.
  unfold grp. cbn [group Nat.eqb Py.text]. reflexivity.
Qed.

End ICVLines.

Lemma icv_line_read_witness :
  ICVParser.parse_line []
    ("  M1_W_1 VIOLATION at 10.5, -20.3 (layer M1)" ++ nl)%string
  = Py.Ok [("M1_W_1", [{| Violation.rule := "M1_W_1";
                          Violation.x := Float.lit "10.5";
                          Violation.y := neg (Float.lit "20.3");
                          Violation.type := "unknown" |}])].
Proof.
  etransitivity.
  - apply (icv_line_read "  " "M1_W_1" " VIOLATION at " "10.5" ", " "-20.3"
                         (" (layer M1)" ++ nl)%string); reflexivity.
  - vm_compute. reflexivity.
Defined.

(* ====================================================================== *)
(** * compare_variables.py: the status the program ends with *)
(* ====================================================================== *)

Section VariablesInSync.

Import VariableComparator.

Lemma floor_log2_self (p : positive) :
  Float.floor_log2 (Z.pos p) (Z.pos p) = 0%Z.
Proof.
  unfold Float.floor_log2, Float.floor_log. rewrite Z.sub_diag.
  cbn [Z.max Z.compare Z.opp]. rewrite Z.leb_refl. reflexivity.
Qed.

Lemma round_half_even_multiple (a b : Z) :
  (0 < b)%Z -> Float.round_half_even (b * a) b = a.
Proof.
  intros Hb. unfold Float.round_half_even.
  rewrite (Z.mul_comm b a), Z.div_mul, Z.mod_mul by lia.
  assert (H : (2 * 0 ?= b)%Z = Lt) by (apply Z.compare_lt_iff; lia).
  now rewrite H.
Qed.

(** A number divided by itself is 1.0. *)
Lemma true_div_self (n : Z) :
  (0 < n)%Z -> true_div n n = Float.Finite 1 0.
Proof.
  intros Hn. destruct n as [|p|p]; try lia.
  unfold true_div, Float.round64. cbn [Qnum Qden Z.to_pos Z.abs].
  rewrite floor_log2_self.
  change (Z.max (0 - 52) (-1074)) with (-52)%Z.
  change (Z.max 0 (- -52)) with 52%Z. change (Z.max 0 (-52)) with 0%Z.
  rewrite Z.pow_0_r, Z.mul_1_r.
  rewrite round_half_even_multiple by lia.
  reflexivity.
Qed.

Lemma mem_spec (name : string) (names : list string) :
  mem name names = true <-> In name names.
Proof.
  unfold mem. rewrite existsb_exists. split.
  - intros (x & Hx & E). apply String.eqb_eq in E. now subst.
  - intros H. exists name. split; [exact H | apply String.eqb_refl].
Qed.

Lemma filter_split {A : Type} (f : A -> bool) (l : list A) :
  (List.length (filter f l)
   + List.length (filter (fun x => negb (f x)) l))%nat = List.length l.
Proof.
  induction l as [|x l IH]; [reflexivity|]. cbn [filter].
  destruct (f x); cbn [negb List.length]; lia.
Qed.

Lemma diff_none (a b : list string) :
  diff a b = [] <-> (forall name, In name a -> In name b).
Proof.
  unfold diff. split.
  - intros H name Hin. apply mem_spec.
    destruct (mem name b) eqn:E; [reflexivity|].
    assert (Hf : In name (filter (fun n => negb (mem n b)) a))
      by (apply filter_In; now rewrite E).
    now rewrite H in Hf.
  - intros H. induction a as [|x a IH]; [reflexivity|]. cbn [filter].
    rewrite (proj2 (mem_spec x b) (H x (or_introl eq_refl))). cbn [negb].
    apply IH. intros name Hin. apply H. now right.
Qed.

Lemma name_set_In (name : string) (names : list string) :
  In name (name_set names) <-> In name names.
Proof. apply nodup_In. Qed.

Lemma name_set_none (names : list string) :
  name_set names = [] <-> names = [].
Proof.
  split; [|now intros ->]. intros H. destruct names as [|x l]; [reflexivity|].
  assert (Hin : In x (name_set (x :: l))) by (apply name_set_In; now left).
  now rewrite H in Hin.
Qed.

Lemma len_none {A : Type} (l : list A) : len l = 0%Z <-> l = [].
Proof.
  unfold len. split; [|now intros ->].
  destruct l; [reflexivity | cbn [List.length]; lia].
Qed.

Lemma len_nonneg {A : Type} (l : list A) : (0 <= len l)%Z.
Proof. unfold len. lia. Qed.

Variable comp : VariableComparator.t.

(** The statistics count the names of the Calibre file once: those the
    ICV file has too, and those it has not. *)
Lemma matching_and_only :
  (matching (compare comp) + cal_only (compare comp)
   = total_cal (compare comp))%Z.
Proof.
  unfold compare. cbn [matching cal_only total_cal]. unfold len, inter, diff.
  rewrite <- Nat2Z.inj_add. f_equal. apply filter_split.
Qed.

Lemma exit_status_values :
  exit_status (compare comp) = 0%Z \/ exit_status (compare comp) = 1%Z.
Proof.
  unfold exit_status.
  repeat match goal with
         | |- context [if ?c then _ else _] => destruct c
         end; auto.
Qed.

Lemma exit_status_in_sync :
  exit_status (compare comp) = 0%Z
  <-> (0 < total_cal (compare comp))%Z
      /\ cal_only (compare comp) = 0%Z /\ icv_only (compare comp) = 0%Z.
Proof.
  pose proof matching_and_only as Hsum.
  assert (Hc : (0 <= cal_only (compare comp))%Z) by apply len_nonneg.
  assert (Hi : (0 <= icv_only (compare comp))%Z) by apply len_nonneg.
  unfold exit_status. split.
  - destruct (0 <? total_cal (compare comp))%Z eqn:Ht; [|discriminate].
    apply Z.ltb_lt in Ht.
    destruct (Float.ltb _ _); [discriminate|].
    destruct (0 <? cal_only (compare comp))%Z eqn:E1; [discriminate|].
    destruct (0 <? icv_only (compare comp))%Z eqn:E2; [discriminate|].
    apply Z.ltb_ge in E1, E2. intros _. lia.
  - intros (Ht & H1 & H2).
    rewrite (proj2 (Z.ltb_lt _ _) Ht). rewrite H1, H2. cbn [Z.ltb Z.compare orb].
    replace (matching (compare comp)) with (total_cal (compare comp)) by lia.
    rewrite true_div_self by exact Ht.
    assert (Hrate : Float.ltb (Float.Finite 1 0) (Float.lit "0.8") = false)
      by (vm_compute; reflexivity).
    now rewrite Hrate.
Qed.

(** X30.  When the two files are parsed, the program ends with status
    0 exactly when the Calibre file defines a variable and the two files
    define the same names; in every other case the status is 1.  The
    match rate plays no part in the status: a rate below 0.8 only
    happens with a name that is missing in the ICV file.  A run that
    ends with status 0 has written no script, asked for or not. *)
Theorem status_zero_when_same_names :
  forall (sync_script : option string) (fs : Py.FileSystem),
    let cal := Py.keys (cal_variables comp) in
    let icv := Py.keys (icv_variables comp) in
    let result := main_after_parsing comp sync_script fs in
    (fst result = 0%Z \/ fst result = 1%Z)
    /\ (fst result = 0%Z
        <-> cal <> [] /\ forall name, In name cal <-> In name icv)
    /\ (fst result = 0%Z -> snd result = fs).
Proof.
  intros sync_script fs cal icv result.
  assert (Hsync : exit_status (compare comp) = 0%Z
                  <-> cal <> [] /\ forall name, In name cal <-> In name icv).
  { rewrite exit_status_in_sync. unfold compare.
    cbn [total_cal cal_only icv_only]. fold cal icv.
    rewrite !len_none, !diff_none. split.
    - intros (Ht & H1 & H2). split.
      + intros E. rewrite E in Ht. cbn in Ht. lia.
      + intros name. split; intros Hin; apply name_set_In;
          [apply H1 | apply H2]; apply name_set_In; exact Hin.
    - intros (Hne & Hsame). split; [|split].
      + assert (len (name_set cal) <> 0%Z)
          by (rewrite len_none, name_set_none; exact Hne).
        pose proof (len_nonneg (name_set cal)). lia.
      + intros name. rewrite !name_set_In. apply Hsame.
      + intros name. rewrite !name_set_In. apply Hsame. }
  assert (Hmissing : exit_status (compare comp) = 0%Z ->
                     diff (name_set cal) (name_set icv) = []).
  { rewrite exit_status_in_sync. unfold compare. cbn [cal_only].
    fold cal icv. rewrite len_none. tauto. }
  subst result. unfold main_after_parsing.
  destruct (Py.truthy sync_script).
  - unfold generate_sync_script. fold cal icv.
    destruct (diff (name_set cal) (name_set icv)) as [|missing rest] eqn:E.
    + cbn [fst snd]. split; [apply exit_status_values|]. split; [exact Hsync|].
      reflexivity.
    + assert (Hnot : exit_status (compare comp) <> 0%Z)
        by (intros H; now apply Hmissing in H).
      destruct (Py.write_file fs (Py.text sync_script) _) as [fs'|e];
        cbn [fst snd].
      * split; [apply exit_status_values|]. split; [exact Hsync|].
        intros H. contradiction.
      * split; [now right|]. split; [|discriminate].
        split; [discriminate|]. intros H. now apply Hsync in H.
  - cbn [fst snd]. split; [apply exit_status_values|]. split; [exact Hsync|].
    reflexivity.
Qed.

End VariablesInSync.

Lemma status_zero_when_same_names_witness :
  let variable definition :=
    {| VariableComparator.type := "layer";
       VariableComparator.definition := definition;
       VariableComparator.line := 1 |} in
  let comp :=
    {| VariableComparator.cal_variables :=
         [("M1", variable "LAYER M1 10 DATATYPE 0");
          ("V1", variable "LAYER V1 20 DATATYPE 0")];
       VariableComparator.icv_variables :=
         [("V1", variable "V1 = layer(20, 0);");
          ("M1", variable "M1 = layer(10, 0);")] |} in
  let fs := {| Py.files := []; Py.unwritable := [] |} in
  VariableComparator.main_after_parsing comp (Some "missing.rs") fs
  = (0%Z, fs).
Proof.
  intros variable comp fs.
  destruct (status_zero_when_same_names comp (Some "missing.rs") fs)
    as (_ & Hstatus & Hfiles).
  assert (H0 : fst (VariableComparator.main_after_parsing
                      comp (Some "missing.rs") fs) = 0%Z).
  { apply Hstatus. split; [discriminate|].
    intros name. cbn. tauto. }
  specialize (Hfiles H0).
  destruct (VariableComparator.main_after_parsing comp (Some "missing.rs") fs)
    as [status fs'].
  cbn [fst snd] in H0, Hfiles. now subst.
Defined.
